(** * HDB resale map: the dataset-merge pipeline and the read API

    A shallow embedding of the repository's Python sources:

    - [src/monthly_data_extractor.py]       (module [Extractor])
    - [src/api/monthly_data_extractor.py]   (module [ApiMonthly])
    - [src/api/daily_data_extractor.py]     (module [Daily])
    - [src/app.py]                          (module [App])

    Python objects are modelled by [Json] (decoded HTTP bodies, JSON files)
    and [Value] (the cells of a pandas DataFrame); a DataFrame is a list of
    column labels and a list of rows, a row being a finite map from column
    label to cell, where an absent key is pandas' NaN / NaT.  Code that
    talks to the network, the file system, the clock or the logger runs in
    the state-and-exception monad [M] over [World]. *)

From Stdlib Require Import ZArith QArith String Ascii.
From stdpp Require Import gmap strings list fin_maps pretty.

Local Open Scope string_scope.
Local Open Scope Z_scope.
Local Open Scope list_scope.
Local Open Scope stdpp_scope.
Set Warnings "-register-all".

(** ** Python objects *)

Record Date := mkDate { dt_year : Z; dt_month : Z; dt_day : Z }.

Inductive Json :=
  | JNull
  | JNaN
  | JBool (b : bool)
  | JNum (q : Q)
  | JStr (s : string)
  | JArr (l : list Json)
  | JObj (l : list (string * Json)).

(** A DataFrame cell.  [VObj] holds a list or a dict. *)
Inductive Value :=
  | VStr (s : string)
  | VNum (q : Q)
  | VBool (b : bool)
  | VDate (d : Date)
  | VObj (j : Json).

Abbreviation Row := (gmap string Value).

Record DataFrame := mkDF { columns : list string; rows : list Row }.

Inductive Exn :=
  | KeyError (k : string)
  | TypeError
  | ValueError
  | IndexError
  | AttributeError
  | ConnectionError
  | ParserError
  | OSError.

(** Pure code that may raise. *)
Definition Res (A : Type) : Type := (Exn + A)%type.

#[global] Instance Res_ret : MRet Res := fun A x => inr x.
#[global] Instance Res_bind : MBind Res := fun A B f m =>
  match m with
  | inl e => inl e
  | inr x => f x
  end.

(** ** Strings *)

Definition is_digit (c : ascii) : bool :=
  let n := nat_of_ascii c in (48 <=? n)%nat && (n <=? 57)%nat.

Fixpoint parse_digits (s : string) (acc : Z) : option Z :=
  match s with
  | EmptyString => Some acc
  | String c s' =>
      if is_digit c
      then parse_digits s' (10 * acc + (Z.of_nat (nat_of_ascii c) - 48))
      else None
  end.

Definition parse_nat (s : string) : option Z :=
  match s with
  | EmptyString => None
  | _ => parse_digits s 0
  end.

(** [sub in s] on Python strings. *)
Fixpoint contains (sub s : string) : bool :=
  String.prefix sub s ||
  match s with
  | EmptyString => false
  | String _ s' => contains sub s'
  end.

Definition startswith (s p : string) : bool := String.prefix p s.

Fixpoint map_string (f : ascii -> ascii) (s : string) : string :=
  match s with
  | EmptyString => EmptyString
  | String c s' => String (f c) (map_string f s')
  end.

(** [s.replace(a, b)] for single characters. *)
Definition replace_char (a b : ascii) (s : string) : string :=
  map_string (fun c => if Ascii.eqb c a then b else c) s.

Definition upper_char (c : ascii) : ascii :=
  let n := nat_of_ascii c in
  if (97 <=? n)%nat && (n <=? 122)%nat then ascii_of_nat (n - 32) else c.

Definition upper (s : string) : string := map_string upper_char s.

Definition is_space (c : ascii) : bool :=
  let n := nat_of_ascii c in
  (n =? 32)%nat || ((9 <=? n)%nat && (n <=? 13)%nat).

Fixpoint lstrip (s : string) : string :=
  match s with
  | String c s' => if is_space c then lstrip s' else s
  | EmptyString => EmptyString
  end.

Definition strip (s : string) : string :=
  String.rev (lstrip (String.rev (lstrip s))).

(** [s.split(sep)] for a single-character separator. *)
Fixpoint split_on (sep : ascii) (s : string) (cur : string) : list string :=
  match s with
  | EmptyString => [String.rev cur]
  | String c s' =>
      if Ascii.eqb c sep
      then String.rev cur :: split_on sep s' EmptyString
      else split_on sep s' (String c cur)
  end.

Definition split (sep : ascii) (s : string) : list string :=
  split_on sep s EmptyString.

(** [str(n)] and the format specifier [{n:02d}]. *)
Definition str_Z (n : Z) : string := pretty n.

Definition fmt_02d (n : Z) : string :=
  if (0 <=? n) && (n <? 10) then "0" +:+ pretty n else pretty n.

(** Truthiness of an optional integer and of an optional string. *)
Definition truthy_Z (o : option Z) : bool :=
  match o with
  | Some z => negb (z =? 0)
  | None => false
  end.

Definition truthy_str (o : option string) : bool :=
  match o with
  | Some s => negb (String.eqb s "")
  | None => false
  end.

(** ** Dates: [pd.Timestamp] at midnight *)

Definition is_leap (y : Z) : bool :=
  ((y mod 4 =? 0) && negb (y mod 100 =? 0)) || (y mod 400 =? 0).

Definition days_in_month (y m : Z) : Z :=
  if m =? 2 then (if is_leap y then 29 else 28)
  else if (m =? 4) || (m =? 6) || (m =? 9) || (m =? 11) then 30
  else 31.

Definition valid_date (d : Date) : bool :=
  (1 <=? dt_month d) && (dt_month d <=? 12) &&
  (1 <=? dt_day d) && (dt_day d <=? days_in_month (dt_year d) (dt_month d)).

(** [d + pd.offsets.MonthEnd(0)]: roll forward to the end of the month. *)
Definition MonthEnd0 (d : Date) : Date :=
  mkDate (dt_year d) (dt_month d) (days_in_month (dt_year d) (dt_month d)).

Definition date_leb (a b : Date) : bool :=
  (dt_year a <? dt_year b) ||
  ((dt_year a =? dt_year b) &&
   ((dt_month a <? dt_month b) ||
    ((dt_month a =? dt_month b) && (dt_day a <=? dt_day b)))).

Definition date_eqb (a b : Date) : bool :=
  (dt_year a =? dt_year b) && (dt_month a =? dt_month b) && (dt_day a =? dt_day b).

Definition option_res {A} (e : Exn) (o : option A) : Res A :=
  match o with
  | Some x => inr x
  | None => inl e
  end.

Definition check_date (d : Date) : Res Date :=
  if valid_date d then inr d else inl ValueError.

(** [pd.to_datetime] on a string, for the ISO forms ["YYYY-MM-DD"] and
    ["YYYY-MM"] that the pipeline produces; anything else raises. *)
Definition to_datetime (s : string) : Res Date :=
  match String.length s with
  | 10%nat =>
      if String.eqb (substring 4 1 s) "-" && String.eqb (substring 7 1 s) "-"
      then
        y ← option_res ValueError (parse_nat (substring 0 4 s));
        m ← option_res ValueError (parse_nat (substring 5 2 s));
        d ← option_res ValueError (parse_nat (substring 8 2 s));
        check_date (mkDate y m d)
      else inl ValueError
  | 7%nat =>
      if String.eqb (substring 4 1 s) "-"
      then
        y ← option_res ValueError (parse_nat (substring 0 4 s));
        m ← option_res ValueError (parse_nat (substring 5 2 s));
        check_date (mkDate y m 1)
      else inl ValueError
  | _ => inl ValueError
  end.

(** [d.strftime('%Y-%m-%d')] and [d.strftime('%Y-%m')]. *)
Definition fmt_04d (n : Z) : string :=
  if (0 <=? n) && (n <? 10) then "000" +:+ pretty n
  else if (0 <=? n) && (n <? 100) then "00" +:+ pretty n
  else if (0 <=? n) && (n <? 1000) then "0" +:+ pretty n
  else pretty n.

Definition strftime_ymd (d : Date) : string :=
  fmt_04d (dt_year d) +:+ "-" +:+ fmt_02d (dt_month d) +:+ "-" +:+ fmt_02d (dt_day d).

Definition strftime_ym (d : Date) : string :=
  fmt_04d (dt_year d) +:+ "-" +:+ fmt_02d (dt_month d).

(** ** JSON objects as Python sees them *)

(** Decoding keeps the last binding of a repeated key. *)
Fixpoint assoc_first {A} (k : string) (l : list (string * A)) : option A :=
  match l with
  | [] => None
  | (k', v) :: l' => if String.eqb k' k then Some v else assoc_first k l'
  end.

Definition json_field (k : string) (l : list (string * Json)) : option Json :=
  assoc_first k (reverse l).

Definition is_JStr (k : string) (j : Json) : bool :=
  match j with
  | JStr s => String.eqb s k
  | _ => false
  end.

(** [k in j] *)
Definition py_in (k : string) (j : Json) : Res bool :=
  match j with
  | JObj l => inr (bool_decide (is_Some (json_field k l)))
  | JArr l => inr (existsb (is_JStr k) l)
  | JStr s => inr (contains k s)
  | JNull | JNaN | JBool _ | JNum _ => inl TypeError
  end.

(** [j[k]] for a string key. *)
Definition getitem (j : Json) (k : string) : Res Json :=
  match j with
  | JObj l => option_res (KeyError k) (json_field k l)
  | _ => inl TypeError
  end.

(** [j[0]] *)
Definition getitem0 (j : Json) : Res Json :=
  match j with
  | JArr (x :: _) => inr x
  | JArr [] => inl IndexError
  | JStr (String c _) => inr (JStr (String c EmptyString))
  | JStr EmptyString => inl IndexError
  | JObj _ => inl (KeyError "0")
  | _ => inl TypeError
  end.

(** Truthiness, as in [if location:]. *)
Definition json_truthy (j : Json) : bool :=
  match j with
  | JNull => false
  | JNaN => true
  | JBool b => b
  | JNum q => negb (Qeq_bool q 0)
  | JStr s => negb (String.eqb s "")
  | JArr l => negb (bool_decide (l = []))
  | JObj l => negb (bool_decide (l = []))
  end.

(** [j == 0] *)
Definition json_is_zero (j : Json) : bool :=
  match j with
  | JNum q => Qeq_bool q 0
  | JBool b => negb b
  | _ => false
  end.

(** ** Cells *)

(** A decoded JSON value stored in a cell; [null] and [NaN] are missing. *)
Definition value_of_json (j : Json) : option Value :=
  match j with
  | JNull | JNaN => None
  | JBool b => Some (VBool b)
  | JNum q => Some (VNum q)
  | JStr s => Some (VStr s)
  | JArr _ | JObj _ => Some (VObj j)
  end.

(** What [json.dump] writes for a cell; a Timestamp is not serializable. *)
Definition json_of_cell (c : option Value) : Res Json :=
  match c with
  | None => inr JNaN
  | Some (VStr s) => inr (JStr s)
  | Some (VNum q) => inr (JNum q)
  | Some (VBool b) => inr (JBool b)
  | Some (VDate _) => inl TypeError
  | Some (VObj j) => inr j
  end.

(** [c == s] for a string literal [s]. *)
Definition cell_is_str (s : string) (c : option Value) : bool :=
  match c with
  | Some (VStr s') => String.eqb s' s
  | _ => false
  end.

(** Equality of hashable cells, as [set] and [isin] see it: numbers and
    booleans compare by value, a missing cell matches a missing cell. *)
Definition num_of_bool (b : bool) : Q := if b then 1%Q else 0%Q.

Definition value_eqb (a b : Value) : bool :=
  match a, b with
  | VStr s, VStr t => String.eqb s t
  | VNum p, VNum q => Qeq_bool p q
  | VBool x, VBool y => Bool.eqb x y
  | VBool x, VNum q | VNum q, VBool x => Qeq_bool (num_of_bool x) q
  | VDate d, VDate e => date_eqb d e
  | _, _ => false
  end.

Definition cell_eqb (a b : option Value) : bool :=
  match a, b with
  | None, None => true
  | Some x, Some y => value_eqb x y
  | _, _ => false
  end.

Definition hashable (c : option Value) : bool :=
  match c with
  | Some (VObj _) => false
  | _ => true
  end.

Definition cell_in (c : option Value) (l : list (option Value)) : bool :=
  existsb (cell_eqb c) l.

(** [float(x)]: a number, or a string holding a decimal literal. *)
Definition parse_decimal (s : string) : option Q :=
  let '(neg, body) :=
    match s with
    | String "-" s' => (true, s')
    | String "+" s' => (false, s')
    | _ => (false, s)
    end in
  let sign (q : Q) : Q := if neg then Qopp q else q in
  match split "." body with
  | [i] => z ← parse_nat i; Some (sign (inject_Z z))
  | [i; f] =>
      z ← parse_nat i;
      n ← parse_nat f;
      Some (sign (Qred (inject_Z z + Qmake n (Pos.pow 10 (Pos.of_nat (String.length f))))))
  | _ => None
  end.

Definition float (c : option Value) : Res Q :=
  match c with
  | Some (VNum q) => inr q
  | Some (VBool b) => inr (num_of_bool b)
  | Some (VStr s) => option_res ValueError (parse_decimal (strip s))
  | None => inl ValueError
  | Some (VDate _) | Some (VObj _) => inl TypeError
  end.

(** [pd.to_numeric(x, errors='coerce')] on one cell. *)
Definition to_numeric_coerce (c : option Value) : option Value :=
  match float c with
  | inr q => Some (VNum q)
  | inl _ => None
  end.

(** [pd.to_datetime] on one cell. *)
Definition to_datetime_cell (c : option Value) : Res (option Value) :=
  match c with
  | None => inr None
  | Some (VDate d) => inr (Some (VDate d))
  | Some (VStr s) => d ← to_datetime s; inr (Some (VDate d))
  | Some (VNum _) => inl ValueError
  | Some (VBool _) | Some (VObj _) => inl TypeError
  end.

(** [lo <= c <= hi] on a datetime column: NaT compares false, a cell that
    is not a date cannot be compared with a Timestamp. *)
Definition cell_between (lo hi : Date) (c : option Value) : Res bool :=
  match c with
  | None => inr false
  | Some (VDate d) => inr (date_leb lo d && date_leb d hi)
  | Some _ => inl TypeError
  end.

(** ** DataFrames *)

Definition df_empty : DataFrame := mkDF [] [].

Definition len (df : DataFrame) : nat := length (rows df).

Definition has_col (c : string) (df : DataFrame) : bool :=
  bool_decide (c ∈ columns df).

(** [df[c]] *)
Definition col (df : DataFrame) (c : string) : Res (list (option Value)) :=
  if has_col c df then inr ((fun r : Row => r !! c) <$> rows df)
  else inl (KeyError c).

Definition set_cell (c : string) (v : option Value) (r : Row) : Row :=
  match v with
  | Some x => <[c := x]> r
  | None => delete c r
  end.

(** [df[c] = vals], one value per row. *)
Definition set_col (c : string) (vals : list (option Value)) (df : DataFrame)
  : DataFrame :=
  mkDF (if has_col c df then columns df else columns df ++ [c])
       (zip_with (fun r v => set_cell c v r) (rows df) vals).

(** [df[c] = v] for a scalar. *)
Definition set_col_const (c : string) (v : Value) (df : DataFrame) : DataFrame :=
  mkDF (if has_col c df then columns df else columns df ++ [c])
       ((fun r : Row => <[c := v]> r) <$> rows df).

(** [df[mask]] *)
Definition select (mask : list bool) (df : DataFrame) : DataFrame :=
  mkDF (columns df)
       (fst <$> List.filter (fun p : Row * bool => snd p) (zip (rows df) mask)).

(** [df.rename(columns={a: b})] *)
Definition rename (a b : string) (df : DataFrame) : DataFrame :=
  if has_col a df
  then mkDF ((fun c => if String.eqb c a then b else c) <$> columns df)
            ((fun r : Row => set_cell b (r !! a) (delete a r)) <$> rows df)
  else df.

(** [pd.concat([a, b], ignore_index=True)] *)
Definition concat (a b : DataFrame) : DataFrame :=
  mkDF (columns a ++ List.filter (fun c => negb (bool_decide (c ∈ columns a))) (columns b))
       (rows a ++ rows b).

Fixpoint mapM {A B} (f : A -> Res B) (l : list A) : Res (list B) :=
  match l with
  | [] => inr []
  | x :: l' => y ← f x; ys ← mapM f l'; inr (y :: ys)
  end.

(** Python dicts with string keys, in insertion order, whose values are
    cells ([None] standing for NaN or [None]). *)
Abbreviation Dict := (list (string * option Value)).

Fixpoint dict_set (k : string) (v : option Value) (d : Dict) : Dict :=
  match d with
  | [] => [(k, v)]
  | (k', v') :: d' =>
      if String.eqb k' k then (k, v) :: d' else (k', v') :: dict_set k v d'
  end.

(** [d[k]] and [d.get(k, dflt)] *)
Definition dict_getitem (d : Dict) (k : string) : Res (option Value) :=
  option_res (KeyError k) (assoc_first k d).

Definition dict_get (d : Dict) (k : string) (dflt : option Value) : option Value :=
  match assoc_first k d with
  | Some v => v
  | None => dflt
  end.

(** [row.to_dict()] for a row of [df]. *)
Definition to_dict (cols : list string) (r : Row) : Dict :=
  (fun c => (c, r !! c)) <$> cols.

Definition row_of_dict (d : Dict) : Row :=
  foldl (fun r kv => set_cell (fst kv) (snd kv) r) ∅ d.

Fixpoint union_keys (seen : list string) (ds : list Dict) : list string :=
  match ds with
  | [] => seen
  | d :: ds' =>
      union_keys
        (foldl (fun acc kv => if bool_decide (fst kv ∈ acc) then acc else acc ++ [fst kv])
               seen d)
        ds'
  end.

(** [pd.DataFrame(data)] for a list of dicts. *)
Definition DataFrame_of_dicts (data : list Dict) : DataFrame :=
  mkDF (union_keys [] data) (row_of_dict <$> data).

(** [df.to_dict(orient='records')], as the JSON that [json.dump] writes. *)
Definition records_json (df : DataFrame) : Res Json :=
  recs ← mapM (fun r : Row =>
                 fields ← mapM (fun c => j ← json_of_cell (r !! c); inr (c, j))
                               (columns df);
                 inr (JObj fields))
              (rows df);
  inr (JArr recs).

(** [pd.DataFrame(json.load(f))] for a JSON list of records. *)
Definition dict_of_json (j : Json) : Res Dict :=
  match j with
  | JObj l => inr ((fun kv : string * Json => (fst kv, value_of_json (snd kv))) <$> l)
  | _ => inl ValueError
  end.

Definition DataFrame_of_json (j : Json) : Res DataFrame :=
  match j with
  | JArr l => ds ← mapM dict_of_json l; inr (DataFrame_of_dicts ds)
  | _ => inl ValueError
  end.

(** What [to_csv] leaves in the file: a Timestamp is written as text. *)
Definition csv_cell (v : Value) : Value :=
  match v with
  | VDate d => VStr (strftime_ymd d)
  | _ => v
  end.

Definition csv_of (df : DataFrame) : DataFrame :=
  mkDF (columns df) ((fun r : Row => csv_cell <$> r) <$> rows df).

(** ** The world: network, files, clock, log *)

(** What the next HTTP exchange will produce. *)
Inductive Response :=
  | NetFail
  | Body (j : Json)
  | CsvBody (df : DataFrame)
  | Garbage.

Inductive File :=
  | FJson (j : Json)
  | FCsv (df : DataFrame)
  | FTruncated.

Inductive Level := INFO | WARNING | ERROR.

Inductive Event :=
  | Sleep (seconds : Q)
  | Log (lvl : Level) (msg : string)
  | Print (msg : string)
  | Get (url : string) (body : Json)
  | ReadFile (path : string)
  | WriteFile (path : string).

(** [net] is the sequence of responses the remote services will give, one
    per request; [trace] lists the events so far, most recent first.  The
    three extractor modules log through a [FileHandler]: each [Log] event
    of the trace is also a line appended to [LOG_FILE], which [fs], the
    files that the code opens itself, does not hold. *)
Definition LOG_FILE : string := "data_extraction.log".

Record World := mkWorld {
  net : list Response;
  fs : gmap string File;
  now : Date;
  trace : list Event
}.

Definition M (A : Type) : Type := World -> Res A * World.

#[global] Instance M_ret : MRet M := fun A x w => (inr x, w).
#[global] Instance M_bind : MBind M := fun A B f m w =>
  match m w with
  | (inl e, w') => (inl e, w')
  | (inr x, w') => f x w'
  end.

Definition raise {A} (e : Exn) : M A := fun w => (inl e, w).

Definition lift {A} (r : Res A) : M A := fun w => (r, w).

(** [try: body except Exception as e: handler e] *)
Definition try_except {A} (body : M A) (handler : Exn -> M A) : M A := fun w =>
  match body w with
  | (inl e, w') => handler e w'
  | (inr x, w') => (inr x, w')
  end.

Definition emit (e : Event) : M unit := fun w =>
  (inr tt, mkWorld (net w) (fs w) (now w) (e :: trace w)).

Definition logger_info (msg : string) : M unit := emit (Log INFO msg).
Definition logger_warning (msg : string) : M unit := emit (Log WARNING msg).
Definition logger_error (msg : string) : M unit := emit (Log ERROR msg).
Definition print (msg : string) : M unit := emit (Print msg).
Definition sleep (seconds : Q) : M unit := emit (Sleep seconds).

Definition datetime_now : M Date := fun w => (inr (now w), w).

(** One request: the next response is consumed; no response, or a failed
    exchange, raises. *)
Definition next_response : M Response := fun w =>
  match net w with
  | [] => (inl ConnectionError, w)
  | NetFail :: rest => (inl ConnectionError, mkWorld rest (fs w) (now w) (trace w))
  | r :: rest => (inr r, mkWorld rest (fs w) (now w) (trace w))
  end.

Definition requests_get (url : string) (body : Json) : M Response :=
  emit (Get url body);; next_response.

(** [response.json()] *)
Definition json (r : Response) : Res Json :=
  match r with
  | Body j => inr j
  | _ => inl ValueError
  end.

(** [pd.read_csv(url)]: text read from a CSV holds no Timestamp. *)
Definition read_csv_url (url : Json) : M DataFrame :=
  match url with
  | JStr u =>
      r ← requests_get u JNull;
      match r with
      | CsvBody df => mret (csv_of df)
      | _ => raise ParserError
      end
  | _ => raise ValueError
  end.

(** [path.exists()], [pd.read_csv(path)], [json.load(open(path))] *)
Definition exists_ (path : string) : M bool := fun w =>
  (inr (bool_decide (is_Some (fs w !! path))), w).

Definition read_file (path : string) : M File := fun w =>
  match fs w !! path with
  | Some f => (inr f, w)
  | None => (inl OSError, w)
  end.

Definition read_csv (path : string) : M DataFrame :=
  emit (ReadFile path);;
  f ← read_file path;
  match f with
  | FCsv df => mret (csv_of df)
  | _ => raise ParserError
  end.

Definition json_load (path : string) : M Json :=
  emit (ReadFile path);;
  f ← read_file path;
  match f with
  | FJson j => mret j
  | _ => raise ValueError
  end.

Definition write_file (path : string) (f : File) : M unit := fun w =>
  (inr tt, mkWorld (net w) (<[path := f]> (fs w)) (now w) (WriteFile path :: trace w)).

(** [df.to_csv(path, index=False)] *)
Definition to_csv (df : DataFrame) (path : string) : M unit :=
  write_file path (FCsv (csv_of df)).

(** [with open(path, 'w') as f: json.dump(df.to_dict(orient='records'), f)]:
    the file is truncated when it is opened, before the records are
    serialized. *)
Definition json_dump_records (df : DataFrame) (path : string) : M unit :=
  match records_json df with
  | inr j => write_file path (FJson j)
  | inl e => write_file path FTruncated;; raise e
  end.

(** [with open(path, 'w') as f: json.dump(metadata, f, indent=2)] *)
Definition json_dump (j : Json) (path : string) : M unit :=
  write_file path (FJson j).

Definition DATA_DIR : string := "data".
Definition path_join (dir name : string) : string := dir +:+ "/" +:+ name.

(** The run metadata written next to a store. *)
Definition metadata (last_updated : Date) (last_month_added : string)
    (record_count : nat) : Json :=
  JObj [("last_updated", JStr (strftime_ymd last_updated));
        ("last_month_added", JStr last_month_added);
        ("record_count", JNum (inject_Z (Z.of_nat record_count)))].

(** ** The remote dataset client: what the three copies of [download_file]
    share *)

Definition MAX_POLLS : Z := 5.

Definition eq_filter (columnName value : string) : Json :=
  JObj [("columnName", JStr columnName); ("type", JStr "EQ"); ("value", JStr value)].

Definition query_params_of (filters : list Json) : Json :=
  JObj [("filters", JArr filters)].

Definition initiate_url (dataset_id : string) : string :=
  "https://api-open.data.gov.sg/v1/public/api/datasets/" +:+ dataset_id +:+ "/initiate-download".

Definition poll_url (dataset_id : string) : string :=
  "https://api-open.data.gov.sg/v1/public/api/datasets/" +:+ dataset_id +:+ "/poll-download".

Definition str_year (year : option Z) : string :=
  match year with
  | Some y => str_Z y
  | None => "None"
  end.

(** [f"{year}-Q{quarter}" if not quarter.startswith("Q") else f"{year}-{quarter}"] *)
Definition quarter_label (year : option Z) (quarter : string) : string :=
  if negb (startswith quarter "Q")
  then str_year year +:+ "-Q" +:+ quarter
  else str_year year +:+ "-" +:+ quarter.

(** ['data' not in response_data or 'message' not in response_data['data']] *)
Definition unexpected_format (response_data : Json) : Res bool :=
  b ← py_in "data" response_data;
  if negb b then inr true
  else d ← getitem response_data "data"; m ← py_in "message" d; inr (negb m).

(** ["data" in poll_data and "url" in poll_data['data']] *)
Definition has_download_link (poll_data : Json) : Res bool :=
  b ← py_in "data" poll_data;
  if (b : bool) then d ← getitem poll_data "data"; py_in "url" d
  else inr false.

(** [target_month] and [pd.Timestamp(month_end)] for [year]-[month]. *)
Definition month_bounds (year : option Z) (month : Z) : Res (Date * Date) :=
  target_month ← to_datetime (str_year year +:+ "-" +:+ fmt_02d month +:+ "-01");
  inr (target_month, MonthEnd0 target_month).

(** [df[c] = pd.to_datetime(df[c])] *)
Definition to_datetime_col (c : string) (df : DataFrame) : Res DataFrame :=
  cells ← col df c;
  dates ← mapM to_datetime_cell cells;
  inr (set_col c dates df).

(** [(df[c] >= lo) & (df[c] <= hi)] *)
Definition between_mask (c : string) (lo hi : Date) (df : DataFrame) : Res (list bool) :=
  cells ← col df c;
  mapM (cell_between lo hi) cells.

(** The body of the [if] taken when a poll answers with a link: fetch the
    CSV, narrow it to the month, label it with the quarter. *)
Definition fetch_ready (year month : option Z) (quarter : option string)
    (poll_data : Json) : M DataFrame :=
  d ← lift (getitem poll_data "data");
  download_url ← lift (getitem d "url");
  df ← read_csv_url download_url;
  logger_info "Downloaded {len(df)} rows of data";;
  df ← (if truthy_Z month && truthy_Z year && has_col "month" df
        then
          df ← lift (to_datetime_col "month" df);
          '(target_month, month_end) ← lift (month_bounds year (default 0 month));
          mask ← lift (between_mask "month" target_month month_end df);
          logger_info "Filtered to {len(df)} rows for month {target_month.strftime('%Y-%m')}";;
          mret (select mask df)
        else mret df);
  if truthy_str quarter && negb (has_col "quarter" df)
  then
    let q := default "" quarter in
    if contains "-Q" q
    then mret (set_col_const "quarter" (VStr q) df)
    else mret (set_col_const "quarter" (VStr (quarter_label year q)) df)
  else mret df.

(** [for i in range(MAX_POLLS): ...], from iteration [i] on, with
    [remaining] iterations left; [None] when the loop runs out. *)
Fixpoint poll_download (dataset_id : string) (poll_body : Json)
    (year month : option Z) (quarter : option string)
    (remaining : nat) (i : Z) : M (option DataFrame) :=
  match remaining with
  | O => mret None
  | S n =>
      r ← requests_get (poll_url dataset_id) poll_body;
      poll_data ← lift (json r);
      ready ← lift (has_download_link poll_data);
      if (ready : bool)
      then df ← fetch_ready year month quarter poll_data; mret (Some df)
      else
        (if i =? MAX_POLLS - 1
         then logger_error "{i+1}/{MAX_POLLS}: No result found, possible error with dataset"
         else logger_info "{i+1}/{MAX_POLLS}: No result yet, continuing to poll");;
        sleep 3%Q;;
        poll_download dataset_id poll_body year month quarter n (i + 1)
  end.

(** The [try] block of [download_file] and its handler. *)
Definition initiate_and_poll (dataset_id : string) (query_params poll_body : Json)
    (year month : option Z) (quarter : option string) : M (option DataFrame) :=
  try_except
    (r ← requests_get (initiate_url dataset_id) query_params;
     response_data ← lift (json r);
     bad ← lift (unexpected_format response_data);
     if (bad : bool)
     then logger_error "Unexpected response format: {response_data}";; mret None
     else
       d ← lift (getitem response_data "data");
       message ← lift (getitem d "message");
       logger_info "{response_data['data']['message']}";;
       poll_download dataset_id poll_body year month quarter (Z.to_nat MAX_POLLS) 0)
    (fun e => logger_error "Error downloading data: {e}";; mret None).

(** The quarter part of the filter list; [None] when the function has
    returned [None]. *)
Definition quarter_filters (dataset_id : string) (year : option Z)
    (quarter : option string) : M (option (list Json)) :=
  if truthy_str quarter
  then
    let q := default "" quarter in
    if contains "-Q" q
    then
      logger_info "Downloading data for quarter {quarter} from dataset {dataset_id}";;
      mret (Some [eq_filter "quarter" q])
    else
      if negb (truthy_Z year)
      then
        logger_error "Year must be provided when using quarter without year";;
        mret None
      else
        logger_info "Downloading data for quarter {quarter_str} from dataset {dataset_id}";;
        mret (Some [eq_filter "quarter" (quarter_label year q)])
  else mret (Some []).

(** ** Column helpers used by the enrichers *)

(** A cell as a number in arithmetic; [None] is NaN. *)
Definition numeric (c : option Value) : Res (option Q) :=
  match c with
  | None => inr None
  | Some (VNum q) => inr (Some q)
  | Some (VBool b) => inr (Some (num_of_bool b))
  | Some _ => inl TypeError
  end.

(** [a / b] on cells; a division by zero (pandas' inf) is left missing. *)
Definition cell_div (a b : option Value) : Res (option Value) :=
  x ← numeric a;
  y ← numeric b;
  match x, y with
  | Some p, Some q =>
      if Qeq_bool q 0 then inr None else inr (Some (VNum (Qred (p / q))))
  | _, _ => inr None
  end.

Fixpoint zipM {A B C} (f : A -> B -> Res C) (l : list A) (k : list B) : Res (list C) :=
  match l, k with
  | x :: l', y :: k' => z ← f x y; zs ← zipM f l' k'; inr (z :: zs)
  | _, _ => inr []
  end.

(** [df[c].dt.<field>] *)
Definition dt_field (f : Date -> Z) (cells : list (option Value))
  : Res (list (option Value)) :=
  mapM (fun c => match c with
                 | None => inr None
                 | Some (VDate d) => inr (Some (VNum (inject_Z (f d))))
                 | Some _ => inl AttributeError
                 end) cells.

Definition is_VStr (c : option Value) : bool :=
  match c with
  | Some (VStr _) => true
  | _ => false
  end.

(** [df[c].str.<method>()]: needs a column of strings. *)
Definition str_method (f : string -> string) (cells : list (option Value))
  : Res (list (option Value)) :=
  if existsb is_VStr cells
  then inr ((fun c => match c with
                      | Some (VStr s) => Some (VStr (f s))
                      | _ => None
                      end) <$> cells)
  else inl AttributeError.

(** [pd.api.types.is_datetime64_dtype(df[c])] *)
Definition is_datetime64_dtype (cells : list (option Value)) : bool :=
  forallb (fun c => match c with
                    | None | Some (VDate _) => true
                    | _ => false
                    end) cells
  && existsb (fun c => match c with Some (VDate _) => true | _ => false end) cells.

(** [str(x)] of a cell. *)
Definition py_str (c : option Value) : string :=
  match c with
  | None => "nan"
  | Some (VStr s) => s
  | Some (VNum q) =>
      if (Qden q =? 1)%positive then pretty (Qnum q)
      else pretty (Qnum q) +:+ "/" +:+ pretty (Zpos (Qden q))
  | Some (VBool true) => "True"
  | Some (VBool false) => "False"
  | Some (VDate d) => strftime_ymd d +:+ " 00:00:00"
  | Some (VObj _) => "<object>"
  end.

(** [row[c]] for a row of a frame with columns [cols]. *)
Definition series_getitem (cols : list string) (r : Row) (c : string)
  : Res (option Value) :=
  if bool_decide (c ∈ cols) then inr (r !! c) else inl (KeyError c).

(** [set(column)] *)
Definition py_set (cells : list (option Value)) : Res (list (option Value)) :=
  if forallb hashable cells then inr cells else inl TypeError.

(** [df['blk_no'].astype(str) + ' ' + df['street']] *)
Definition address_of (blk street : option Value) : Res (option Value) :=
  match street with
  | None => inr None
  | Some (VStr s) => inr (Some (VStr (py_str blk +:+ " " +:+ s)))
  | Some _ => inl TypeError
  end.

Definition add_address (df : DataFrame) : Res DataFrame :=
  blk ← col df "blk_no";
  street ← col df "street";
  cells ← zipM address_of blk street;
  inr (set_col "address" cells df).

(** ** [src/monthly_data_extractor.py] *)

Module Extractor.

Definition PROPERTIES_FILE : string := path_join DATA_DIR "properties_combined.json".
Definition LATEST_PRICES_FILE : string := path_join DATA_DIR "prices_2017_onwards.csv".
Definition LATEST_AGGPRICES_FILE : string := path_join DATA_DIR "agg_prices.csv".

Definition PRICES_SEGMENTS : list (string * string) :=
  [("1990-1999", path_join DATA_DIR "prices_1990_1999.csv");
   ("2000-2012", path_join DATA_DIR "prices_2000_2012.csv");
   ("2012-2014", path_join DATA_DIR "prices_2012_2014.csv");
   ("2015-2016", path_join DATA_DIR "prices_2015_2016.csv");
   ("2017-2025", LATEST_PRICES_FILE)].

Definition download_file (dataset_id : string) (year month : option Z)
    (quarter : option string) : M (option DataFrame) :=
  qf ← quarter_filters dataset_id year quarter;
  match qf with
  | None => mret None
  | Some filters =>
      filters ←
        (if truthy_Z month && truthy_Z year
         then
           logger_info "Downloading data for month {month_str} from dataset {dataset_id}";;
           mret (filters ++
                 [eq_filter "month" (str_year year +:+ "-" +:+ fmt_02d (default 0 month));
                  eq_filter "year_completed" (str_year year)])
         else if truthy_Z year && negb (truthy_str quarter)
         then
           logger_info "Downloading data for year {year} from dataset {dataset_id}";;
           mret (filters ++ [eq_filter "year_completed" (str_year year)])
         else mret filters);
      match filters with
      | [] =>
          logger_error "No valid time period specified (need year, month, or quarter)";;
          mret None
      | _ =>
          initiate_and_poll dataset_id (query_params_of filters) (JObj [])
                            year month quarter
      end
  end.

(** The callers below never pass [None]. *)
Definition enrich_prices_data (df : DataFrame) : Res DataFrame :=
  if (len df =? 0)%nat then inr df
  else
    df ← (if has_col "resale_price" df && has_col "floor_area_sqm" df
          then
            p ← col df "resale_price";
            a ← col df "floor_area_sqm";
            q ← zipM cell_div p a;
            inr (set_col "price_per_sqm" q df)
          else inr df);
    df ← (if has_col "month" df
          then
            m ← col df "month";
            y ← dt_field dt_year m;
            let df := set_col "year" y df in
            m ← col df "month";
            n ← dt_field dt_month m;
            inr (set_col "month_num" n df)
          else inr df);
    let df := rename "month" "date" df in
    let df := rename "resale_price" "price" df in
    inr df.

Definition tagging (d : Dict) : Res (option string) :=
  v ← dict_getitem d "residential";
  if cell_is_str "Y" v then inr (Some "Residential")
  else
    v ← dict_getitem d "commercial";
    if cell_is_str "Y" v then inr (Some "Commercial")
    else
      v ← dict_getitem d "market_hawker";
      if cell_is_str "Y" v then inr (Some "Market and hawker")
      else
        v ← dict_getitem d "miscellaneous";
        if cell_is_str "Y" v then inr (Some "Miscellaneous")
        else
          v ← dict_getitem d "multistorey_carpark";
          if cell_is_str "Y" v then inr (Some "Multi-storey carpark")
          else
            v ← dict_getitem d "precinct_pavilion";
            if cell_is_str "Y" v then inr (Some "Miscellaneous")
            else inr None.

Definition legend : gmap string string :=
  list_to_map
    [("AMK", "ANG MO KIO");
     ("BB", "BUKIT BATOK");
     ("BD", "BEDOK");
     ("BH", "BISHAN");
     ("BM", "BUKIT MERAH");
     ("BP", "BUKIT PANJANG");
     ("BT", "BUKIT TIMAH");
     ("CCK", "CHOA CHU KANG");
     ("CL", "CLEMENTI");
     ("CT", "CENTRAL AREA");
     ("GL", "GEYLANG");
     ("HG", "HOUGANG");
     ("JE", "JURONG EAST");
     ("JW", "JURONG WEST");
     ("KWN", "KALLANG");
     ("MP", "MARINE PARADE");
     ("PG", "PUNGGOL");
     ("PRC", "PASIR RIS");
     ("QT", "QUEENSTOWN");
     ("SB", "SEMBAWANG");
     ("SGN", "SERANGOON");
     ("SK", "SENGKANG");
     ("TAP", "TAMPINES");
     ("TG", "TENGAH");
     ("TP", "TOA PAYOH");
     ("WL", "WOODLANDS");
     ("YS", "YISHUN")].

(** [legend[code]] *)
Definition legend_getitem (code : option Value) : Res string :=
  match code with
  | Some (VStr s) => option_res (KeyError s) (legend !! s)
  | Some (VObj _) => inl TypeError
  | _ => inl (KeyError (py_str code))
  end.

Definition geocode_url (address : string) : string :=
  "https://www.onemap.gov.sg/api/common/elastic/search?searchVal=" +:+ address
  +:+ "&returnGeom=Y&getAddrDetails=Y&pageNum=1".

(** [for attempt in range(10): ... else: print('10 attempts failed')];
    the result is the final value of [location]. *)
Fixpoint geocode (address : string) (attempts : nat) : M (option Json) :=
  match attempts with
  | O => print "10 attempts failed";; mret None
  | S n =>
      sleep (1 # 100);;
      try_except
        (response ← requests_get (geocode_url address) JNull;
         location ← lift (json response);
         mret (Some location))
        (fun _ => geocode address n)
  end.

(** [blocks_coordinates[i] = v] *)
Fixpoint bc_set (i : nat) (v : option Dict) (bc : list (nat * option Dict))
  : list (nat * option Dict) :=
  match bc with
  | [] => [(i, v)]
  | (k, x) :: bc' =>
      if (k =? i)%nat then (i, v) :: bc' else (k, x) :: bc_set i v bc'
  end.

Definition bc_mem (i : nat) (bc : list (nat * option Dict)) : bool :=
  existsb (fun kx => (fst kx =? i)%nat) bc.

(** One iteration of [for i, j in df.iterrows()]. *)
Definition geocode_row (cols : list string) (i : nat) (j : Row)
    (blocks_coordinates : list (nat * option Dict))
  : M (list (nat * option Dict)) :=
  blk ← lift (series_getitem cols j "blk_no");
  street ← lift (series_getitem cols j "street");
  let address := py_str blk +:+ " " +:+ py_str street in
  if bc_mem i blocks_coordinates
  then print "\tAlready fetched, skipping";; mret blocks_coordinates
  else
    location ← geocode address 10;
    match location with
    | Some loc =>
        if json_truthy loc
        then
          found ← lift (getitem loc "found");
          print "\tThere are {location['found']} result(s)";;
          if json_is_zero found
          then mret (bc_set i None blocks_coordinates)
          else
            results ← lift (getitem loc "results");
            l ← lift (getitem0 results);
            let d := to_dict cols j in
            a ← lift (getitem l "ADDRESS");
            lat ← lift (getitem l "LATITUDE");
            lon ← lift (getitem l "LONGITUDE");
            b ← lift (getitem l "BUILDING");
            let d := dict_set "address" (value_of_json a) d in
            let d := dict_set "latitude" (value_of_json lat) d in
            let d := dict_set "longitude" (value_of_json lon) d in
            let d := dict_set "building" (value_of_json b) d in
            mret (bc_set i (Some d) blocks_coordinates)
        else
          print "Address not found";;
          mret (bc_set i None blocks_coordinates)
    | None =>
        print "Address not found";;
        mret (bc_set i None blocks_coordinates)
    end.

Fixpoint geocode_rows (cols : list string) (rs : list (nat * Row))
    (blocks_coordinates : list (nat * option Dict))
  : M (list (nat * option Dict)) :=
  match rs with
  | [] => mret blocks_coordinates
  | (i, j) :: rs' =>
      bc ← geocode_row cols i j blocks_coordinates;
      geocode_rows cols rs' bc
  end.

(** The dict appended to [data] for a geocoded block [d]. *)
Definition enriched_record (d : Dict) : Res Dict :=
  tag ← tagging d;
  lat ← (x ← dict_getitem d "latitude"; float x);
  lon ← (x ← dict_getitem d "longitude"; float x);
  code ← dict_getitem d "bldg_contract_town";
  town ← legend_getitem code;
  address ← dict_getitem d "address";
  street ← dict_getitem d "street";
  let total_units := dict_get d "total_dwelling_units" (Some (VNum 0)) in
  year ← dict_getitem d "year_completed";
  max_floor_lvl ← dict_getitem d "max_floor_lvl";
  inr [("tag", VStr <$> tag);
       ("lat", Some (VNum lat));
       ("lon", Some (VNum lon));
       ("town", Some (VStr town));
       ("address", address);
       ("street", street);
       ("total_units", total_units);
       ("year", year);
       ("max_floor_lvl", max_floor_lvl)].

(** [for key, d in blocks_coordinates.items(): if d: data.append({...})] *)
Fixpoint enriched_records (bc : list (nat * option Dict)) : Res (list Dict) :=
  match bc with
  | [] => inr []
  | (_, Some ((_ :: _) as d)) :: bc' =>
      r ← enriched_record d;
      rs ← enriched_records bc';
      inr (r :: rs)
  | _ :: bc' => enriched_records bc'
  end.

Definition enrich_properties_data (df : DataFrame) : M DataFrame :=
  blocks_coordinates ←
    geocode_rows (columns df) (zip (seq 0 (length (rows df))) (rows df)) [];
  data ← lift (enriched_records blocks_coordinates);
  mret (DataFrame_of_dicts data).

(** Lines 360-393 of [update_latest_properties_dataset]: reconcile the
    enriched batch with the store; the result is the batch (with the
    address column it may have gained) and [combined_df]. *)
Definition combine_properties (existing_properties_df : option DataFrame)
    (new_properties_df : DataFrame) : M (DataFrame * DataFrame) :=
  let can_build_address (df : DataFrame) :=
    negb (has_col "address" df) && (has_col "blk_no" df && has_col "street" df) in
  match existing_properties_df with
  | Some existing =>
      if (0 <? len existing)%nat
      then
        '(existing, new) ←
          (if has_col "address" existing
           then
             new ← (if can_build_address new_properties_df
                    then
                      new ← lift (add_address new_properties_df);
                      logger_info "Created 'address' column in new data by combining 'blk_no' and 'street'";;
                      mret new
                    else mret new_properties_df);
             if has_col "address" new
             then
               e ← lift (col existing "address");
               existing_addresses ← lift (py_set e);
               n ← lift (col new "address");
               new_addresses ← lift (py_set n);
               let duplicate_addresses :=
                 List.filter (fun c => cell_in c new_addresses) existing_addresses in
               match duplicate_addresses with
               | _ :: _ =>
                   logger_info "Found {len(duplicate_addresses)} properties with matching addresses";;
                   let existing :=
                     select ((fun c => negb (cell_in c duplicate_addresses)) <$> e) existing in
                   logger_info "Removed duplicates from existing data, {len(existing_properties_df)} records remain";;
                   mret (existing, new)
               | [] => mret (existing, new)
               end
             else
               logger_warning "Could not create 'address' column in new data - unable to check for duplicates";;
               mret (existing, new)
           else mret (existing, new_properties_df));
        let combined_df := concat existing new in
        logger_info "Combined dataset has {len(combined_df)} property records";;
        mret (new, combined_df)
      else
        new ← (if can_build_address new_properties_df
               then
                 new ← lift (add_address new_properties_df);
                 logger_info "Created 'address' column in new data";;
                 mret new
               else mret new_properties_df);
        mret (new, new)
  | None =>
      new ← (if can_build_address new_properties_df
             then
               new ← lift (add_address new_properties_df);
               logger_info "Created 'address' column in new data";;
               mret new
             else mret new_properties_df);
      mret (new, new)
  end.

Definition update_latest_properties_dataset (year month : Z) : M bool :=
  let dataset_id := "d_17f5382f26140b1fdae0ba2ef6239d2f" in
  try_except
    (ex ← exists_ PROPERTIES_FILE;
     existing_properties_df ←
       (if (ex : bool)
        then
          logger_info "Reading existing properties data from {PROPERTIES_FILE}";;
          existing_properties ← json_load PROPERTIES_FILE;
          df ← lift (DataFrame_of_json existing_properties);
          logger_info "Loaded {len(existing_properties_df)} existing property records";;
          mret (Some df)
        else mret None);
     logger_info "Downloading properties data for {year}-{month:02d}";;
     new_properties_df ← download_file dataset_id (Some year) (Some month) None;
     match new_properties_df with
     | None =>
         logger_warning "No new properties data found for {year}-{month:02d}";;
         mret false
     | Some new_properties_df =>
         if (len new_properties_df =? 0)%nat
         then
           logger_warning "No new properties data found for {year}-{month:02d}";;
           mret false
         else
           logger_info "Downloaded {len(new_properties_df)} new property records";;
           new_properties_df ← enrich_properties_data new_properties_df;
           '(new_properties_df, combined_df) ←
             combine_properties existing_properties_df new_properties_df;
           json_dump_records new_properties_df
                             (path_join DATA_DIR "properties_combined_new.json");;
           json_dump_records combined_df PROPERTIES_FILE;;
           logger_info "Saved {len(combined_df)} property records to {PROPERTIES_FILE}";;
           t ← datetime_now;
           json_dump (metadata t (str_Z year +:+ "-" +:+ fmt_02d month) (len combined_df))
                     (path_join DATA_DIR "properties_metadata.json");;
           mret true
     end)
    (fun e => logger_error "Error updating properties dataset: {e}";; mret false).

Definition get_dataset_id_for_period (year : Z) : option string :=
  if (1990 <=? year) && (year <=? 1999) then Some "d_ebc5ab87086db484f88045b47411ebc5"
  else if (2000 <=? year) && (year <=? 2012) then Some "d_43f493c6c50d54243cc1eab0df142d6a"
  else if (2012 <=? year) && (year <=? 2014) then Some "d_2d5ff9ea31397b66239f245f57751537"
  else if (2015 <=? year) && (year <=? 2016) then Some "d_ea9ed51da2787afaf8e51f827c304208"
  else if 2017 <=? year then Some "d_8b84c4ee58e3cfc0ece0d773c8ca6abc"
  else None.

Definition update_latest_prices_dataset (year month : Z) : M bool :=
  if year <? 2017
  then
    logger_warning "Year {year} is before 2017, not updating latest prices dataset";;
    mret false
  else
    match get_dataset_id_for_period year with
    | None => logger_error "No dataset ID found for year {year}";; mret false
    | Some dataset_id =>
        try_except
          (month_df ← download_file dataset_id (Some year) (Some month) None;
           match month_df with
           | None => logger_warning "No data found for {year}-{month:02d}";; mret false
           | Some month_df =>
               if (len month_df =? 0)%nat
               then logger_warning "No data found for {year}-{month:02d}";; mret false
               else
                 month_df ← lift (enrich_prices_data month_df);
                 ex ← exists_ LATEST_PRICES_FILE;
                 combined_df ←
                   (if (ex : bool)
                    then
                      existing_df ← read_csv LATEST_PRICES_FILE;
                      existing_df ←
                        (if has_col "month" existing_df
                         then
                           m ← lift (col existing_df "month");
                           if negb (is_datetime64_dtype m)
                           then lift (to_datetime_col "month" existing_df)
                           else mret existing_df
                         else mret existing_df);
                      logger_info "Loaded existing dataset with {len(existing_df)} records";;
                      '(target_month, month_end) ← lift (month_bounds (Some year) month);
                      existing_df ←
                        (if has_col "month" existing_df
                         then
                           mask ← lift (between_mask "month" target_month month_end existing_df);
                           logger_info "Removed existing data for {year}-{month:02d}, {len(existing_df)} records remain";;
                           mret (select (negb <$> mask) existing_df)
                         else mret existing_df);
                      let combined_df := concat existing_df month_df in
                      logger_info "Combined dataset now has {len(combined_df)} records";;
                      mret combined_df
                    else
                      logger_info "Created new dataset with {len(combined_df)} records";;
                      mret month_df);
                 to_csv combined_df LATEST_PRICES_FILE;;
                 logger_info "Saved updated dataset to {LATEST_PRICES_FILE}";;
                 t ← datetime_now;
                 json_dump
                   (metadata t (str_Z year +:+ "-" +:+ fmt_02d month) (len combined_df))
                   (path_join DATA_DIR "prices_latest_metadata.json");;
                 mret true
           end)
          (fun e => logger_error "Error updating latest prices dataset: {e}";; mret false)
    end.

(** [x.fillna(s)] and the town normalisation on one cell. *)
Definition fillna (s : string) (c : option Value) : option Value :=
  match c with
  | None => Some (VStr s)
  | Some v => Some v
  end.

Definition central_area (c : option Value) : option Value :=
  if cell_is_str "CENTRAL" c then Some (VStr "CENTRAL AREA") else c.

(** Lines 644-647: the aggregated-price enrichment. *)
Definition enrich_quarter (quarter_df : DataFrame) : Res DataFrame :=
  f ← col quarter_df "flat_type";
  f ← str_method (replace_char "-" " ") f;
  f ← str_method upper f;
  let quarter_df := set_col "flat_type" f quarter_df in
  p ← col quarter_df "price";
  let quarter_df := set_col "price" (fillna "-" <$> p) quarter_df in
  t ← col quarter_df "town";
  t ← str_method upper t;
  let quarter_df := set_col "town" t quarter_df in
  t ← col quarter_df "town";
  inr (set_col "town" (central_area <$> t) quarter_df).

Definition update_latest_aggprices_dataset (year month : Z) : M bool :=
  let dataset_id := "d_b51323a474ba789fb4cc3db58a3116d4" in
  let quarter := (month - 1) `div` 3 + 1 in
  let quarter_str := "Q" +:+ str_Z quarter in
  try_except
    (quarter_df ← download_file dataset_id (Some year) None (Some quarter_str);
     match quarter_df with
     | None => logger_warning "No data found for {year}-{quarter_str}";; mret false
     | Some quarter_df =>
         if (len quarter_df =? 0)%nat
         then logger_warning "No data found for {year}-{quarter_str}";; mret false
         else
           quarter_df ← lift (enrich_quarter quarter_df);
           ex ← exists_ LATEST_AGGPRICES_FILE;
           combined_df ←
             (if (ex : bool)
              then
                existing_df ← read_csv LATEST_AGGPRICES_FILE;
                logger_info "Loaded existing dataset with {len(existing_df)} records";;
                existing_df ←
                  (if has_col "quarter" existing_df
                   then
                     q ← lift (col existing_df "quarter");
                     logger_info "Removed existing data for {year}-{quarter_str}, {len(existing_df)} records remain";;
                     mret (select ((fun c => negb (cell_is_str quarter_str c)) <$> q) existing_df)
                   else mret existing_df);
                let combined_df := concat existing_df quarter_df in
                logger_info "Combined dataset now has {len(combined_df)} records";;
                mret combined_df
              else
                logger_info "Created new dataset with {len(combined_df)} records";;
                mret quarter_df);
           to_csv combined_df LATEST_AGGPRICES_FILE;;
           logger_info "Saved updated dataset to {LATEST_AGGPRICES_FILE}";;
           t ← datetime_now;
           json_dump
             (metadata t (str_Z year +:+ "-" +:+ quarter_str) (len combined_df))
             (path_join DATA_DIR "agg_prices_latest_metadata.json");;
           mret true
     end)
    (fun e => logger_error "Error updating latest prices dataset: {e}";; mret false).

(** [first_of_month - timedelta(days=1)] *)
Definition prev_month_of (today : Date) : Date :=
  if dt_month today =? 1
  then mkDate (dt_year today - 1) 12 31
  else mkDate (dt_year today) (dt_month today - 1)
              (days_in_month (dt_year today) (dt_month today - 1)).

(** [a or b] on integers. *)
Definition or_Z (a : option Z) (b : Z) : Z :=
  if truthy_Z a then default 0 a else b.

Definition extract_monthly_data (year month : option Z) : M bool :=
  '(year, month) ←
    (match year, month with
     | Some y, Some m => mret (y, m)
     | _, _ =>
         today ← datetime_now;
         let prev_month := prev_month_of today in
         mret (or_Z year (dt_year prev_month), or_Z month (dt_month prev_month))
     end);
  logger_info "Extracting data for {year}-{month:02d}";;
  properties_updated ← update_latest_properties_dataset year month;
  logger_info "Properties dataset updated: {properties_updated}";;
  (if 2017 <=? year
   then
     prices_updated ← update_latest_prices_dataset year month;
     logger_info "Latest prices dataset updated for {year}-{month:02d}: {prices_updated}"
   else
     logger_warning "Year {year} is before 2017, not updating latest prices dataset");;
  agg_prices_updated ← update_latest_aggprices_dataset year month;
  logger_info "Latest prices dataset updated for {year}-{month:02d}: {agg_prices_updated}";;
  mret true.

End Extractor.

(** ** [src/api/monthly_data_extractor.py] *)

Module ApiMonthly.

Definition PROPERTIES_FILE : string := Extractor.PROPERTIES_FILE.
Definition LATEST_AGGPRICES_FILE : string := Extractor.LATEST_AGGPRICES_FILE.

(** As in [Extractor], except that every poll request repeats the filters. *)
Definition download_file (dataset_id : string) (year month : option Z)
    (quarter : option string) : M (option DataFrame) :=
  qf ← quarter_filters dataset_id year quarter;
  match qf with
  | None => mret None
  | Some filters =>
      filters ←
        (if truthy_Z month && truthy_Z year
         then
           logger_info "Downloading data for month {month_str} from dataset {dataset_id}";;
           mret (filters ++
                 [eq_filter "month" (str_year year +:+ "-" +:+ fmt_02d (default 0 month));
                  eq_filter "year_completed" (str_year year)])
         else if truthy_Z year && negb (truthy_str quarter)
         then
           logger_info "Downloading data for year {year} from dataset {dataset_id}";;
           mret (filters ++ [eq_filter "year_completed" (str_year year)])
         else mret filters);
      match filters with
      | [] =>
          logger_error "No valid time period specified (need year, month, or quarter)";;
          mret None
      | _ =>
          initiate_and_poll dataset_id (query_params_of filters) (query_params_of filters)
                            year month quarter
      end
  end.

(** [tagging], [enrich_properties_data] and the reconciliation block are
    the same text as in [src/monthly_data_extractor.py]. *)
Definition tagging := Extractor.tagging.
Definition enrich_properties_data := Extractor.enrich_properties_data.

Definition update_latest_properties_dataset (year month : Z) : M bool :=
  let dataset_id := "d_17f5382f26140b1fdae0ba2ef6239d2f" in
  try_except
    (ex ← exists_ PROPERTIES_FILE;
     existing_properties_df ←
       (if (ex : bool)
        then
          logger_info "Reading existing properties data from {PROPERTIES_FILE}";;
          existing_properties ← json_load PROPERTIES_FILE;
          df ← lift (DataFrame_of_json existing_properties);
          logger_info "Loaded {len(existing_properties_df)} existing property records";;
          mret (Some df)
        else mret None);
     logger_info "Downloading properties data for {year}";;
     new_properties_df ← download_file dataset_id (Some year) None None;
     match new_properties_df with
     | None =>
         logger_warning "No new properties data found for {year}";;
         mret false
     | Some new_properties_df =>
         if (len new_properties_df =? 0)%nat
         then
           logger_warning "No new properties data found for {year}";;
           mret false
         else
           logger_info "Downloaded {len(new_properties_df)} new property records";;
           new_properties_df ← enrich_properties_data new_properties_df;
           '(new_properties_df, combined_df) ←
             Extractor.combine_properties existing_properties_df new_properties_df;
           json_dump_records new_properties_df
                             (path_join DATA_DIR "properties_combined_new.json");;
           json_dump_records combined_df PROPERTIES_FILE;;
           logger_info "Saved {len(combined_df)} property records to {PROPERTIES_FILE}";;
           t ← datetime_now;
           json_dump (metadata t (str_Z year +:+ "-" +:+ fmt_02d month) (len combined_df))
                     (path_join DATA_DIR "properties_metadata.json");;
           mret true
     end)
    (fun e => logger_error "Error updating properties dataset: {e}";; mret false).

Definition update_latest_aggprices_dataset (year month : Z) : M bool :=
  let dataset_id := "d_b51323a474ba789fb4cc3db58a3116d4" in
  let quarter := (month - 1) `div` 3 + 1 in
  let quarter_str := "Q" +:+ str_Z quarter in
  try_except
    (quarter_df ← download_file dataset_id (Some year) None (Some quarter_str);
     match quarter_df with
     | None => logger_warning "No data found for {year}-{quarter_str}";; mret false
     | Some quarter_df =>
         if (len quarter_df =? 0)%nat
         then logger_warning "No data found for {year}-{quarter_str}";; mret false
         else
           quarter_df ← lift (Extractor.enrich_quarter quarter_df);
           ex ← exists_ LATEST_AGGPRICES_FILE;
           combined_df ←
             (if (ex : bool)
              then
                existing_df ← read_csv LATEST_AGGPRICES_FILE;
                logger_info "Loaded existing dataset with {len(existing_df)} records";;
                existing_df ←
                  (if has_col "quarter" existing_df
                   then
                     q ← lift (col existing_df "quarter");
                     logger_info "Removed existing data for {year}-{quarter_str}, {len(existing_df)} records remain";;
                     mret (select ((fun c => negb (cell_is_str quarter_str c)) <$> q) existing_df)
                   else mret existing_df);
                let combined_df := concat existing_df quarter_df in
                logger_info "Combined dataset now has {len(combined_df)} records";;
                mret combined_df
              else
                logger_info "Created new dataset with {len(combined_df)} records";;
                mret quarter_df);
           to_csv combined_df LATEST_AGGPRICES_FILE;;
           logger_info "Saved updated dataset to {LATEST_AGGPRICES_FILE}";;
           t ← datetime_now;
           json_dump
             (metadata t (str_Z year +:+ "-" +:+ quarter_str) (len combined_df))
             (path_join DATA_DIR "agg_prices_latest_metadata.json");;
           mret true
     end)
    (fun e => logger_error "Error updating latest prices dataset: {e}";; mret false).

Definition run (year month : option Z) : M bool :=
  '(year, month) ←
    (match year, month with
     | Some y, Some m => mret (y, m)
     | _, _ =>
         today ← datetime_now;
         let first_of_month := mkDate (dt_year today) (dt_month today) 1 in
         mret (Extractor.or_Z year (dt_year first_of_month),
               Extractor.or_Z month (dt_month first_of_month))
     end);
  logger_info "Extracting data for {year}-{month:02d}";;
  properties_updated ← update_latest_properties_dataset year month;
  logger_info "Properties dataset updated: {properties_updated}";;
  agg_prices_updated ← update_latest_aggprices_dataset year month;
  logger_info "Latest prices dataset updated for {year}-{month:02d}: {agg_prices_updated}";;
  mret true.

End ApiMonthly.

(** ** [src/api/daily_data_extractor.py] *)

Module Daily.

Definition LATEST_PRICES_FILE : string := Extractor.LATEST_PRICES_FILE.

(** No filter on the completion year in this copy. *)
Definition download_file (dataset_id : string) (year month : option Z)
    (quarter : option string) : M (option DataFrame) :=
  qf ← quarter_filters dataset_id year quarter;
  match qf with
  | None => mret None
  | Some filters =>
      filters ←
        (if truthy_Z month && truthy_Z year
         then
           logger_info "Downloading data for month {month_str} from dataset {dataset_id}";;
           mret (filters ++
                 [eq_filter "month" (str_year year +:+ "-" +:+ fmt_02d (default 0 month))])
         else mret filters);
      match filters with
      | [] =>
          logger_error "No valid time period specified (need year, month, or quarter)";;
          mret None
      | _ =>
          print "{query_params}";;
          initiate_and_poll dataset_id (query_params_of filters) (JObj [])
                            year month quarter
      end
  end.

Definition get_dataset_id_for_period := Extractor.get_dataset_id_for_period.

Definition enrich_prices_data (df : DataFrame) : Res DataFrame :=
  if (len df =? 0)%nat then inr df
  else
    df ← (if has_col "resale_price" df && has_col "floor_area_sqm" df
          then
            p ← col df "resale_price";
            a ← col df "floor_area_sqm";
            q ← zipM cell_div p a;
            inr (set_col "price_per_sqm" q df)
          else inr df);
    let df := rename "month" "date" df in
    let df := rename "resale_price" "price" df in
    inr df.

(** [df[c].dt.strftime('%Y-%m-%d')] *)
Definition dt_strftime (cells : list (option Value)) : Res (list (option Value)) :=
  mapM (fun c => match c with
                 | None => inr None
                 | Some (VDate d) => inr (Some (VStr (strftime_ymd d)))
                 | Some _ => inl AttributeError
                 end) cells.

Definition update_latest_prices_dataset (year month : Z) : M bool :=
  if year <? 2017
  then
    logger_warning "Year {year} is before 2017, not updating latest prices dataset";;
    mret false
  else
    match get_dataset_id_for_period year with
    | None => logger_error "No dataset ID found for year {year}";; mret false
    | Some dataset_id =>
        try_except
          (month_df ← download_file dataset_id (Some year) (Some month) None;
           match month_df with
           | None => logger_warning "No data found for {year}-{month:02d}";; mret false
           | Some month_df =>
               if (len month_df =? 0)%nat
               then logger_warning "No data found for {year}-{month:02d}";; mret false
               else
                 month_df ← lift (enrich_prices_data month_df);
                 ex ← exists_ LATEST_PRICES_FILE;
                 combined_df ←
                   (if (ex : bool)
                    then
                      existing_df ← read_csv LATEST_PRICES_FILE;
                      existing_df ←
                        (if has_col "date" existing_df
                         then
                           m ← lift (col existing_df "date");
                           if negb (is_datetime64_dtype m)
                           then lift (to_datetime_col "date" existing_df)
                           else mret existing_df
                         else mret existing_df);
                      logger_info "Loaded existing dataset with {len(existing_df)} records";;
                      '(target_month, month_end) ← lift (month_bounds (Some year) month);
                      existing_df ←
                        (if has_col "date" existing_df
                         then
                           mask ← lift (between_mask "date" target_month month_end existing_df);
                           logger_info "Removed existing data for {year}-{month:02d}, {len(existing_df)} records remain";;
                           mret (select (negb <$> mask) existing_df)
                         else mret existing_df);
                      let combined_df := concat existing_df month_df in
                      d ← lift (col combined_df "date");
                      s ← lift (dt_strftime d);
                      let combined_df := set_col "date" s combined_df in
                      logger_info "Combined dataset now has {len(combined_df)} records";;
                      mret combined_df
                    else
                      logger_info "Created new dataset with {len(combined_df)} records";;
                      mret month_df);
                 to_csv combined_df LATEST_PRICES_FILE;;
                 logger_info "Saved updated dataset to {LATEST_PRICES_FILE}";;
                 t ← datetime_now;
                 json_dump
                   (metadata t (str_Z year +:+ "-" +:+ fmt_02d month) (len combined_df))
                   (path_join DATA_DIR "prices_latest_metadata.json");;
                 mret true
           end)
          (fun e => logger_error "Error updating latest prices dataset: {e}";; mret false)
    end.

Definition run (year month : option Z) : M bool :=
  '(year, month) ←
    (match year, month with
     | Some y, Some m => mret (y, m)
     | _, _ =>
         today ← datetime_now;
         let first_of_month := mkDate (dt_year today) (dt_month today) 1 in
         mret (Extractor.or_Z year (dt_year first_of_month),
               Extractor.or_Z month (dt_month first_of_month))
     end);
  logger_info "Extracting data for {year}-{month:02d}";;
  prices_updated ← update_latest_prices_dataset year month;
  logger_info "Latest prices dataset updated for {year}-{month:02d}: {prices_updated}";;
  mret true.

End Daily.

(** ** Grouping and medians, as [groupby(...).agg(price=(c, 'median'))] *)

Definition type_rank (v : Value) : Z :=
  match v with
  | VBool _ => 0
  | VNum _ => 1
  | VDate _ => 2
  | VStr _ => 3
  | VObj _ => 4
  end.

Definition date_compare (a b : Date) : comparison :=
  match dt_year a ?= dt_year b with
  | Eq => match dt_month a ?= dt_month b with
          | Eq => dt_day a ?= dt_day b
          | c => c
          end
  | c => c
  end.

(** The order in which group keys are sorted; values of one column have
    one type, values of different types are ranked by type. *)
Definition value_compare (a b : Value) : comparison :=
  match a, b with
  | VStr s, VStr t => String.compare s t
  | VNum p, VNum q => Qcompare p q
  | VBool x, VBool y => Qcompare (num_of_bool x) (num_of_bool y)
  | VDate d, VDate e => date_compare d e
  | _, _ => type_rank a ?= type_rank b
  end.

Fixpoint key_compare (a b : list Value) : comparison :=
  match a, b with
  | [], [] => Eq
  | [], _ :: _ => Lt
  | _ :: _, [] => Gt
  | x :: a', y :: b' =>
      match value_compare x y with
      | Eq => key_compare a' b'
      | c => c
      end
  end.

(** The key of a row; a row with a missing key cell belongs to no group. *)
Fixpoint group_key (by_ : list string) (r : Row) : option (list Value) :=
  match by_ with
  | [] => Some []
  | c :: by' => v ← r !! c; k ← group_key by' r; Some (v :: k)
  end.

(** Groups in ascending key order, each with its cells in row order. *)
Fixpoint add_to_group (k : list Value) (x : option Value)
    (groups : list (list Value * list (option Value)))
  : list (list Value * list (option Value)) :=
  match groups with
  | [] => [(k, [x])]
  | (k', xs) :: groups' =>
      match key_compare k k' with
      | Lt => (k, [x]) :: (k', xs) :: groups'
      | Eq => (k', xs ++ [x]) :: groups'
      | Gt => (k', xs) :: add_to_group k x groups'
      end
  end.

Definition group_rows (by_ : list string) (c : string) (rs : list Row)
  : list (list Value * list (option Value)) :=
  foldl (fun groups (r : Row) =>
           match group_key by_ r with
           | Some k => add_to_group k (r !! c) groups
           | None => groups
           end) [] rs.

Fixpoint insert_sorted (q : Q) (l : list Q) : list Q :=
  match l with
  | [] => [q]
  | x :: l' => if Qle_bool q x then q :: x :: l' else x :: insert_sorted q l'
  end.

Definition sort_Q (l : list Q) : list Q := foldr insert_sorted [] l.

(** The median of the numbers among the cells, NaN when there is none. *)
Definition median (cells : list (option Value)) : option Value :=
  let xs := sort_Q (omap (fun c => match c with
                                   | Some (VNum q) => Some q
                                   | _ => None
                                   end) cells) in
  let n := length xs in
  match n with
  | O => None
  | _ =>
      if Nat.even n
      then
        match xs !! (n / 2 - 1)%nat, xs !! (n / 2)%nat with
        | Some a, Some b => Some (VNum (Qred ((a + b) / 2)))
        | _, _ => None
        end
      else VNum <$> xs !! (n / 2)%nat
  end.

(** [df.groupby(by).agg(price=(c, 'median')).reset_index()] *)
Definition groupby_median (by_ : list string) (c : string) (df : DataFrame)
  : Res DataFrame :=
  match List.filter (fun k => negb (has_col k df)) (by_ ++ [c]) with
  | k :: _ => inl (KeyError k)
  | [] =>
      inr (mkDF (by_ ++ ["price"])
                ((fun g : list Value * list (option Value) =>
                    set_cell "price" (median (snd g))
                             (list_to_map (zip by_ (fst g))))
                   <$> group_rows by_ c (rows df)))
  end.

(** [df.to_json(orient='records', date_format='iso')] *)
Definition iso_cell (c : option Value) : Json :=
  match c with
  | None => JNull
  | Some (VStr s) => JStr s
  | Some (VNum q) => JNum q
  | Some (VBool b) => JBool b
  | Some (VDate d) => JStr (strftime_ymd d +:+ "T00:00:00.000")
  | Some (VObj j) => j
  end.

Definition to_json (df : DataFrame) : Json :=
  JArr ((fun r : Row => JObj ((fun c => (c, iso_cell (r !! c))) <$> columns df))
          <$> rows df).

(** ** [src/app.py] *)

Module App.

Definition LATEST_PRICES_FILE : string := Extractor.LATEST_PRICES_FILE.
Definition PRICES_SEGMENTS : list (string * string) := Extractor.PRICES_SEGMENTS.

(** [PRICES_SEGMENTS[label]] *)
Definition segment (label : string) : Res string :=
  option_res (KeyError label) (assoc_first label PRICES_SEGMENTS).

Definition parse_start (start_date : string) : Res Date :=
  if (String.length start_date =? 4)%nat then to_datetime (start_date +:+ "-01-01")
  else if (String.length start_date =? 7)%nat then to_datetime (start_date +:+ "-01")
  else to_datetime start_date.

Definition parse_end (end_date : string) : Res Date :=
  if (String.length end_date =? 4)%nat then to_datetime (end_date +:+ "-12-31")
  else if (String.length end_date =? 7)%nat then d ← to_datetime end_date; inr (MonthEnd0 d)
  else to_datetime end_date.

(** The list built by the five [if]s. *)
Definition segments_to_load (start_year end_year : Z) : Res (list string) :=
  l1 ← (if start_year <=? 1999 then s ← segment "1990-1999"; inr [s] else inr []);
  l2 ← (if (start_year <=? 2012) && (2000 <=? end_year)
        then s ← segment "2000-2012"; inr [s] else inr []);
  l3 ← (if (start_year <=? 2014) && (2012 <=? end_year)
        then s ← segment "2012-2014"; inr [s] else inr []);
  l4 ← (if (start_year <=? 2016) && (2015 <=? end_year)
        then s ← segment "2015-2016"; inr [s] else inr []);
  l5 ← (if 2017 <=? end_year then inr [LATEST_PRICES_FILE] else inr []);
  inr (l1 ++ l2 ++ l3 ++ l4 ++ l5).

(** The [try] block that loads one segment and narrows it to the range. *)
Definition load_segment (segment_file : string) (start_date end_date : Date)
  : M DataFrame :=
  logger_info "Loading segment from {segment_file}";;
  df ← read_csv segment_file;
  df ← (if has_col "date" df
        then
          d ← lift (col df "date");
          if negb (is_datetime64_dtype d)
          then lift (to_datetime_col "date" df)
          else mret df
        else mret df);
  df ← (if has_col "date" df
        then
          mask ← lift (between_mask "date" start_date end_date df);
          mret (select mask df)
        else mret df);
  logger_info "Loaded {len(df)} records from {segment_file}";;
  mret df.

Fixpoint load_segments (files : list string) (start_date end_date : Date)
    (all_dfs : list DataFrame) : M (list DataFrame) :=
  match files with
  | [] => mret all_dfs
  | segment_file :: files' =>
      ex ← exists_ segment_file;
      all_dfs ←
        (if (ex : bool)
         then
           try_except
             (df ← load_segment segment_file start_date end_date;
              mret (all_dfs ++ [df]))
             (fun e =>
                logger_error "Error loading segment {segment_file}: {e}";;
                mret all_dfs)
         else
           logger_warning "Segment file {segment_file} does not exist";;
           mret all_dfs);
      load_segments files' start_date end_date all_dfs
  end.

(** [pd.concat(all_dfs, ignore_index=True)] for a non-empty list. *)
Definition concat_all (dfs : list DataFrame) : DataFrame :=
  match dfs with
  | [] => df_empty
  | df :: dfs' => foldl concat df dfs'
  end.

Definition load_prices_data_for_period (start_date end_date : string)
  : M DataFrame :=
  start_date ← lift (parse_start start_date);
  end_date ← lift (parse_end end_date);
  let start_year := dt_year start_date in
  let end_year := dt_year end_date in
  logger_info "Loading prices data for period {start_date.date()} to {end_date.date()}";;
  files ← lift (segments_to_load start_year end_year);
  all_dfs ← load_segments files start_date end_date [];
  match all_dfs with
  | [] =>
      logger_warning "No data found for period {start_date} to {end_date}";;
      mret df_empty
  | _ =>
      let combined_df := concat_all all_dfs in
      logger_info "Combined dataset has {len(combined_df)} records";;
      mret combined_df
  end.

(** What a view function hands to Flask. *)
Inductive Reply :=
  | Prices (prices : Json) (message : option string)
  | ServerError (e : Exn).

(** [df.empty] *)
Definition empty (df : DataFrame) : bool :=
  (len df =? 0)%nat || bool_decide (columns df = []).

(** [df[df['town'].isin(towns)]] *)
Definition isin_towns (towns : list string) (df : DataFrame) : Res DataFrame :=
  t ← col df "town";
  inr (select ((fun c => existsb (fun t => cell_is_str t c) towns) <$> t) df).

(** [GET /api/prices]; [args] is [request.args]. *)
Definition get_prices_local (args : gmap string string) : M Reply :=
  try_except
    (t ← datetime_now;
     let start_date := default "2022-01" (args !! "start_date") in
     let end_date := default (strftime_ym t) (args !! "end_date") in
     let town := args !! "town" in
     let towns_param := args !! "towns" in
     let towns :=
       if truthy_str town then [default "" town]
       else if truthy_str towns_param
            then strip <$> split "," (default "" towns_param)
            else [] in
     print "Loading data for period {start_date} to {end_date}";;
     (match towns with
      | [] => mret tt
      | _ => print "Filtering by towns: {towns}"
      end);;
     df ← load_prices_data_for_period start_date end_date;
     if empty df
     then mret (Prices (JArr []) (Some "No data found for the specified period"))
     else
       df ← (match towns with
             | [] => mret df
             | _ =>
                 df ← lift (isin_towns towns df);
                 print "DataFrame size after town filter: {len(df)}";;
                 mret df
             end);
       p ← lift (col df "price");
       let df := set_col "price" (to_numeric_coerce <$> p) df in
       df_aggregated ← lift (groupby_median ["date"; "street"; "flat_type"] "price" df);
       print "Returning {len(df_aggregated)} records";;
       mret (Prices (to_json df_aggregated) None))
    (fun e => print "Error in API: {e}";; mret (ServerError e)).

End App.

(** ** The category priority as an ordered list *)

(** The order of the flags and the tag each one gives. *)
Definition tag_priority : list (string * string) :=
  [("residential", "Residential");
   ("commercial", "Commercial");
   ("market_hawker", "Market and hawker");
   ("miscellaneous", "Miscellaneous");
   ("multistorey_carpark", "Multi-storey carpark");
   ("precinct_pavilion", "Miscellaneous")].

Definition flag_set (d : Dict) (flag : string) : bool :=
  cell_is_str "Y" (default None (assoc_first flag d)).

(** The tag of the first flag that equals ["Y"], if any. *)
Definition first_flag (d : Dict) : option string :=
  snd <$> List.find (fun ft : string * string => flag_set d (fst ft)) tag_priority.

Definition flags_present (d : Dict) : bool :=
  forallb (fun ft : string * string => bool_decide (is_Some (assoc_first (fst ft) d)))
          tag_priority.

(** ** Observations on worlds and traces *)

(** The same services answering the same way again, on the files left by
    an earlier run. *)
Definition refetch (responses : list Response) (w : World) : World :=
  mkWorld responses (fs w) (now w) (trace w).

Definition sleeps (t : list Event) : list Q :=
  omap (fun e => match e with Sleep s => Some s | _ => None end) t.

Definition reads (t : list Event) : list string :=
  omap (fun e => match e with ReadFile p => Some p | _ => None end) t.

Definition requests (t : list Event) : list string :=
  omap (fun e => match e with Get u _ => Some u | _ => None end) t.

Definition errors (t : list Event) : list string :=
  omap (fun e => match e with Log ERROR m => Some m | _ => None end) t.

(** The rows a CSV store holds, as association lists. *)
Definition stored_rows (path : string) (w : World) : option (list (list (string * Value))) :=
  match fs w !! path with
  | Some (FCsv df) => Some (map_to_list <$> rows df)
  | _ => None
  end.

(** The address column of a frame, as [merge] sees it. *)
Definition addresses (df : DataFrame) : list (option Value) :=
  (fun r : Row => r !! "address") <$> rows df.

(** ** Fixtures *)

Definition row_of (l : list (string * Value)) : Row := list_to_map l.

Definition initiated : Json :=
  JObj [("code", JNum 0); ("data", JObj [("message", JStr "Download initiated")])].

Definition link_ready : Json :=
  JObj [("code", JNum 0);
        ("data", JObj [("url", JStr "https://s3.data.gov.sg/export.csv")])].

(** A well-formed answer without the fields the client looks for. *)
Definition no_fields : Json := JObj [("code", JNum 0)].

Definition ex_today : Date := mkDate 2024 4 2.

(** Aggregated prices: the store after an earlier run, and a new batch for
    the first quarter of 2024. *)
Definition ex_agg_columns : list string := ["quarter"; "town"; "flat_type"; "price"].

Definition ex_agg_stale : Row :=
  row_of [("quarter", VStr "2024-Q1"); ("town", VStr "BEDOK");
          ("flat_type", VStr "4 ROOM"); ("price", VNum 480000)].

Definition ex_agg_other : Row :=
  row_of [("quarter", VStr "2023-Q4"); ("town", VStr "BEDOK");
          ("flat_type", VStr "4 ROOM"); ("price", VNum 470000)].

Definition ex_agg_batch : DataFrame :=
  mkDF ex_agg_columns
       [row_of [("quarter", VStr "2024-Q1"); ("town", VStr "Bedok");
                ("flat_type", VStr "4-room"); ("price", VNum 500000)]].

Definition ex_agg_new : Row :=
  row_of [("quarter", VStr "2024-Q1"); ("town", VStr "BEDOK");
          ("flat_type", VStr "4 ROOM"); ("price", VNum 500000)].

Definition ex_agg_net : list Response :=
  [Body initiated; Body link_ready; CsvBody ex_agg_batch].

Definition ex_agg_world : World :=
  mkWorld ex_agg_net
          {[ Extractor.LATEST_AGGPRICES_FILE :=
               FCsv (mkDF ex_agg_columns [ex_agg_stale; ex_agg_other]) ]}
          ex_today [].

(** Monthly resale prices: one transaction of March 2024. *)
Definition ex_prices_batch : DataFrame :=
  mkDF ["month"; "town"; "flat_type"; "block"; "street_name"; "floor_area_sqm"; "resale_price"]
       [row_of [("month", VStr "2024-03"); ("town", VStr "BEDOK");
                ("flat_type", VStr "4 ROOM"); ("block", VStr "101");
                ("street_name", VStr "BEDOK NTH AVE 1");
                ("floor_area_sqm", VNum 100); ("resale_price", VNum 500000)]].

Definition ex_prices_net : list Response :=
  [Body initiated; Body link_ready; CsvBody ex_prices_batch].

Definition ex_empty_store (responses : list Response) : World :=
  mkWorld responses ∅ ex_today [].

(** A world whose network gives no answer at all. *)
Definition ex_offline : World := mkWorld [] ∅ ex_today [].

(** A geocoded block, as [blocks_coordinates] holds it. *)
Definition ex_block (code residential commercial : string) : Dict :=
  [("blk_no", Some (VStr "101"));
   ("street", Some (VStr "BEDOK NTH AVE 1"));
   ("bldg_contract_town", Some (VStr code));
   ("residential", Some (VStr residential));
   ("commercial", Some (VStr commercial));
   ("market_hawker", Some (VStr "N"));
   ("miscellaneous", Some (VStr "N"));
   ("multistorey_carpark", Some (VStr "N"));
   ("precinct_pavilion", Some (VStr "N"));
   ("year_completed", Some (VNum 1978));
   ("max_floor_lvl", Some (VNum 12));
   ("total_dwelling_units", Some (VNum 120));
   ("address", Some (VStr "101 BEDOK NORTH AVENUE 1 SINGAPORE 460101"));
   ("latitude", Some (VStr "1.3321"));
   ("longitude", Some (VStr "103.9368"));
   ("building", Some (VStr "NIL"))].

(** The store after one run on an empty store, and after a second run in
    which the services give the same answers. *)
Definition once (op : M bool) (responses : list Response) : World :=
  (op (ex_empty_store responses)).2.

Definition twice (op : M bool) (responses : list Response) : World :=
  (op (refetch responses (once op responses))).2.

(** Raw transactions behind the prices endpoint: two of the four share
    date, street and flat type. *)
Definition ex_tx (date block street flat_type : string) (price : Q) : Row :=
  row_of [("date", VStr date); ("town", VStr "BEDOK"); ("flat_type", VStr flat_type);
          ("block", VStr block); ("street", VStr street); ("price", VNum price)].

Definition ex_raw_prices : DataFrame :=
  mkDF ["date"; "town"; "flat_type"; "block"; "street"; "price"]
       [ex_tx "2022-03-01" "101" "BEDOK NTH AVE 1" "4 ROOM" 500000;
        ex_tx "2022-04-01" "101" "BEDOK NTH AVE 1" "4 ROOM" 505000;
        ex_tx "2022-03-01" "102" "BEDOK NTH AVE 1" "4 ROOM" 520000;
        ex_tx "2022-03-01" "230" "BEDOK NTH AVE 1" "3 ROOM" 350000].

Definition ex_served : World :=
  mkWorld [] {[ App.LATEST_PRICES_FILE := FCsv ex_raw_prices ]} ex_today [].

Definition ex_args : gmap string string :=
  {[ "start_date" := "2022-01"; "end_date" := "2022-12" ]}.

Definition ex_group (date street flat_type : string) (price : Q) : Json :=
  JObj [("date", JStr date); ("street", JStr street);
        ("flat_type", JStr flat_type); ("price", JNum price)].

(** The stored form of the March 2024 transaction after enrichment. *)
Definition ex_prices_stored (with_year_and_month : bool) : list (string * Value) :=
  map_to_list
    (row_of
       ([("date", VStr "2024-03-01"); ("town", VStr "BEDOK");
         ("flat_type", VStr "4 ROOM"); ("block", VStr "101");
         ("street_name", VStr "BEDOK NTH AVE 1");
         ("floor_area_sqm", VNum 100); ("price", VNum 500000);
         ("price_per_sqm", VNum 5000)]
        ++ (if with_year_and_month
            then [("year", VNum 2024); ("month_num", VNum 3)]
            else []))).

(** ** Computations that cannot raise *)

(** [m] never raises, and what it returns satisfies [P]. *)
Definition always {A} (P : A -> Prop) (m : M A) : Prop :=
  forall w, exists x w', m w = (inr x, w') /\ P x.

Abbreviation total := (always (fun _ => True)).

(** ** The polling protocol, observed *)

(** An initiate answer that passes the format check and whose message
    can be read. *)
Definition accepted (j : Json) : Prop :=
  unexpected_format j = inr false /\
  exists m, (getitem j "data" ≫= fun d => getitem d "message") = inr m.

(** A poll answer in which the client finds no download link. *)
Definition pending (p : Json) : Prop := has_download_link p = inr false.

Definition timeout_msg : string :=
  "{i+1}/{MAX_POLLS}: No result found, possible error with dataset".

Definition unexpected_msg : string := "Unexpected response format: {response_data}".

(** The first poll answers without the expected fields, the second with
    a link. *)
Definition ex_poll_net : list Response :=
  [Body initiated; Body no_fields; Body link_ready; CsvBody ex_agg_batch].

(** Five polls in a row without a link. *)
Definition ex_timeout_world : World :=
  ex_empty_store (Body initiated :: (Body <$> replicate 5 no_fields)).

(** ** Period-range reads, observed *)

Definition date_or_missing (c : option Value) : Prop :=
  c = None \/ exists d, c = Some (VDate d).

(** The row has a date and it lies in [lo, hi]. *)
Definition in_range (lo hi : Date) (r : Row) : bool :=
  match r !! "date" with
  | Some (VDate d) => date_leb lo d && date_leb d hi
  | _ => false
  end.

(** A segment file as the date conversion leaves it once loaded. *)
Definition dated (s : DataFrame) : DataFrame :=
  match to_datetime_col "date" (csv_of s) with
  | inr d => d
  | inl _ => df_empty
  end.

Definition ex_segment (dates : list string) : File :=
  FCsv (mkDF ["date"; "town"; "flat_type"; "block"; "street"; "price"]
             ((fun d => ex_tx d "101" "BEDOK NTH AVE 1" "4 ROOM" 300000) <$> dates)).

Definition ex_seg_2000_2012 : DataFrame :=
  mkDF ["date"; "town"; "flat_type"; "block"; "street"; "price"]
       ((fun d => ex_tx d "101" "BEDOK NTH AVE 1" "4 ROOM" 300000)
          <$> ["2010-05-01"; "2011-05-01"; "2011-06-01"; "2012-02-01"]).

Definition ex_seg_2012_2014 : DataFrame :=
  mkDF ["date"; "town"; "flat_type"; "block"; "street"; "price"]
       ((fun d => ex_tx d "101" "BEDOK NTH AVE 1" "4 ROOM" 400000)
          <$> ["2012-03-01"; "2013-02-01"; "2013-03-01"; "2014-12-01"]).

(** All five segments are on disk. *)
Definition ex_segments_world : World :=
  mkWorld []
          (list_to_map
             [("data/prices_1990_1999.csv", ex_segment ["1995-01-01"]);
              ("data/prices_2000_2012.csv", FCsv ex_seg_2000_2012);
              ("data/prices_2012_2014.csv", FCsv ex_seg_2012_2014);
              ("data/prices_2015_2016.csv", ex_segment ["2015-01-01"]);
              ("data/prices_2017_onwards.csv", ex_segment ["2017-01-01"])])
          ex_today [].

(** ** Replace-by-key, observed *)

(** The rows of the store whose address matches no address of the batch. *)
Definition kept_rows (existing new : DataFrame) : list Row :=
  List.filter (fun r : Row => negb (cell_in (r !! "address") (addresses new))) (rows existing).

Definition ex_building (address town : string) (year : Q) : Row :=
  row_of [("tag", VStr "Residential"); ("lat", VNum (13321 # 10000));
          ("lon", VNum (1039368 # 10000)); ("town", VStr town);
          ("address", VStr address); ("street", VStr "BEDOK NTH AVE 1");
          ("total_units", VNum 120); ("year", VNum year); ("max_floor_lvl", VNum 12)].

Definition ex_building_columns : list string :=
  ["tag"; "lat"; "lon"; "town"; "address"; "street"; "total_units"; "year"; "max_floor_lvl"].

(** The batch overlaps the store on one address only. *)
Definition ex_props_store : DataFrame :=
  mkDF ex_building_columns
       [ex_building "101 BEDOK NORTH AVENUE 1" "BEDOK" 1978;
        ex_building "102 BEDOK NORTH AVENUE 1" "BEDOK" 1978;
        ex_building "103 BEDOK NORTH AVENUE 1" "BEDOK" 1979].

Definition ex_props_batch : DataFrame :=
  mkDF ex_building_columns
       [ex_building "102 BEDOK NORTH AVENUE 1" "BEDOK" 2024;
        ex_building "230 BEDOK NORTH AVENUE 1" "BEDOK" 2024].

(** ** Files and failures *)

(** [m] changes no file, leaves a network that is down as it is, and
    what it returns satisfies [P]. *)
Definition yields {A} (P : A -> Prop) (m : M A) : Prop :=
  forall w, fs (m w).2 = fs w /\
            (net w = [] -> net (m w).2 = []) /\
            forall x, (m w).1 = inr x -> P x.

Abbreviation keeps_files := (yields (fun _ => True)).

(** Unless [m] returns [True], the file at [path] is as before. *)
Definition atomic_on (path : string) (m : M bool) : Prop :=
  forall w, (m w).1 = inr true \/ fs (m w).2 !! path = fs w !! path.

(** A cell that [json.dump] can write. *)
Definition dumpable (c : option Value) : Prop := exists j, json_of_cell c = inr j.

Definition all_dumpable (df : DataFrame) : Prop :=
  forall r, r ∈ rows df -> forall c, dumpable (r !! c).

(** No row has a cell outside the columns. *)
Definition well_formed (df : DataFrame) : Prop :=
  forall r, r ∈ rows df -> forall c, c ∉ columns df -> r !! c = None.

Definition dump_safe (p : DataFrame * DataFrame) : Prop :=
  (exists j, records_json p.1 = inr j) -> exists j, records_json p.2 = inr j.

(** With the network down, [m] does not return [True]. *)
Definition offline_false (m : M bool) : Prop :=
  forall w, net w = [] -> (m w).1 <> inr true.

(** A store of buildings on disk, and a network that is down. *)
Definition ex_offline_with_store : World :=
  mkWorld []
          {[ Extractor.PROPERTIES_FILE := FJson (JArr []);
             Extractor.LATEST_PRICES_FILE := FCsv ex_prices_batch;
             Extractor.LATEST_AGGPRICES_FILE := FCsv ex_agg_batch ]}
          ex_today [].

(** ** Segments and the years they are loaded for *)

(** The years each segment file is loaded for, read off the five tests
    of [load_prices_data_for_period]: the first segment has no lower
    bound, the last no upper bound. *)
Definition segment_spans : list (string * (option Z * option Z)) :=
  [("data/prices_1990_1999.csv", (None, Some 1999));
   ("data/prices_2000_2012.csv", (Some 2000, Some 2012));
   ("data/prices_2012_2014.csv", (Some 2012, Some 2014));
   ("data/prices_2015_2016.csv", (Some 2015, Some 2016));
   ("data/prices_2017_onwards.csv", (Some 2017, None))].

Definition from_year (lo : option Z) (y : Z) : bool :=
  match lo with
  | Some l => l <=? y
  | None => true
  end.

Definition to_year (hi : option Z) (y : Z) : bool :=
  match hi with
  | Some h => y <=? h
  | None => true
  end.

(** The span meets the years [start_year .. end_year]. *)
Definition meets (start_year end_year : Z) (s : string * (option Z * option Z)) : bool :=
  to_year (snd (snd s)) start_year && from_year (fst (snd s)) end_year.

Definition spans_year (y : Z) (s : string * (option Z * option Z)) : bool :=
  from_year (fst (snd s)) y && to_year (snd (snd s)) y.

(** ** Numbers written with a fixed width and read back *)

Definition reads_back (width : nat) (fmt : Z -> string) (n : Z) : bool :=
  (String.length (fmt n) =? width)%nat &&
  match parse_nat (fmt n) with
  | Some k => k =? n
  | None => false
  end.

(** ** What a run adds to the trace *)

(** [m] appends to the trace at most [reqs] requests and [naps] sleeps,
    each sleep of [d] seconds, whether it returns or raises. *)
Definition effort {A} (reqs naps : nat) (d : Q) (m : M A) : Prop :=
  forall w, exists t,
    trace (m w).2 = t ++ trace w /\
    (length (requests t) <= reqs)%nat /\
    (length (sleeps t) <= naps)%nat /\
    Forall (fun s => s = d) (sleeps t).

Definition no_period_msg : string :=
  "No valid time period specified (need year, month, or quarter)".

Definition no_year_msg : string :=
  "Year must be provided when using quarter without year".

(** A copy of [download_file] that always returns, changes no file
    other than the log, sends at most seven requests (one to initiate,
    five polls, one for the CSV) and sleeps at most five times, three
    seconds each. *)
Definition bounded_download
    (download_file : string -> option Z -> option Z -> option string -> M (option DataFrame))
  : Prop :=
  forall ds year month quarter w,
    let r := download_file ds year month quarter w in
    (exists o, r.1 = inr o) /\
    (forall p, p <> LOG_FILE -> fs r.2 !! p = fs w !! p) /\
    exists t, trace r.2 = t ++ trace w /\
              (length (requests t) <= 7)%nat /\
              (length (sleeps t) <= 5)%nat /\
              Forall (fun s => s = 3%Q) (sleeps t).

(** ** Geocoding attempts, observed *)

(** An exchange from which the client gets no JSON: the request fails or
    the body does not decode. *)
Definition undecodable (r : Response) : Prop := forall j, r <> Body j.

Definition ex_geocoded : Json :=
  JObj [("found", JNum 1);
        ("results", JArr [JObj [("ADDRESS", JStr "101 BEDOK NORTH AVENUE 1 SINGAPORE 460101");
                                ("LATITUDE", JStr "1.3321");
                                ("LONGITUDE", JStr "103.9368");
                                ("BUILDING", JStr "NIL")]])].

(** ** Downloads narrowed to a month, observed *)

(** The cell holds a date of month [month] of year [year]. *)
Definition in_month (year month : Z) (c : option Value) : Prop :=
  exists d, c = Some (VDate d) /\ dt_year d = year /\ dt_month d = month.

(** If the frame has a [month] column, every row is of that month. *)
Definition month_rows (year month : Z) (df : DataFrame) : Prop :=
  has_col "month" df = true ->
  forall r, r ∈ rows df -> in_month year month (r !! "month").

(** What [download_file] hands back when it hands back anything. *)
Definition some_month_rows (year month : Z) (o : option DataFrame) : Prop :=
  forall df, o = Some df -> month_rows year month df.

Definition month_download
    (download_file : string -> option Z -> option Z -> option string -> M (option DataFrame))
  : Prop :=
  forall ds year month w df,
    1678 <= year <= 2261 -> 1 <= month <= 12 ->
    (download_file ds (Some year) (Some month) None w).1 = inr (Some df) ->
    month_rows year month df.

Definition ex_month_csv : DataFrame :=
  mkDF ["month"; "town"]
       [row_of [("month", VStr "2024-03"); ("town", VStr "BEDOK")];
        row_of [("month", VStr "2024-04"); ("town", VStr "BEDOK")]].

Definition ex_month_net : list Response :=
  [Body initiated; Body link_ready; CsvBody ex_month_csv].

(** What the root copy hands back for March 2024 on that CSV. *)
Definition ex_month_result : DataFrame :=
  match (Extractor.download_file "d_8b84c4ee58e3cfc0ece0d773c8ca6abc" (Some 2024) (Some 3) None
           (ex_empty_store ex_month_net)).1 with
  | inr (Some df) => df
  | _ => df_empty
  end.


(** ** The month before a date *)

(** [(y', m')] is the calendar month just before month [m] of year [y]. *)
Definition month_before (y m y' m' : Z) : Prop :=
  12 * y' + m' = 12 * y + m - 1 /\ 1 <= m' <= 12.

(** A clock a few days into January. *)
Definition ex_january : World := mkWorld [] ∅ (mkDate 2025 1 5) [].

(** ** The files an operation may write *)

(** [m] leaves every file outside [paths] as it was, the log file, to
    which the module's logger appends, set apart. *)
Definition touches_only {A} (paths : list string) (m : M A) : Prop :=
  forall w p, p <> LOG_FILE -> p ∉ paths -> fs (m w).2 !! p = fs w !! p.

Definition PROPERTIES_FILES : list string :=
  [Extractor.PROPERTIES_FILE;
   path_join DATA_DIR "properties_combined_new.json";
   path_join DATA_DIR "properties_metadata.json"].

Definition PRICES_FILES : list string :=
  [Extractor.LATEST_PRICES_FILE; path_join DATA_DIR "prices_latest_metadata.json"].

Definition AGGPRICES_FILES : list string :=
  [Extractor.LATEST_AGGPRICES_FILE; path_join DATA_DIR "agg_prices_latest_metadata.json"].

(** ** What a successful update leaves on disk *)

(** When [m] returns [True], the world it leaves satisfies [Q]. *)
Definition on_true (Q : World -> Prop) (m : M bool) : Prop :=
  forall w, (m w).1 = inr true -> Q (m w).2.

(** The CSV store at [store] and the metadata at [meta] agree: the
    metadata names the period [label] and counts the rows of the store. *)
Definition csv_store_counted (store meta label : string) (w : World) : Prop :=
  exists df t,
    fs w !! store = Some (FCsv df) /\
    fs w !! meta = Some (FJson (metadata t label (len df))).

(** The same for the JSON store of buildings. *)
Definition json_store_counted (store meta label : string) (w : World) : Prop :=
  exists recs t,
    fs w !! store = Some (FJson (JArr recs)) /\
    fs w !! meta = Some (FJson (metadata t label (length recs))).

(** A one-row CSV of blocks and the network that serves it and geocodes
    its row. *)
Definition ex_blocks_csv : DataFrame :=
  mkDF ["blk_no"; "street"; "bldg_contract_town"; "residential"; "commercial";
        "market_hawker"; "miscellaneous"; "multistorey_carpark"; "precinct_pavilion";
        "year_completed"; "max_floor_lvl"; "total_dwelling_units"]
       [row_of [("blk_no", VStr "101"); ("street", VStr "BEDOK NTH AVE 1");
                ("bldg_contract_town", VStr "BD"); ("residential", VStr "Y");
                ("commercial", VStr "N"); ("market_hawker", VStr "N");
                ("miscellaneous", VStr "N"); ("multistorey_carpark", VStr "N");
                ("precinct_pavilion", VStr "N"); ("year_completed", VNum 1978);
                ("max_floor_lvl", VNum 12); ("total_dwelling_units", VNum 120)]].

Definition ex_blocks_net : list Response :=
  [Body initiated; Body link_ready; CsvBody ex_blocks_csv; Body ex_geocoded].


(** ** The enriched batch of buildings, observed *)

(** A coordinate of a geocoder answer written as a number, or as text in
    plain decimal notation: digits with at most one point and an optional
    sign, the notation [float] is modelled for. *)
Definition plain_decimal (v : Res Json) : bool :=
  match v with
  | inr (JStr s) => bool_decide (is_Some (parse_decimal (strip s)))
  | inr JNaN => false
  | _ => true
  end.

(** The first result of the answer, if there is one, has such
    coordinates. *)
Definition plain_coordinates (r : Response) : bool :=
  match r with
  | Body j =>
      match getitem j "results" ≫= getitem0 with
      | inr l => plain_decimal (getitem l "LATITUDE") && plain_decimal (getitem l "LONGITUDE")
      | inl _ => true
      end
  | _ => true
  end.

Definition enriched_columns : list string :=
  ["tag"; "lat"; "lon"; "town"; "address"; "street"; "total_units"; "year"; "max_floor_lvl"].

(** A record as [enrich_properties_data] builds it: the nine keys in
    order, numeric coordinates, a town name taken from the legend. *)
Definition enriched_dict (r : Dict) : Prop :=
  exists tag lat lon code town address street total_units year max_floor_lvl,
    Extractor.legend !! code = Some town /\
    r = [("tag", tag); ("lat", Some (VNum lat)); ("lon", Some (VNum lon));
         ("town", Some (VStr town)); ("address", address); ("street", street);
         ("total_units", total_units); ("year", year); ("max_floor_lvl", max_floor_lvl)].

Definition enriched_row (r : Row) : Prop :=
  (exists q, r !! "lat" = Some (VNum q)) /\
  (exists q, r !! "lon" = Some (VNum q)) /\
  (exists code town, Extractor.legend !! code = Some town /\ r !! "town" = Some (VStr town)).

(** At most [n] rows; no column at all when there is no row, the nine
    columns otherwise; every row well formed. *)
Definition enriched_batch (n : nat) (out : DataFrame) : Prop :=
  (len out <= n)%nat /\
  (out = df_empty \/ (rows out <> [] /\ columns out = enriched_columns)) /\
  forall r, r ∈ rows out -> enriched_row r.

(** The batch made from the one-row CSV of blocks. *)
Definition ex_enriched_blocks : DataFrame :=
  match (Extractor.enrich_properties_data ex_blocks_csv
           (ex_empty_store [Body ex_geocoded])).1 with
  | inr out => out
  | inl _ => df_empty
  end.

(** ** Range reads on any store *)

(** Every CSV file on disk has a [date] column. *)
Definition all_dated (w : World) : Prop :=
  forall p df, fs w !! p = Some (FCsv df) -> has_col "date" df = true.

Definition rows_in_range (lo hi : Date) (df : DataFrame) : Prop :=
  forall r, r ∈ rows df -> in_range lo hi r = true.

(** ** [src/app.py]: the other endpoints *)

Module Views.

(** What [jsonify({key: payload})] and [jsonify({'error': str(e)}), 500]
    hand to Flask. *)
Inductive Reply :=
  | Ok (key : string) (payload : Json)
  | ServerError (e : Exn).

Definition GEOJSON_FILE : string := path_join DATA_DIR "PlanningBoundaryArea.geojson".

(** [GET /api/geojson] *)
Definition get_geosjon : M Reply :=
  try_except
    (data ← json_load GEOJSON_FILE;
     mret (Ok "geojson" data))
    (fun e => print "Error in API: {e}";; mret (ServerError e)).

(** [GET /api/properties] *)
Definition get_properties_local : M Reply :=
  try_except
    (data ← json_load Extractor.PROPERTIES_FILE;
     mret (Ok "properties" data))
    (fun e => print "Error in API: {e}";; mret (ServerError e)).

(** [GET /api/agg_prices] *)
Definition get_agg_prices_local : M App.Reply :=
  try_except
    (df ← read_csv Extractor.LATEST_AGGPRICES_FILE;
     p ← lift (col df "price");
     let df := set_col "price" (to_numeric_coerce <$> p) df in
     mret (App.Prices (to_json df) None))
    (fun e => print "Error in API: {e}";; mret (App.ServerError e)).

(** The default start of [/api/agg_address_prices]: lines 199-210. *)
Definition default_start_date (current_date : Date) : string :=
  let year := dt_year current_date in
  let month := dt_month current_date in
  let month := month - 6 in
  let '(year, month) := if month <=? 0 then (year - 1, month + 12) else (year, month) in
  str_Z year +:+ "-" +:+ fmt_02d month.

(** [a + ' ' + b] on two columns of strings, cell by cell. *)
Definition str_add (a b : option Value) : Res (option Value) :=
  match a, b with
  | Some (VStr s), Some (VStr t) => inr (Some (VStr (s +:+ " " +:+ t)))
  | None, (None | Some (VStr _)) | Some (VStr _), None => inr None
  | _, _ => inl TypeError
  end.

(** [df[df['price'].notna()]] *)
Definition notna_price (df : DataFrame) : Res DataFrame :=
  p ← col df "price";
  inr (select ((fun c : option Value => bool_decide (is_Some c)) <$> p) df).

(** [GET /api/agg_address_prices]; [args] is [request.args]. *)
Definition get_address_prices_local (args : gmap string string) : M App.Reply :=
  try_except
    (current_date ← datetime_now;
     let start_date := default (default_start_date current_date) (args !! "start_date") in
     let end_date := default (strftime_ym current_date) (args !! "end_date") in
     print "Loading data for period {start_date} to {end_date}";;
     df ← App.load_prices_data_for_period start_date end_date;
     if App.empty df
     then mret (App.Prices (JArr []) (Some "No data found for the specified period"))
     else
       b ← lift (col df "block");
       s ← lift (col df "street");
       bs ← lift (zipM str_add b s);
       let df := set_col "block_street" bs df in
       p ← lift (col df "price");
       let df := set_col "price" (to_numeric_coerce <$> p) df in
       df_filtered ← lift (notna_price df);
       df_aggregated ← lift (groupby_median ["block_street"; "flat_type"] "price" df_filtered);
       print "Returning {len(df_aggregated)} records";;
       mret (App.Prices (to_json df_aggregated) None))
    (fun e => print "Error in API: {e}";; mret (App.ServerError e)).

End Views.

(** ** [src/api/monthly_scheduled.py] *)

Module Scheduled.

(** [Handler.do_GET]: the status sent and the body written. *)
Definition do_GET : M (Z * string) :=
  try_except
    (result ← ApiMonthly.run None None;
     mret (200, "Monthly data extraction completed."))
    (fun e => mret (500, "Error: {str(e)}")).

End Scheduled.

(** ** Extraction over a span of months *)

(** [datetime(year, month, day)] *)
Definition datetime_ (year month day : Z) : Res Date :=
  if (1 <=? year) && (year <=? 9999) && valid_date (mkDate year month day)
  then inr (mkDate year month day)
  else inl ValueError.

(** [a > b] on datetimes. *)
Definition date_gtb (a b : Date) : bool := negb (date_leb a b).

(** The [while] loop of [extract_multiple_months], run for at most [fuel]
    iterations; [false] is returned when the fuel runs out before
    [current] has passed [end_date]. *)
Fixpoint months_loop (extract : Z -> Z -> M bool) (fuel : nat)
    (current end_date : Date) : M bool :=
  if date_leb current end_date
  then
    match fuel with
    | O => mret false
    | S fuel' =>
        let year := dt_year current in
        let month := dt_month current in
        print "Extracting data for {year}-{month:02d}";;
        extract year month;;
        let '(year, month) := if month =? 12 then (year + 1, 1) else (year, month + 1) in
        current ← lift (datetime_ year month 1);
        months_loop extract fuel' current end_date
    end
  else mret true.

(** The number of months from [a] to [b], both included. *)
Definition months_between (a b : Date) : nat :=
  Z.to_nat (12 * (dt_year b - dt_year a) + (dt_month b - dt_month a) + 1).

Definition extract_multiple_months_with (extract : Z -> Z -> M bool)
    (start_year start_month end_year end_month : Z) : M bool :=
  start_date ← lift (datetime_ start_year start_month 1);
  end_date ← lift (datetime_ end_year end_month 1);
  if date_gtb start_date end_date
  then raise ValueError
  else
    done ← months_loop extract (months_between start_date end_date) start_date end_date;
    print "Completed extracting data from {start_year}-{start_month:02d} to {end_year}-{end_month:02d}";;
    mret done.

Module ExtractorSpan.

Definition extract_multiple_months : Z -> Z -> Z -> Z -> M bool :=
  extract_multiple_months_with
    (fun year month => Extractor.extract_monthly_data (Some year) (Some month)).

End ExtractorSpan.

Module ApiMonthlySpan.

Definition extract_multiple_months : Z -> Z -> Z -> Z -> M bool :=
  extract_multiple_months_with (fun year month => ApiMonthly.run (Some year) (Some month)).

End ApiMonthlySpan.

(** The months visited, as a list: [n] months from [month] of [year]. *)
Fixpoint month_seq (year month : Z) (n : nat) : list (Z * Z) :=
  match n with
  | O => []
  | S n' =>
      (year, month)
      :: (if month =? 12 then month_seq (year + 1) 1 n' else month_seq year (month + 1) n')
  end.

(** One extraction per month of the list, in order. *)
Fixpoint extract_each (extract : Z -> Z -> M bool) (l : list (Z * Z)) : M unit :=
  match l with
  | [] => mret tt
  | (year, month) :: l' =>
      print "Extracting data for {year}-{month:02d}";;
      extract year month;;
      extract_each extract l'
  end.

(** ** The endpoints, observed *)

Definition no_data_reply : App.Reply :=
  App.Prices (JArr []) (Some "No data found for the specified period").

(** A served record whose price is a number or [null]. *)
Definition price_is_number_or_null (rec : Json) : Prop :=
  getitem rec "price" = inr JNull \/ exists q, getitem rec "price" = inr (JNum q).

(** No price of the frame is a boolean: a column of booleans only is
    left as it is by [pd.to_numeric]. *)
Definition no_boolean_price (df : DataFrame) : Prop :=
  forall r b, r ∈ rows df -> r !! "price" <> Some (VBool b).

(** No segment file is on disk. *)
Definition no_segment (w : World) : Prop :=
  forall p, p ∈ (snd <$> App.PRICES_SEGMENTS) -> fs w !! p = None.

(** A store of aggregated prices where one price is the placeholder. *)
Definition ex_agg_with_placeholder : DataFrame :=
  mkDF ex_agg_columns
       [ex_agg_other;
        row_of [("quarter", VStr "2024-Q1"); ("town", VStr "BEDOK");
                ("flat_type", VStr "1 ROOM"); ("price", VStr "-")]].

Definition ex_agg_placeholder : World :=
  mkWorld [] {[ Extractor.LATEST_AGGPRICES_FILE := FCsv ex_agg_with_placeholder ]} ex_today [].


(** ** Replace-by-month in the daily copy, observed *)

(** A date cell as the daily update stores it. *)
Definition render_date (c : option Value) : option Value :=
  match c with
  | Some (VDate d) => Some (VStr (strftime_ymd d))
  | _ => None
  end.

Definition dated_as_text (r : Row) : Row := set_cell "date" (render_date (r !! "date")) r.

(** The row carries no date of the range. *)
Definition outside (lo hi : Date) (r : Row) : bool := negb (in_range lo hi r).

(** What the store holds after the batch replaced the month: the rows
    dated outside the month, then the batch, dates written as text. *)
Definition month_replaced (year month : Z) (dated batch : DataFrame) : DataFrame :=
  let lo := mkDate year month 1 in
  let hi := mkDate year month (days_in_month year month) in
  csv_of (mkDF (columns (concat dated batch))
               (dated_as_text <$> (List.filter (outside lo hi) (rows dated) ++ rows batch))).

Definition all_dates (df : DataFrame) : Prop :=
  forall r, r ∈ rows df -> date_or_missing (r !! "date").

Definition LATEST_DATASET : string := "d_8b84c4ee58e3cfc0ece0d773c8ca6abc".

(** A store of daily prices with a row of February 2024, a stale row of
    March 2024 and a row without date; the service then delivers the
    March transaction of [ex_prices_batch]. *)
Definition ex_daily_row (date : option string) (price : Q) : Row :=
  row_of ([("town", VStr "BEDOK"); ("flat_type", VStr "4 ROOM"); ("block", VStr "101");
           ("street_name", VStr "BEDOK NTH AVE 1"); ("floor_area_sqm", VNum 100);
           ("price", VNum price); ("price_per_sqm", VNum (price / 100))]
          ++ match date with
             | Some d => [("date", VStr d)]
             | None => []
             end).

Definition ex_daily_store : DataFrame :=
  mkDF ["date"; "town"; "flat_type"; "block"; "street_name"; "floor_area_sqm"; "price";
        "price_per_sqm"]
       [ex_daily_row (Some "2024-02-01") 470000;
        ex_daily_row (Some "2024-03-01") 480000;
        ex_daily_row None 460000].

Definition ex_daily_world : World :=
  mkWorld ex_prices_net {[ Daily.LATEST_PRICES_FILE := FCsv ex_daily_store ]} ex_today [].

Definition ex_daily_download : Res (option DataFrame) * World :=
  Daily.download_file LATEST_DATASET (Some 2024) (Some 3) None ex_daily_world.

Definition ex_daily_month_df : DataFrame :=
  match ex_daily_download.1 with
  | inr (Some df) => df
  | _ => df_empty
  end.

Definition ex_daily_batch : DataFrame :=
  match Daily.enrich_prices_data ex_daily_month_df with
  | inr df => df
  | inl _ => df_empty
  end.

(** Every row of the frame is dated within the month. *)
Definition of_month (year month : Z) (df : DataFrame) : Prop :=
  forall r, r ∈ rows df ->
    in_range (mkDate year month 1) (mkDate year month (days_in_month year month)) r = true.

(** The dates of the frame lie in the years a pandas Timestamp can hold
    in full. *)
Definition timestamp_years (df : DataFrame) : Prop :=
  forall r d, r ∈ rows df -> r !! "date" = Some (VDate d) -> 1678 <= dt_year d <= 2261.

(** A stored row read back: the cells as the file has them, the date
    parsed again. *)
Definition read_back (r : Row) : Row :=
  set_cell "date" (r !! "date") (csv_cell <$> dated_as_text r).

(** The store left by [month_replaced], loaded again with its dates
    parsed. *)
Definition month_reloaded (year month : Z) (dated batch : DataFrame) : DataFrame :=
  let lo := mkDate year month 1 in
  let hi := mkDate year month (days_in_month year month) in
  mkDF (columns (concat dated batch))
       (read_back <$> (List.filter (outside lo hi) (rows dated) ++ rows batch)).

Definition ex_daily_stored : World :=
  refetch ex_prices_net (Daily.update_latest_prices_dataset 2024 3 ex_daily_world).2.

(** * Properties *)

(** ** Category tagging *)

Lemma dict_getitem_present (d : Dict) (k : string) :
  is_Some (assoc_first k d) ->
  dict_getitem d k = inr (default None (assoc_first k d)).
Proof. intros [v Hv]. unfold dict_getitem. rewrite Hv. reflexivity. Qed.

Ltac tag_step H :=
  rewrite (dict_getitem_present _ _ H); cbn [mbind Res_bind];
  match goal with
  | |- context [cell_is_str "Y" ?c] => destruct (cell_is_str "Y" c) eqn:?
  end.

(** C6.  When the six flag columns are present, [tagging] gives the tag of
    the first flag equal to ["Y"] in the order residential, commercial,
    market/hawker, miscellaneous, multistorey carpark, precinct/pavilion
    (the last one tagged "Miscellaneous" too), and no tag when no flag is
    set; so a residential flag wins whatever the other flags are. *)
Theorem tagging_first_flag_in_priority_order (d : Dict) :
  flags_present d = true ->
  Extractor.tagging d = inr (first_flag d) /\
  (flag_set d "residential" = true ->
   Extractor.tagging d = inr (Some "Residential")) /\
  (forallb (fun ft : string * string => negb (flag_set d (fst ft))) tag_priority = true ->
   Extractor.tagging d = inr None).
Proof.
  unfold flags_present, tag_priority. cbn [forallb fst].
  rewrite !andb_true_iff. intros (H1 & H2 & H3 & H4 & H5 & H6 & _).
  apply bool_decide_eq_true in H1, H2, H3, H4, H5, H6.
  assert (Hmain : Extractor.tagging d = inr (first_flag d)).
  { unfold Extractor.tagging, first_flag, tag_priority, flag_set.
    cbn [List.find fst snd].
    tag_step H1; [reflexivity|]. tag_step H2; [reflexivity|].
    tag_step H3; [reflexivity|]. tag_step H4; [reflexivity|].
    tag_step H5; [reflexivity|]. tag_step H6; reflexivity. }
  split; [exact Hmain|]. rewrite Hmain. unfold first_flag, tag_priority.
  split.
  - intros Hr. cbn [List.find fst snd]. rewrite Hr. reflexivity.
  - rewrite !negb_true_iff.
    intros (F1 & F2 & F3 & F4 & F5 & F6 & _).
    cbn [List.find fst snd]. rewrite F1, F2, F3, F4, F5, F6. reflexivity.
Qed.

Lemma tagging_first_flag_in_priority_order_witness :
  flags_present (ex_block "BD" "Y" "Y") = true /\
  Extractor.tagging (ex_block "BD" "Y" "Y") = inr (Some "Residential").
Proof.
  split; [reflexivity|].
  apply (tagging_first_flag_in_priority_order (ex_block "BD" "Y" "Y")); reflexivity.
Defined.

Example tagging_all_flags_off :
  Extractor.tagging (ex_block "BD" "N" "N") = inr None.
Proof. reflexivity. Qed.

Example tagging_precinct_pavilion :
  Extractor.tagging
    (dict_set "precinct_pavilion" (Some (VStr "Y")) (ex_block "BD" "N" "N"))
  = inr (Some "Miscellaneous").
Proof. reflexivity. Qed.

(** ** Town codes *)

Lemma legend_size : size Extractor.legend = 27%nat.
Proof. vm_compute. reflexivity. Qed.

(** C4, as stated, fails: the table holds 27 codes, not 26; and an unknown
    code in one block loses the whole batch, the blocks with a known code
    included. *)
Lemma legend_has_27_codes_not_26 :
  size Extractor.legend <> 26%nat /\
  (exists rs, Extractor.enriched_records [(0%nat, Some (ex_block "BD" "Y" "N"))] = inr rs) /\
  Extractor.enriched_records
    [(0%nat, Some (ex_block "BD" "Y" "N")); (1%nat, Some (ex_block "XYZ" "Y" "N"))]
  = inl (KeyError "XYZ").
Proof.
  split; [rewrite legend_size; discriminate|].
  split; [eexists; vm_compute; reflexivity|].
  vm_compute. reflexivity.
Qed.

Lemma enriched_record_unknown_code (d : Dict) (code : string) :
  Extractor.legend !! code = None ->
  dict_getitem d "bldg_contract_town" = inr (Some (VStr code)) ->
  exists e, Extractor.enriched_record d = inl e.
Proof.
  intros Hl Hc. unfold Extractor.enriched_record.
  destruct (Extractor.tagging d) as [e|tag]; [eauto|]. cbn [mbind Res_bind].
  destruct (dict_getitem d "latitude") as [e|x]; [eauto|]. cbn [mbind Res_bind].
  destruct (float x) as [e|lat]; [eauto|]. cbn [mbind Res_bind].
  destruct (dict_getitem d "longitude") as [e|y]; [eauto|]. cbn [mbind Res_bind].
  destruct (float y) as [e|lon]; [eauto|]. cbn [mbind Res_bind].
  rewrite Hc. cbn [mbind Res_bind]. unfold Extractor.legend_getitem.
  rewrite Hl. cbn. eauto.
Qed.

(** C4, amended.  The table holds exactly 27 codes.  For a code that is
    not in it the lookup raises [KeyError] and yields no town name; a
    geocoded block carrying such a code makes its own record fail, and
    with it the enrichment of the whole batch. *)
Theorem unknown_town_code_fails_closed (code : string) (d : Dict) (i : nat)
    (before after : list (nat * option Dict)) :
  Extractor.legend !! code = None ->
  dict_getitem d "bldg_contract_town" = inr (Some (VStr code)) ->
  size Extractor.legend = 27%nat /\
  Extractor.legend_getitem (Some (VStr code)) = inl (KeyError code) /\
  (exists e, Extractor.enriched_record d = inl e) /\
  (exists e, Extractor.enriched_records (before ++ (i, Some d) :: after) = inl e).
Proof.
  intros Hl Hc. split; [exact legend_size|]. split.
  { unfold Extractor.legend_getitem. rewrite Hl. reflexivity. }
  destruct (enriched_record_unknown_code d code Hl Hc) as [e He].
  split; [eauto|].
  destruct d as [|kv0 d0]; [discriminate Hc|].
  induction before as [|[k [[|kv d']|]] before IH]; cbn [app Extractor.enriched_records].
  - rewrite He. cbn. eauto.
  - exact IH.
  - destruct (Extractor.enriched_record (kv :: d')) as [e'|r]; [cbn; eauto|].
    cbn [mbind Res_bind]. destruct IH as [e' ->]. cbn. eauto.
  - exact IH.
Qed.

Lemma unknown_town_code_fails_closed_witness :
  Extractor.legend !! "XYZ" = None /\
  Extractor.legend_getitem (Some (VStr "XYZ")) = inl (KeyError "XYZ") /\
  exists e, Extractor.enriched_records
              ([(0%nat, Some (ex_block "BD" "Y" "N"))]
               ++ (1%nat, Some (ex_block "XYZ" "Y" "N")) :: []) = inl e.
Proof.
  pose proof (unknown_town_code_fails_closed "XYZ" (ex_block "XYZ" "Y" "N") 1
                [(0%nat, Some (ex_block "BD" "Y" "N"))] [] eq_refl eq_refl) as H.
  split; [reflexivity|]. split; apply H.
Defined.

(** ** The monad *)

Lemma bind_inr {A B} (m : M A) (f : A -> M B) (w w1 : World) (x : A) :
  m w = (inr x, w1) -> (m ≫= f) w = f x w1.
Proof. intros H. unfold mbind, M_bind. rewrite H. reflexivity. Qed.

Lemma bind_inl {A B} (m : M A) (f : A -> M B) (w w1 : World) (e : Exn) :
  m w = (inl e, w1) -> (m ≫= f) w = (inl e, w1).
Proof. intros H. unfold mbind, M_bind. rewrite H. reflexivity. Qed.

Lemma always_ret {A} (P : A -> Prop) (x : A) : P x -> always P (mret x).
Proof. intros H w. exists x, w. split; [reflexivity|exact H]. Qed.

Lemma always_bind {A B} (P : B -> Prop) (m : M A) (f : A -> M B) :
  total m -> (forall x, always P (f x)) -> always P (m ≫= f).
Proof.
  intros Hm Hf w. destruct (Hm w) as (x & w1 & H1 & _).
  destruct (Hf x w1) as (y & w2 & H2 & Hy).
  exists y, w2. rewrite (bind_inr _ _ _ _ _ H1). split; assumption.
Qed.

Lemma total_emit (e : Event) : total (emit e).
Proof. intros w. eexists _, _. split; [reflexivity|exact I]. Qed.

Lemma total_datetime_now : total datetime_now.
Proof. intros w. eexists _, _. split; [reflexivity|exact I]. Qed.

(** A [try] whose handler cannot raise cannot raise. *)
Lemma total_try_except {A} (body : M A) (h : Exn -> M A) :
  (forall e, total (h e)) -> total (try_except body h).
Proof.
  intros Hh w. unfold try_except. destruct (body w) as [[e|x] w1].
  - apply Hh.
  - eexists _, _. split; [reflexivity|exact I].
Qed.

Create HintDb total_db discriminated.
#[export] Hint Constants Opaque : total_db.
#[export] Hint Resolve total_emit total_datetime_now : total_db.

Ltac total_tac :=
  repeat match goal with
    | |- always _ (mbind _ _) => apply always_bind; [|intros]
    | |- always _ (mret _) => apply always_ret; first [exact I | reflexivity]
    | |- always _ (emit _) => apply total_emit
    | |- always _ datetime_now => apply total_datetime_now
    | |- always _ (try_except _ _) => apply total_try_except; intros
    | |- always _ (if ?b then _ else _) => destruct b
    | |- always _ (match ?x with _ => _ end) => destruct x
    | |- always _ (logger_info _) => unfold logger_info
    | |- always _ (logger_warning _) => unfold logger_warning
    | |- always _ (logger_error _) => unfold logger_error
    | |- always _ (print _) => unfold print
    | |- always _ (sleep _) => unfold sleep
    | |- always _ _ => solve [auto with total_db]
    end.

(** ** The update operations convert every exception into [False] *)

Lemma update_latest_properties_dataset_total (year month : Z) :
  total (Extractor.update_latest_properties_dataset year month).
Proof. unfold Extractor.update_latest_properties_dataset. total_tac. Qed.

Lemma update_latest_prices_dataset_total (year month : Z) :
  total (Extractor.update_latest_prices_dataset year month).
Proof. unfold Extractor.update_latest_prices_dataset. total_tac. Qed.

Lemma update_latest_aggprices_dataset_total (year month : Z) :
  total (Extractor.update_latest_aggprices_dataset year month).
Proof. unfold Extractor.update_latest_aggprices_dataset. total_tac. Qed.

Lemma api_update_latest_properties_dataset_total (year month : Z) :
  total (ApiMonthly.update_latest_properties_dataset year month).
Proof. unfold ApiMonthly.update_latest_properties_dataset. total_tac. Qed.

Lemma api_update_latest_aggprices_dataset_total (year month : Z) :
  total (ApiMonthly.update_latest_aggprices_dataset year month).
Proof. unfold ApiMonthly.update_latest_aggprices_dataset. total_tac. Qed.

#[export] Hint Resolve update_latest_properties_dataset_total
  update_latest_prices_dataset_total update_latest_aggprices_dataset_total
  api_update_latest_properties_dataset_total
  api_update_latest_aggprices_dataset_total : total_db.

Lemma extract_monthly_data_always_true (year month : option Z) :
  always (fun b => b = true) (Extractor.extract_monthly_data year month).
Proof. unfold Extractor.extract_monthly_data. total_tac. Qed.

Lemma run_always_true (year month : option Z) :
  always (fun b => b = true) (ApiMonthly.run year month).
Proof. unfold ApiMonthly.run. total_tac. Qed.

(** C10.  [extract_monthly_data] and [run] return [True] for every year
    and month and in every world; with the network down each of the three
    updates returns [False], no file is written, and the orchestration
    still returns [True]. *)
Theorem orchestration_returns_true_whatever_the_updates_did
    (year month : option Z) (w : World) :
  (exists w', Extractor.extract_monthly_data year month w = (inr true, w')) /\
  (exists w', ApiMonthly.run year month w = (inr true, w')) /\
  (Extractor.update_latest_properties_dataset 2024 3 ex_offline).1 = inr false /\
  (Extractor.update_latest_prices_dataset 2024 3 ex_offline).1 = inr false /\
  (Extractor.update_latest_aggprices_dataset 2024 3 ex_offline).1 = inr false /\
  (Extractor.extract_monthly_data (Some 2024) (Some 3) ex_offline).1 = inr true /\
  map_to_list (fs (Extractor.extract_monthly_data (Some 2024) (Some 3) ex_offline).2) = [].
Proof.
  split.
  { destruct (extract_monthly_data_always_true year month w) as (b & w' & H & ->). eauto. }
  split.
  { destruct (run_always_true year month w) as (b & w' & H & ->). eauto. }
  vm_compute. repeat split; reflexivity.
Qed.

(** ** Replace-by-label and replace-by-period, run on concrete stores *)

(** C1.  The store holds a row labelled 2024-Q1 and a row labelled
    2023-Q4; the batch fetched for January 2024 is labelled 2024-Q1.  The
    update succeeds and the store then holds the old 2024-Q1 row next to
    the new one: the rows are compared with the label ["Q1"], which no row
    carries.  Both copies of the function behave so. *)
Theorem aggprices_update_keeps_the_stale_rows_of_the_quarter :
  let r := Extractor.update_latest_aggprices_dataset 2024 1 ex_agg_world in
  let r' := ApiMonthly.update_latest_aggprices_dataset 2024 1 ex_agg_world in
  ex_agg_stale !! "quarter" = Some (VStr "2024-Q1") /\
  ex_agg_new !! "quarter" = Some (VStr "2024-Q1") /\
  r.1 = inr true /\
  stored_rows Extractor.LATEST_AGGPRICES_FILE r.2
  = Some (map_to_list <$> [ex_agg_stale; ex_agg_other; ex_agg_new]) /\
  r'.1 = inr true /\
  stored_rows ApiMonthly.LATEST_AGGPRICES_FILE r'.2
  = Some (map_to_list <$> [ex_agg_stale; ex_agg_other; ex_agg_new]).
Proof. vm_compute. repeat split; reflexivity. Qed.

(** C2.  Starting from an empty store, the same batch merged twice is
    stored twice, by [update_latest_aggprices_dataset] (the label compared
    is ["Q1"], the label stored is ["2024-Q1"]) and by
    [update_latest_prices_dataset] of [src/monthly_data_extractor.py] (the
    column tested is ['month'], the column stored is ['date']); the copy
    in [src/api/daily_data_extractor.py], which tests ['date'], stores it
    once. *)
Theorem merging_the_same_batch_twice_stores_it_twice :
  let agg := Extractor.update_latest_aggprices_dataset 2024 1 in
  let prices := Extractor.update_latest_prices_dataset 2024 3 in
  let daily := Daily.update_latest_prices_dataset 2024 3 in
  (stored_rows Extractor.LATEST_AGGPRICES_FILE (once agg ex_agg_net)
   = Some [map_to_list ex_agg_new] /\
   stored_rows Extractor.LATEST_AGGPRICES_FILE (twice agg ex_agg_net)
   = Some [map_to_list ex_agg_new; map_to_list ex_agg_new]) /\
  (stored_rows Extractor.LATEST_PRICES_FILE (once prices ex_prices_net)
   = Some [ex_prices_stored true] /\
   stored_rows Extractor.LATEST_PRICES_FILE (twice prices ex_prices_net)
   = Some [ex_prices_stored true; ex_prices_stored true]) /\
  (stored_rows Daily.LATEST_PRICES_FILE (once daily ex_prices_net)
   = Some [ex_prices_stored false] /\
   stored_rows Daily.LATEST_PRICES_FILE (twice daily ex_prices_net)
   = Some [ex_prices_stored false]).
Proof. vm_compute. repeat split; reflexivity. Qed.

(** ** The prices endpoint *)


(** ** The remote dataset client *)


Lemma requests_get_body (u : string) (b j : Json) (rest : list Response) (w : World) :
  net w = Body j :: rest ->
  requests_get u b w = (inr (Body j), mkWorld rest (fs w) (now w) (Get u b :: trace w)).
Proof.
  intros H. unfold requests_get, emit, next_response, mbind, M_bind. cbn. rewrite H. reflexivity.
Qed.

Lemma bind_lift {A B} (r : Res A) (f : A -> M B) (w : World) :
  (lift r ≫= f) w = match r with inl e => (inl e, w) | inr x => f x w end.
Proof. unfold lift, mbind, M_bind. destruct r; reflexivity. Qed.

Lemma bind_lift_inr {A B} (x : A) (f : A -> M B) (w : World) :
  (lift (inr x) ≫= f) w = f x w.
Proof. reflexivity. Qed.

Lemma bind_emit {B} (e : Event) (f : unit -> M B) (w : World) :
  (emit e ≫= f) w = f tt (mkWorld (net w) (fs w) (now w) (e :: trace w)).
Proof. reflexivity. Qed.

Lemma bind_ret {A B} (x : A) (f : A -> M B) (w : World) :
  (mret x ≫= f) w = f x w.
Proof. reflexivity. Qed.

Lemma bind_assoc {A B C} (m : M A) (f : A -> M B) (g : B -> M C) (w : World) :
  ((m ≫= f) ≫= g) w = (m ≫= fun x => f x ≫= g) w.
Proof. unfold mbind, M_bind. destruct (m w) as [[e|x] w1]; reflexivity. Qed.

Lemma sleeps_cons e t :
  sleeps (e :: t) = match e with Sleep s => s :: sleeps t | _ => sleeps t end.
Proof. destruct e; reflexivity. Qed.

Lemma errors_cons e t :
  errors (e :: t) = match e with Log ERROR m => m :: errors t | _ => errors t end.
Proof. destruct e as [| [] | | | |]; reflexivity. Qed.

Ltac trace_simp := rewrite ?sleeps_cons, ?errors_cons; cbv beta iota.

Ltac msimp :=
  repeat (first [ rewrite bind_assoc | rewrite bind_lift_inr
                | rewrite bind_ret | rewrite bind_emit ]; cbv beta).

Lemma poll_download_pending ds body y m q (ps : list Json) :
  forall (n : nat) (i : Z) (w : World) (rest : list Response),
    net w = (Body <$> ps) ++ rest ->
    Forall pending ps ->
    exists w',
      poll_download ds body y m q (length ps + n) i w
      = poll_download ds body y m q n (i + Z.of_nat (length ps)) w' /\
      net w' = rest /\ fs w' = fs w /\ now w' = now w /\
      sleeps (trace w') = replicate (length ps) 3%Q ++ sleeps (trace w) /\
      errors (trace w')
      = (if bool_decide (i <= 4 < i + Z.of_nat (length ps)) then [timeout_msg] else [])
        ++ errors (trace w).
Proof.
  induction ps as [|p ps IH]; intros n i w rest Hnet Hps.
  - exists w. cbn. rewrite Z.add_0_r. repeat split; try reflexivity; try exact Hnet.
    rewrite bool_decide_eq_false_2 by lia. reflexivity.
  - inversion Hps as [|? ? Hp Hps']; subst.
    cbn [length Nat.add poll_download].
    change ((Body <$> p :: ps) ++ rest) with (Body p :: (Body <$> ps) ++ rest) in Hnet.
    rewrite (bind_inr _ _ _ _ _ (requests_get_body _ _ p _ w Hnet)).
    rewrite bind_lift. cbn [json].
    unfold pending in Hp. rewrite bind_lift, Hp.
    unfold MAX_POLLS. change (5 - 1) with 4.
    destruct (Z.eqb_spec i 4) as [Hi|Hi];
      unfold logger_error, logger_info, sleep; rewrite !bind_emit; cbn [net fs now trace];
      match goal with
      | |- context [poll_download _ _ _ _ _ _ _ ?w2] =>
          destruct (IH n (i + 1) w2 rest eq_refl Hps') as (w' & Heq & Hn & Hf & Hno & Hs & He)
      end;
      exists w'; rewrite Heq; cbn [net fs now trace] in *;
      (split; [f_equal; lia|]); repeat split; try assumption.
    + rewrite Hs. trace_simp. cbn [replicate].
      rewrite replicate_cons_app, <- app_assoc. reflexivity.
    + rewrite He. trace_simp. subst i.
      rewrite bool_decide_eq_false_2 by lia. rewrite bool_decide_eq_true_2 by lia.
      reflexivity.
    + rewrite Hs. trace_simp. cbn [replicate].
      rewrite replicate_cons_app, <- app_assoc. reflexivity.
    + rewrite He. trace_simp.
      destruct (decide (i + 1 <= 4 < i + 1 + Z.of_nat (length ps))).
      * rewrite !bool_decide_eq_true_2 by lia. reflexivity.
      * rewrite !bool_decide_eq_false_2 by lia. reflexivity.
Qed.


Lemma download_file_for_quarter ds (year : Z) (quarter : string) :
  year <> 0 -> quarter <> "" ->
  exists lbl, forall w,
    Extractor.download_file ds (Some year) None (Some quarter) w
    = initiate_and_poll ds (query_params_of [eq_filter "quarter" lbl]) (JObj [])
        (Some year) None (Some quarter)
        (mkWorld (net w) (fs w) (now w)
           (Log INFO (if contains "-Q" quarter
                      then "Downloading data for quarter {quarter} from dataset {dataset_id}"
                      else "Downloading data for quarter {quarter_str} from dataset {dataset_id}")
            :: trace w)).
Proof.
  intros Hy Hq.
  assert (Ht : truthy_str (Some quarter) = true).
  { cbn. destruct (String.eqb_spec quarter ""); [contradiction|reflexivity]. }
  assert (Hz : truthy_Z (Some year) = true).
  { cbn. destruct (Z.eqb_spec year 0); [contradiction|reflexivity]. }
  unfold Extractor.download_file, quarter_filters. rewrite Ht, Hz.
  change (default "" (Some quarter)) with quarter.
  cbn [negb truthy_Z andb].
  exists (if contains "-Q" quarter then quarter else quarter_label (Some year) quarter).
  destruct (contains "-Q" quarter); intros w; reflexivity.
Qed.





(** ** Period-range reads *)

Lemma reads_cons e t :
  reads (e :: t) = match e with ReadFile p => p :: reads t | _ => reads t end.
Proof. destruct e; reflexivity. Qed.

Lemma mapM_length {A B} (f : A -> Res B) (l : list A) (k : list B) :
  mapM f l = inr k -> length k = length l.
Proof.
  revert k. induction l as [|x l IH]; intros k H; cbn in H.
  - injection H as <-. reflexivity.
  - destruct (f x) as [e|y]; [discriminate|]. cbn in H.
    destruct (mapM f l) as [e|ys]; [discriminate|]. cbn in H.
    injection H as <-. cbn. f_equal. apply IH. reflexivity.
Qed.

Lemma mapM_Forall {A B} (f : A -> Res B) (P : B -> Prop) (l : list A) (k : list B) :
  (forall x y, f x = inr y -> P y) -> mapM f l = inr k -> Forall P k.
Proof.
  intros Hf. revert k. induction l as [|x l IH]; intros k H; cbn in H.
  - injection H as <-. constructor.
  - destruct (f x) as [e|y] eqn:Hx; [discriminate|]. cbn in H.
    destruct (mapM f l) as [e|ys]; [discriminate|]. cbn in H.
    injection H as <-. constructor; eauto.
Qed.

Lemma to_datetime_cell_date c c' : to_datetime_cell c = inr c' -> date_or_missing c'.
Proof.
  destruct c as [[s|q|b|d|j]|]; cbn; intros H; try discriminate.
  - destruct (to_datetime s); [discriminate|]. cbn in H. injection H as <-. right. eauto.
  - injection H as <-. right. eauto.
  - injection H as <-. left. reflexivity.
Qed.

Lemma set_cell_lookup c v (r : Row) : set_cell c v r !! c = v.
Proof.
  destruct v; cbn.
  - apply lookup_insert_eq.
  - apply lookup_delete_eq.
Qed.

Lemma has_col_set_col c vals df : has_col c (set_col c vals df) = true.
Proof.
  unfold set_col. unfold has_col at 1. cbn [columns].
  destruct (has_col c df) eqn:H.
  - exact H.
  - apply bool_decide_eq_true. apply elem_of_app. right.
    apply list_elem_of_singleton. reflexivity.
Qed.

Lemma cells_set_col c (vals : list (option Value)) (rs : list Row) :
  length vals = length rs ->
  (fun r : Row => r !! c) <$> zip_with (fun r v => set_cell c v r) rs vals = vals.
Proof.
  revert vals. induction rs as [|r rs IH]; intros [|v vals] H; try discriminate; cbn.
  - reflexivity.
  - rewrite set_cell_lookup. f_equal. apply IH. cbn in H. lia.
Qed.

Lemma mapM_between lo hi (cells : list (option Value)) :
  Forall date_or_missing cells ->
  mapM (cell_between lo hi) cells
  = inr ((fun c => match c with
                   | Some (VDate d) => date_leb lo d && date_leb d hi
                   | _ => false
                   end) <$> cells).
Proof.
  induction 1 as [|c cells Hc _ IH]; cbn; [reflexivity|].
  rewrite IH. destruct Hc as [->|[d ->]]; reflexivity.
Qed.

Lemma select_fmap (f : option Value -> bool) c (df : DataFrame) :
  select (f <$> ((fun r : Row => r !! c) <$> rows df)) df
  = mkDF (columns df) (List.filter (fun r : Row => f (r !! c)) (rows df)).
Proof.
  unfold select. f_equal.
  induction (rows df) as [|r rs IH]; cbn; [reflexivity|].
  destruct (f (r !! c)); cbn; rewrite IH; reflexivity.
Qed.

Lemma csv_cells_no_dates c (df : DataFrame) cells :
  col (csv_of df) c = inr cells -> is_datetime64_dtype cells = false.
Proof.
  unfold col. destruct (has_col c (csv_of df)); [|discriminate].
  intros H. injection H as <-. unfold is_datetime64_dtype.
  apply andb_false_iff. right.
  unfold csv_of. cbn [rows].
  induction (rows df) as [|r rs IH]; cbn; [reflexivity|].
  rewrite lookup_fmap. destruct (r !! c) as [[]|]; cbn; exact IH.
Qed.

Lemma to_datetime_col_spec c df d lo hi :
  to_datetime_col c df = inr d ->
  has_col c df = true /\ has_col c d = true /\
  exists cells, col df c = inr cells /\
  between_mask c lo hi d
  = inr ((fun c => match c with
                   | Some (VDate d) => date_leb lo d && date_leb d hi
                   | _ => false
                   end) <$> ((fun r : Row => r !! c) <$> rows d)).
Proof.
  unfold to_datetime_col. destruct (col df c) as [e|cells] eqn:Hc; [discriminate|].
  cbn [mbind Res_bind].
  destruct (mapM to_datetime_cell cells) as [e|dates] eqn:Hd; [discriminate|].
  cbn [mbind Res_bind]. intros H. injection H as <-.
  assert (Hh : has_col c df = true).
  { unfold col in Hc. destruct (has_col c df); [reflexivity|discriminate]. }
  split; [exact Hh|]. split; [apply has_col_set_col|].
  exists cells. split; [reflexivity|].
  unfold between_mask, col. rewrite has_col_set_col. cbn [mbind Res_bind].
  apply mapM_between.
  unfold set_col. cbn [rows]. rewrite cells_set_col.
  - eapply mapM_Forall; [|exact Hd]. intros x y. apply to_datetime_cell_date.
  - rewrite (mapM_length _ _ _ Hd). unfold col in Hc. rewrite Hh in Hc.
    injection Hc as <-. apply length_fmap.
Qed.

Lemma load_segment_spec path s d lo hi w :
  fs w !! path = Some (FCsv s) ->
  to_datetime_col "date" (csv_of s) = inr d ->
  exists w',
    App.load_segment path lo hi w
    = (inr (mkDF (columns d) (List.filter (in_range lo hi) (rows d))), w') /\
    fs w' = fs w /\ reads (trace w') = path :: reads (trace w).
Proof.
  intros Hf Hd. unfold App.load_segment, logger_info, read_csv. msimp.
  unfold read_file at 1.
  erewrite bind_inr by (cbn [fs]; rewrite Hf; reflexivity).
  cbv beta iota. msimp.
  destruct (to_datetime_col_spec _ _ _ lo hi Hd) as (Hh & Hh' & cells & Hc & Hm).
  rewrite Hh, Hc. msimp.
  rewrite (csv_cells_no_dates _ _ _ Hc). cbn [negb]. rewrite Hd. msimp.
  rewrite Hh', Hm. msimp.
  cbn [net fs now trace].
  rewrite select_fmap.
  eexists. split; [reflexivity|]. split; reflexivity.
Qed.

Lemma exists_present path f w :
  fs w !! path = Some f -> exists_ path w = (inr true, w).
Proof.
  intros H. unfold exists_. rewrite H. reflexivity.
Qed.

Lemma load_segments_cons path files s d lo hi all_dfs w :
  fs w !! path = Some (FCsv s) ->
  to_datetime_col "date" (csv_of s) = inr d ->
  exists w1,
    App.load_segments (path :: files) lo hi all_dfs w
    = App.load_segments files lo hi
        (all_dfs ++ [mkDF (columns d) (List.filter (in_range lo hi) (rows d))]) w1 /\
    fs w1 = fs w /\ reads (trace w1) = path :: reads (trace w).
Proof.
  intros Hf Hd. cbn [App.load_segments].
  rewrite (bind_inr _ _ _ _ _ (exists_present _ _ _ Hf)).
  destruct (load_segment_spec path s d lo hi w Hf Hd) as (w1 & E & F & R).
  exists w1. split; [|split; assumption].
  cbv beta iota.
  erewrite (bind_inr (try_except _ _)).
  2:{ unfold try_except. rewrite (bind_inr _ _ _ _ _ E). reflexivity. }
  reflexivity.
Qed.



Example read_range_keeps_the_rows_within_bounds :
  match (App.load_prices_data_for_period "2011-06" "2013-02" ex_segments_world).1 with
  | inr df => (fun r : Row => r !! "date") <$> rows df
  | inl _ => []
  end
  = Some <$> [VDate (mkDate 2011 6 1); VDate (mkDate 2012 2 1);
              VDate (mkDate 2012 3 1); VDate (mkDate 2013 2 1)].
Proof. vm_compute. reflexivity. Qed.

(** ** Replace-by-key *)

Lemma col_ok c (df : DataFrame) :
  has_col c df = true -> col df c = inr ((fun r : Row => r !! c) <$> rows df).
Proof. intros H. unfold col. rewrite H. reflexivity. Qed.

Lemma date_eqb_refl d : date_eqb d d = true.
Proof. unfold date_eqb. rewrite !Z.eqb_refl. reflexivity. Qed.

Lemma date_eqb_eq a b : date_eqb a b = true -> a = b.
Proof.
  unfold date_eqb. rewrite !andb_true_iff, !Z.eqb_eq. intros [[H1 H2] H3].
  destruct a, b; cbn in *; congruence.
Qed.

Lemma cell_eqb_refl c : hashable c = true -> cell_eqb c c = true.
Proof.
  destruct c as [[s|q|b|d|j]|]; cbn; intros H; try reflexivity; try discriminate.
  - apply String.eqb_refl.
  - apply Qeq_bool_iff. reflexivity.
  - destruct b; reflexivity.
  - apply date_eqb_refl.
Qed.

Lemma num_of_bool_inj x y : (num_of_bool x == num_of_bool y)%Q -> x = y.
Proof. destruct x, y; cbn; intros H; try reflexivity; discriminate H. Qed.

Ltac qeq := first [eassumption | symmetry; eassumption].

Lemma value_eqb_trans a b c :
  value_eqb a b = true -> value_eqb b c = true -> value_eqb a c = true.
Proof.
  destruct a as [s|p|x|d|j], b as [s'|p'|x'|d'|j'], c as [s''|p''|x''|d''|j''];
    cbn; try (intros; discriminate); intros H1 H2;
    rewrite ?String.eqb_eq, ?Qeq_bool_iff, ?Bool.eqb_true_iff in *;
    try congruence;
    try (apply date_eqb_eq in H1, H2; subst; apply date_eqb_refl);
    try (subst; qeq);
    try (etransitivity; [qeq|qeq]);
    try (apply num_of_bool_inj; etransitivity; [qeq|qeq]).
Qed.

Lemma cell_eqb_trans a b c :
  cell_eqb a b = true -> cell_eqb b c = true -> cell_eqb a c = true.
Proof.
  destruct a, b, c; cbn; try (intros; discriminate); try (intros; reflexivity).
  apply value_eqb_trans.
Qed.

Lemma cell_in_dups (e N : list (option Value)) (c : option Value) :
  forallb hashable e = true -> In c e ->
  cell_in c (List.filter (fun c' => cell_in c' N) e) = cell_in c N.
Proof.
  intros He Hc. unfold cell_in at 1 3.
  apply Bool.eq_true_iff_eq. rewrite !existsb_exists. split.
  - intros (d & Hd & Hcd). apply filter_In in Hd as [_ Hd].
    unfold cell_in in Hd. apply existsb_exists in Hd as (n & Hn & Hdn).
    exists n. split; [exact Hn|]. eapply cell_eqb_trans; eassumption.
  - intros (n & Hn & Hcn). exists c. split.
    + apply filter_In. split; [exact Hc|]. unfold cell_in. apply existsb_exists. eauto.
    + apply cell_eqb_refl. rewrite forallb_forall in He. apply He. exact Hc.
Qed.

Lemma filter_nil_all {A} (p : A -> bool) (l : list A) :
  List.filter p l = [] -> forall x, In x l -> p x = false.
Proof.
  induction l as [|y l IH]; cbn; intros H x Hx; [contradiction|].
  destruct (p y) eqn:Hy; [discriminate|].
  destruct Hx as [->|Hx]; [exact Hy|]. apply IH; assumption.
Qed.

Lemma filter_all {A} (p : A -> bool) (l : list A) :
  (forall x, In x l -> p x = true) -> List.filter p l = l.
Proof.
  induction l as [|y l IH]; cbn; intros H; [reflexivity|].
  rewrite (H y) by (left; reflexivity). f_equal. apply IH. intros x Hx. apply H. right. exact Hx.
Qed.

Lemma py_set_ok cells : forallb hashable cells = true -> py_set cells = inr cells.
Proof. intros H. unfold py_set. rewrite H. reflexivity. Qed.

Lemma dedupe_rows (existing new : DataFrame) (dups : list (option Value)) :
  forallb hashable (addresses existing) = true ->
  dups = List.filter (fun c => cell_in c (addresses new)) (addresses existing) ->
  rows (match dups with
        | _ :: _ => select ((fun c => negb (cell_in c dups)) <$> addresses existing) existing
        | [] => existing
        end) = kept_rows existing new.
Proof.
  intros He Hd. unfold kept_rows.
  assert (Hin : forall r, In r (rows existing) -> In (r !! "address") (addresses existing)).
  { intros r Hr. unfold addresses. apply in_map_iff. exists r. split; [reflexivity|exact Hr]. }
  destruct dups as [|d ds].
  - symmetry. apply filter_all. intros r Hr.
    rewrite (filter_nil_all _ _ (eq_sym Hd) (r !! "address")); [reflexivity|auto].
  - unfold addresses at 1. rewrite (select_fmap (fun c => negb (cell_in c (d :: ds)))).
    cbn [rows]. apply List.filter_ext_in. intros r Hr. f_equal. rewrite Hd.
    apply cell_in_dups; [exact He|auto].
Qed.

Lemma add_address_empty (df : DataFrame) :
  rows df = [] -> has_col "blk_no" df = true -> has_col "street" df = true ->
  add_address df = inr (set_col "address" [] df).
Proof.
  intros Hr Hb Hs. unfold add_address.
  rewrite (col_ok _ _ Hb), (col_ok _ _ Hs), Hr. reflexivity.
Qed.

Lemma kept_rows_no_new (existing new : DataFrame) :
  rows new = [] -> kept_rows existing new = rows existing.
Proof.
  intros Hn. unfold kept_rows, addresses. rewrite Hn. cbn.
  apply filter_all. reflexivity.
Qed.



Example properties_merge_partial_overlap :
  match (Extractor.combine_properties (Some ex_props_store) ex_props_batch ex_offline).1 with
  | inr (_, combined_df) =>
      (fun r : Row => (r !! "address", r !! "year")) <$> rows combined_df
  | inl _ => []
  end
  = [(Some (VStr "101 BEDOK NORTH AVENUE 1"), Some (VNum 1978));
     (Some (VStr "103 BEDOK NORTH AVENUE 1"), Some (VNum 1979));
     (Some (VStr "102 BEDOK NORTH AVENUE 1"), Some (VNum 2024));
     (Some (VStr "230 BEDOK NORTH AVENUE 1"), Some (VNum 2024))].
Proof. vm_compute. reflexivity. Qed.

(** ** Failures at the operation boundary *)

Lemma yields_weaken {A} (P Q : A -> Prop) (m : M A) :
  (forall x, P x -> Q x) -> yields P m -> yields Q m.
Proof.
  intros H Hm w. destruct (Hm w) as (Hf & Hn & Hx).
  split; [exact Hf|]. split; [exact Hn|]. eauto.
Qed.

Lemma yields_ret {A} (P : A -> Prop) (x : A) : P x -> yields P (mret x).
Proof.
  intros H w. split; [reflexivity|]. split; [auto|]. cbn. intros y [= <-]. exact H.
Qed.

Lemma yields_bind {A B} (Q : A -> Prop) (P : B -> Prop) (m : M A) (f : A -> M B) :
  yields Q m -> (forall x, Q x -> yields P (f x)) -> yields P (m ≫= f).
Proof.
  intros Hm Hf w. unfold mbind, M_bind. destruct (Hm w) as (Hfs & Hn & Hx).
  destruct (m w) as [[e|x] w1]; cbn [fst snd] in *.
  - split; [exact Hfs|]. split; [exact Hn|]. intros y [=].
  - destruct (Hf x (Hx x eq_refl) w1) as (Hfs' & Hn' & Hy).
    split; [congruence|]. split; [auto|exact Hy].
Qed.

Lemma keeps_bind {A B} (P : B -> Prop) (m : M A) (f : A -> M B) :
  keeps_files m -> (forall x, yields P (f x)) -> yields P (m ≫= f).
Proof. intros Hm Hf. apply (yields_bind (fun _ => True)); auto. Qed.

Lemma yields_lift {A} (P : A -> Prop) (r : Res A) :
  (forall x, r = inr x -> P x) -> yields P (lift r).
Proof. intros H w. split; [reflexivity|]. split; [auto|exact H]. Qed.

Lemma keeps_lift {A} (r : Res A) : keeps_files (lift r).
Proof. apply yields_lift. auto. Qed.

Lemma keeps_raise {A} (P : A -> Prop) (e : Exn) : yields P (raise e).
Proof. intros w. split; [reflexivity|]. split; [auto|]. intros x [=]. Qed.

Lemma keeps_emit (e : Event) : keeps_files (emit e).
Proof. intros w. split; [reflexivity|]. split; auto. Qed.

Lemma keeps_datetime_now : keeps_files datetime_now.
Proof. intros w. split; [reflexivity|]. split; auto. Qed.

Lemma keeps_exists path : keeps_files (exists_ path).
Proof. intros w. split; [reflexivity|]. split; auto. Qed.

Lemma keeps_read_file path : keeps_files (read_file path).
Proof.
  intros w. unfold read_file. destruct (fs w !! path); (split; [reflexivity|]; split; auto).
Qed.

Lemma keeps_next_response : keeps_files next_response.
Proof.
  intros w. unfold next_response.
  destruct (net w) as [|[] rest] eqn:Hnet; (split; [reflexivity|]); (split; [|auto]);
    cbn; intros; discriminate || assumption || reflexivity.
Qed.

Lemma yields_try {A} (P : A -> Prop) (body : M A) (h : Exn -> M A) :
  yields P body -> (forall e, yields P (h e)) -> yields P (try_except body h).
Proof.
  intros Hb Hh w. unfold try_except. destruct (Hb w) as (Hfs & Hn & Hx).
  destruct (body w) as [[e|x] w1]; cbn [fst snd] in *.
  - destruct (Hh e w1) as (Hfs' & Hn' & Hy). split; [congruence|]. split; [auto|exact Hy].
  - split; [exact Hfs|]. split; [exact Hn|exact Hx].
Qed.

Create HintDb keeps_db discriminated.
#[export] Hint Constants Opaque : keeps_db.
#[export] Hint Resolve keeps_emit keeps_datetime_now keeps_exists keeps_read_file
  keeps_next_response keeps_lift : keeps_db.

Ltac keeps_tac :=
  repeat match goal with
    | |- yields _ (mbind _ _) => apply keeps_bind; [|intros]
    | |- yields _ (mret _) => apply yields_ret; exact I
    | |- yields _ (raise _) => apply keeps_raise
    | |- yields _ (try_except _ _) => apply yields_try; [|intros]
    | |- yields _ (if ?b then _ else _) => destruct b
    | |- yields _ (match ?x with _ => _ end) => destruct x
    | |- yields _ (logger_info _) => unfold logger_info
    | |- yields _ (logger_warning _) => unfold logger_warning
    | |- yields _ (logger_error _) => unfold logger_error
    | |- yields _ (print _) => unfold print
    | |- yields _ (sleep _) => unfold sleep
    | |- yields _ (requests_get _ _) => unfold requests_get
    | |- yields _ (read_csv_url _) => unfold read_csv_url
    | |- yields _ (read_csv _) => unfold read_csv
    | |- yields _ (json_load _) => unfold json_load
    | |- yields _ _ => solve [auto with keeps_db]
    end.

Lemma keeps_requests_get u b : keeps_files (requests_get u b).
Proof. keeps_tac. Qed.

Lemma keeps_read_csv_url u : keeps_files (read_csv_url u).
Proof. keeps_tac. Qed.

Lemma keeps_read_csv p : keeps_files (read_csv p).
Proof. keeps_tac. Qed.

Lemma keeps_json_load p : keeps_files (json_load p).
Proof. keeps_tac. Qed.

Lemma keeps_fetch_ready y m q p : keeps_files (fetch_ready y m q p).
Proof. unfold fetch_ready. keeps_tac. Qed.
#[export] Hint Resolve keeps_fetch_ready : keeps_db.

Lemma keeps_poll_download ds body y m q n :
  forall i, keeps_files (poll_download ds body y m q n i).
Proof.
  induction n as [|n IH]; intros i; cbn [poll_download]; keeps_tac.
Qed.
#[export] Hint Resolve keeps_poll_download : keeps_db.

Lemma keeps_initiate_and_poll ds qp body y m q :
  keeps_files (initiate_and_poll ds qp body y m q).
Proof. unfold initiate_and_poll. keeps_tac. Qed.
#[export] Hint Resolve keeps_initiate_and_poll : keeps_db.

Lemma keeps_quarter_filters ds y q : keeps_files (quarter_filters ds y q).
Proof. unfold quarter_filters. keeps_tac. Qed.
#[export] Hint Resolve keeps_quarter_filters : keeps_db.

Lemma keeps_download_file ds y m q : keeps_files (Extractor.download_file ds y m q).
Proof. unfold Extractor.download_file. keeps_tac. Qed.
#[export] Hint Resolve keeps_download_file : keeps_db.

Lemma keeps_geocode address n : keeps_files (Extractor.geocode address n).
Proof. induction n as [|n IH]; cbn [Extractor.geocode]; keeps_tac. Qed.
#[export] Hint Resolve keeps_geocode : keeps_db.

Lemma keeps_geocode_row cols i j bc : keeps_files (Extractor.geocode_row cols i j bc).
Proof. unfold Extractor.geocode_row. keeps_tac. Qed.
#[export] Hint Resolve keeps_geocode_row : keeps_db.

Lemma keeps_geocode_rows cols rs : forall bc, keeps_files (Extractor.geocode_rows cols rs bc).
Proof.
  induction rs as [|[i j] rs IH]; intros bc; cbn [Extractor.geocode_rows]; keeps_tac.
Qed.
#[export] Hint Resolve keeps_geocode_rows : keeps_db.

Lemma atomic_keeps path (m : M bool) : keeps_files m -> atomic_on path m.
Proof. intros H w. right. rewrite (proj1 (H w)). reflexivity. Qed.

Lemma atomic_true path (m : M bool) :
  (forall w, (m w).1 = inr true) -> atomic_on path m.
Proof. intros H w. left. apply H. Qed.

Lemma atomic_bind {A} path (Q : A -> Prop) (m : M A) (f : A -> M bool) :
  yields Q m -> (forall x, Q x -> atomic_on path (f x)) -> atomic_on path (m ≫= f).
Proof.
  intros Hm Hf w. unfold mbind, M_bind. destruct (Hm w) as (Hfs & _ & Hx).
  destruct (m w) as [[e|x] w1]; cbn [fst snd] in *.
  - right. rewrite Hfs. reflexivity.
  - destruct (Hf x (Hx x eq_refl) w1) as [Ht|Hs]; [left; exact Ht|].
    right. rewrite Hs, Hfs. reflexivity.
Qed.

Lemma atomic_bind_keeps {A} path (m : M A) (f : A -> M bool) :
  keeps_files m -> (forall x, atomic_on path (f x)) -> atomic_on path (m ≫= f).
Proof. intros Hm Hf. apply (atomic_bind path (fun _ => True)); auto. Qed.

(** What the caller of a [try] that answers [False] in its handler sees. *)
Lemma atomic_try path (body : M bool) (msg : string) (w : World) :
  atomic_on path body ->
  exists b w',
    try_except body (fun _ => logger_error msg;; mret false) w = (inr b, w') /\
    (b = false -> fs w' !! path = fs w !! path).
Proof.
  intros Hb. unfold try_except. destruct (Hb w) as [Ht|Hs].
  - destruct (body w) as [[e|b] w1]; cbn [fst snd] in *; [discriminate|].
    injection Ht as ->. exists true, w1. split; [reflexivity|discriminate].
  - destruct (body w) as [[e|b] w1]; cbn [fst snd] in *.
    + eexists _, _. split; [reflexivity|]. intros _. exact Hs.
    + exists b, w1. split; [reflexivity|]. intros _. exact Hs.
Qed.

Ltac atomic_tac :=
  repeat match goal with
    | |- atomic_on _ (mbind _ (to_csv _ _)) => apply atomic_true; intros; reflexivity
    | |- atomic_on _ (mbind _ _) => apply atomic_bind_keeps; [solve [keeps_tac]|intros]
    | |- atomic_on _ (mret _) => apply atomic_keeps; keeps_tac
    | |- atomic_on _ (if ?b then _ else _) => destruct b
    | |- atomic_on _ (match ?x with _ => _ end) => destruct x
    end.

Lemma prices_update_atomic year month w :
  exists b w',
    Extractor.update_latest_prices_dataset year month w = (inr b, w') /\
    (b = false -> fs w' !! Extractor.LATEST_PRICES_FILE = fs w !! Extractor.LATEST_PRICES_FILE).
Proof.
  unfold Extractor.update_latest_prices_dataset.
  destruct (year <? 2017).
  { eexists _, _. split; [reflexivity|]. reflexivity. }
  destruct (Extractor.get_dataset_id_for_period year) as [ds|].
  2:{ eexists _, _. split; [reflexivity|]. reflexivity. }
  apply atomic_try. atomic_tac.
Qed.

Lemma aggprices_update_atomic year month w :
  exists b w',
    Extractor.update_latest_aggprices_dataset year month w = (inr b, w') /\
    (b = false -> fs w' !! Extractor.LATEST_AGGPRICES_FILE = fs w !! Extractor.LATEST_AGGPRICES_FILE).
Proof.
  unfold Extractor.update_latest_aggprices_dataset.
  apply atomic_try. atomic_tac.
Qed.

Lemma mapM_ok {A B} (f : A -> Res B) (l : list A) :
  (forall x, In x l -> exists y, f x = inr y) -> exists k, mapM f l = inr k.
Proof.
  induction l as [|x l IH]; intros H; cbn; [eauto|].
  destruct (H x (or_introl eq_refl)) as [y ->]. cbn.
  destruct IH as [k ->]; [intros; apply H; right; assumption|]. cbn. eauto.
Qed.

Lemma mapM_inv {A B} (f : A -> Res B) (l : list A) (k : list B) :
  mapM f l = inr k -> forall x, In x l -> exists y, f x = inr y.
Proof.
  revert k. induction l as [|x l IH]; intros k H z Hz; [contradiction|].
  cbn in H. destruct (f x) as [e|y] eqn:Hx; [discriminate|]. cbn in H.
  destruct (mapM f l) as [e|ys]; [discriminate|].
  destruct Hz as [<-|Hz]; [eauto|]. eapply IH; [reflexivity|exact Hz].
Qed.

Lemma records_json_ok (df : DataFrame) :
  (forall r, r ∈ rows df -> forall c, c ∈ columns df -> dumpable (r !! c)) ->
  exists j, records_json df = inr j.
Proof.
  intros H. unfold records_json.
  destruct (mapM_ok
              (fun r : Row =>
                 fields ← mapM (fun c => j ← json_of_cell (r !! c); inr (c, j)) (columns df);
                 inr (JObj fields)) (rows df)) as [k ->]; [|cbn; eauto].
  intros r Hr.
  destruct (mapM_ok (fun c => j ← json_of_cell (r !! c); inr (c, j)) (columns df)) as [fl ->];
    [|cbn; eauto].
  intros c Hc. destruct (H r (proj2 (list_elem_of_In _ _) Hr) c (proj2 (list_elem_of_In _ _) Hc)) as [j ->].
  cbn. eauto.
Qed.

Lemma records_json_inv (df : DataFrame) (j : Json) :
  records_json df = inr j ->
  forall r, r ∈ rows df -> forall c, c ∈ columns df -> dumpable (r !! c).
Proof.
  unfold records_json. intros H r Hr c Hc.
  destruct (mapM _ (rows df)) as [e|recs] eqn:Hm; [discriminate|].
  destruct (mapM_inv _ _ _ Hm r (proj1 (list_elem_of_In _ _) Hr)) as [y Hy].
  destruct (mapM _ (columns df)) as [e|fl] eqn:Hc'; [discriminate|].
  destruct (mapM_inv _ _ _ Hc' c (proj1 (list_elem_of_In _ _) Hc)) as [z Hz].
  unfold dumpable. destruct (json_of_cell (r !! c)) as [e|j']; [discriminate|eauto].
Qed.

Lemma row_of_dict_lookup (d : Dict) (c : string) (v : Value) :
  row_of_dict d !! c = Some v -> In (c, Some v) d.
Proof.
  unfold row_of_dict.
  assert (H : forall r0 : Row,
             foldl (fun r kv => set_cell kv.1 kv.2 r) r0 d !! c = Some v ->
             r0 !! c = Some v \/ In (c, Some v) d).
  { induction d as [|[k x] d IH]; intros r0 Hl; cbn in *; [left; exact Hl|].
    destruct (IH _ Hl) as [H0|H0]; [|right; right; exact H0].
    destruct (decide (k = c)) as [->|Hne].
    - rewrite set_cell_lookup in H0. subst x. right. left. reflexivity.
    - left. destruct x; cbn in H0.
      + rewrite lookup_insert_ne in H0 by exact Hne. exact H0.
      + rewrite lookup_delete_ne in H0 by exact Hne. exact H0. }
  intros Hl. destruct (H ∅ Hl) as [H0|H0]; [|exact H0].
  rewrite lookup_empty in H0. discriminate.
Qed.

Lemma value_of_json_dumpable (j : Json) : dumpable (value_of_json j).
Proof. destruct j; cbn; eexists; reflexivity. Qed.

Lemma DataFrame_of_json_dumpable (j : Json) (df : DataFrame) :
  DataFrame_of_json j = inr df -> all_dumpable df.
Proof.
  unfold DataFrame_of_json. destruct j as [| | | | |l|]; try discriminate.
  destruct (mapM dict_of_json l) as [e|ds] eqn:Hm; [discriminate|].
  cbn [mbind Res_bind]. intros [= <-] r Hr c.
  unfold DataFrame_of_dicts in Hr. cbn [rows] in Hr.
  apply list_elem_of_fmap in Hr as (d & -> & Hd).
  destruct (row_of_dict d !! c) as [v|] eqn:Hv; [|eexists; reflexivity].
  apply row_of_dict_lookup in Hv.
  assert (HP : Forall (fun d : Dict => forall c v, In (c, Some v) d -> dumpable (Some v)) ds).
  { eapply mapM_Forall; [|exact Hm]. intros x y Hxy k u Hin.
    destruct x as [| | | | | |fl]; try discriminate. injection Hxy as <-.
    apply in_map_iff in Hin as ([k' j'] & [= -> Hj] & _). cbn in Hj. rewrite <- Hj.
    apply value_of_json_dumpable. }
  rewrite Forall_forall in HP. eapply HP; eassumption.
Qed.

Lemma union_step_mono (seen : list string) (d : Dict) (k : string) :
  k ∈ seen ->
  k ∈ foldl (fun acc (kv : string * option Value) =>
               if bool_decide (kv.1 ∈ acc) then acc else acc ++ [kv.1]) seen d.
Proof.
  revert seen. induction d as [|kv d IH]; intros seen H; cbn; [exact H|].
  apply IH. destruct (bool_decide (kv.1 ∈ seen)); [exact H|].
  apply elem_of_app. left. exact H.
Qed.

Lemma union_step_adds (seen : list string) (d : Dict) (k : string) (x : option Value) :
  In (k, x) d ->
  k ∈ foldl (fun acc (kv : string * option Value) =>
               if bool_decide (kv.1 ∈ acc) then acc else acc ++ [kv.1]) seen d.
Proof.
  revert seen. induction d as [|kv d IH]; intros seen H; [contradiction|].
  cbn. destruct H as [->|H]; [|apply IH; exact H].
  apply union_step_mono. cbn. destruct (bool_decide (k ∈ seen)) eqn:Hk.
  - apply bool_decide_eq_true in Hk. exact Hk.
  - apply elem_of_app. right. apply list_elem_of_singleton. reflexivity.
Qed.

Lemma union_keys_mono (ds : list Dict) : forall seen k, k ∈ seen -> k ∈ union_keys seen ds.
Proof.
  induction ds as [|d ds IH]; intros seen k H; cbn; [exact H|].
  apply IH. apply union_step_mono. exact H.
Qed.

Lemma union_keys_adds (ds : list Dict) :
  forall seen d k x, In d ds -> In (k, x) d -> k ∈ union_keys seen ds.
Proof.
  induction ds as [|d0 ds IH]; intros seen d k x Hd Hk; [contradiction|].
  cbn. destruct Hd as [->|Hd].
  - apply union_keys_mono. eapply union_step_adds. exact Hk.
  - eapply IH; eassumption.
Qed.

Lemma DataFrame_of_dicts_well_formed (data : list Dict) :
  well_formed (DataFrame_of_dicts data).
Proof.
  intros r Hr c Hc. unfold DataFrame_of_dicts in *. cbn [rows columns] in *.
  apply list_elem_of_fmap in Hr as (d & -> & Hd).
  destruct (row_of_dict d !! c) as [v|] eqn:Hv; [|reflexivity].
  exfalso. apply Hc. apply row_of_dict_lookup in Hv.
  eapply union_keys_adds; [apply list_elem_of_In; exact Hd|exact Hv].
Qed.

Lemma set_cell_lookup_ne c c' v (r : Row) : c <> c' -> set_cell c v r !! c' = r !! c'.
Proof.
  intros H. destruct v; cbn.
  - apply lookup_insert_ne. exact H.
  - apply lookup_delete_ne. exact H.
Qed.

Lemma well_formed_set_col c vals df :
  well_formed df -> well_formed (set_col c vals df).
Proof.
  intros Hwf r' Hr' c' Hc'. unfold set_col in *. cbn [rows columns] in *.
  apply elem_of_zip_with in Hr' as (r & v & -> & Hr & _).
  assert (Hne : c <> c' /\ c' ∉ columns df).
  { destruct (has_col c df) eqn:Hh.
    - split; [|exact Hc']. intros <-. apply Hc'. apply bool_decide_eq_true in Hh. exact Hh.
    - split.
      + intros <-. apply Hc'. apply elem_of_app. right. apply list_elem_of_singleton. reflexivity.
      + intros Hin. apply Hc'. apply elem_of_app. left. exact Hin. }
  destruct Hne as [Hne Hnc]. rewrite set_cell_lookup_ne by exact Hne.
  apply Hwf; assumption.
Qed.

Lemma add_address_well_formed df df' :
  well_formed df -> add_address df = inr df' -> well_formed df'.
Proof.
  intros Hwf. unfold add_address.
  destruct (col df "blk_no") as [e|b]; [discriminate|]. cbn [mbind Res_bind].
  destruct (col df "street") as [e|s]; [discriminate|]. cbn [mbind Res_bind].
  destruct (zipM address_of b s) as [e|cells]; [discriminate|]. cbn [mbind Res_bind].
  intros [= <-]. apply well_formed_set_col. exact Hwf.
Qed.

Lemma select_subset mask df r : r ∈ rows (select mask df) -> r ∈ rows df.
Proof.
  unfold select. cbn [rows]. intros H.
  apply list_elem_of_fmap in H as ([r' b] & -> & H).
  apply list_elem_of_In, filter_In in H as [H _]. apply list_elem_of_In in H.
  apply elem_of_zip_l in H. exact H.
Qed.

Lemma all_dumpable_select mask df : all_dumpable df -> all_dumpable (select mask df).
Proof. intros H r Hr. apply H. eapply select_subset. exact Hr. Qed.

Lemma dump_safe_same df : dump_safe (df, df).
Proof. intros H. exact H. Qed.

Lemma dump_safe_concat e n :
  all_dumpable e -> well_formed n -> dump_safe (n, concat e n).
Proof.
  intros He Hn [j Hj]. cbn [fst snd] in *. apply records_json_ok.
  intros r Hr c Hc. unfold concat in Hr. cbn [rows] in Hr.
  apply elem_of_app in Hr as [Hr|Hr]; [apply He; exact Hr|].
  destruct (decide (c ∈ columns n)) as [Hin|Hout].
  - eapply records_json_inv; eassumption.
  - rewrite (Hn r Hr c Hout). eexists. reflexivity.
Qed.

Lemma yields_build_address (new : DataFrame) (msg : string) (b : bool) :
  well_formed new ->
  yields well_formed
    (if b
     then new' ← lift (add_address new); logger_info msg;; mret new'
     else mret new).
Proof.
  intros Hwf. destruct b.
  - apply (yields_bind (fun df => well_formed df)).
    + apply yields_lift. intros x Hx. eapply add_address_well_formed; eassumption.
    + intros x Hx. apply keeps_bind; [keeps_tac|intros]. apply yields_ret. exact Hx.
  - apply yields_ret. exact Hwf.
Qed.

Lemma combine_properties_dump_safe (existing : option DataFrame) (new : DataFrame) :
  (forall df, existing = Some df -> all_dumpable df) -> well_formed new ->
  yields dump_safe (Extractor.combine_properties existing new).
Proof.
  intros He Hn. unfold Extractor.combine_properties.
  destruct existing as [existing|].
  2:{ eapply yields_bind; [apply yields_build_address; exact Hn|].
      intros x _. apply yields_ret. apply dump_safe_same. }
  specialize (He existing eq_refl).
  destruct (0 <? len existing)%nat.
  2:{ eapply yields_bind; [apply yields_build_address; exact Hn|].
      intros x _. apply yields_ret. apply dump_safe_same. }
  apply (yields_bind (fun p : DataFrame * DataFrame => all_dumpable p.1 /\ well_formed p.2)).
  2:{ intros [e n] [H1 H2]. cbn [fst snd] in *.
      apply keeps_bind; [keeps_tac|intros]. apply yields_ret.
      apply dump_safe_concat; assumption. }
  destruct (has_col "address" existing).
  2:{ apply yields_ret. split; assumption. }
  eapply yields_bind; [apply yields_build_address; exact Hn|].
  intros n Hwf. cbv beta.
  destruct (has_col "address" n).
  2:{ apply keeps_bind; [keeps_tac|intros]. apply yields_ret. split; assumption. }
  apply keeps_bind; [keeps_tac|intros e].
  apply keeps_bind; [keeps_tac|intros ea].
  apply keeps_bind; [keeps_tac|intros na].
  apply keeps_bind; [keeps_tac|intros nas].
  destruct (List.filter _ ea) as [|d ds].
  - apply yields_ret. split; assumption.
  - apply keeps_bind; [keeps_tac|intros]. apply keeps_bind; [keeps_tac|intros].
    apply yields_ret. split; [apply all_dumpable_select; exact He|exact Hwf].
Qed.

Lemma yields_enrich_properties_data df :
  yields well_formed (Extractor.enrich_properties_data df).
Proof.
  unfold Extractor.enrich_properties_data.
  apply keeps_bind; [keeps_tac|intros bc].
  apply keeps_bind; [keeps_tac|intros data].
  apply yields_ret. apply DataFrame_of_dicts_well_formed.
Qed.

Lemma new_file_is_not_the_store :
  path_join DATA_DIR "properties_combined_new.json" <> Extractor.PROPERTIES_FILE.
Proof. vm_compute. discriminate. Qed.

(** The writes at the end of [update_latest_properties_dataset]. *)
Lemma properties_writes_atomic (new combined : DataFrame) (year month : Z) :
  dump_safe (new, combined) ->
  atomic_on Extractor.PROPERTIES_FILE
    (json_dump_records new (path_join DATA_DIR "properties_combined_new.json");;
     json_dump_records combined Extractor.PROPERTIES_FILE;;
     logger_info "Saved {len(combined_df)} property records to {PROPERTIES_FILE}";;
     t ← datetime_now;
     json_dump (metadata t (str_Z year +:+ "-" +:+ fmt_02d month) (len combined))
               (path_join DATA_DIR "properties_metadata.json");;
     mret true).
Proof.
  intros Hs w. unfold json_dump_records.
  destruct (records_json new) as [e|j] eqn:Hj.
  - right. cbn. apply lookup_insert_ne. exact new_file_is_not_the_store.
  - destruct (Hs (ex_intro _ j Hj)) as [j' Hj']. cbn [snd] in Hj'.
    left. rewrite Hj'. reflexivity.
Qed.

Lemma properties_update_atomic year month w :
  exists b w',
    Extractor.update_latest_properties_dataset year month w = (inr b, w') /\
    (b = false -> fs w' !! Extractor.PROPERTIES_FILE = fs w !! Extractor.PROPERTIES_FILE).
Proof.
  unfold Extractor.update_latest_properties_dataset.
  apply atomic_try.
  apply atomic_bind_keeps; [keeps_tac|intros ex].
  apply (atomic_bind _ (fun o : option DataFrame => forall df, o = Some df -> all_dumpable df)).
  { destruct ex.
    - apply keeps_bind; [keeps_tac|intros].
      apply keeps_bind; [keeps_tac|intros j].
      apply (yields_bind (fun df => all_dumpable df)).
      + apply yields_lift. intros df. apply DataFrame_of_json_dumpable.
      + intros df Hdf. apply keeps_bind; [keeps_tac|intros].
        apply yields_ret. intros df' [= <-]. exact Hdf.
    - apply yields_ret. intros df [=]. }
  intros existing Hex.
  apply atomic_bind_keeps; [keeps_tac|intros].
  apply atomic_bind_keeps; [keeps_tac|intros [new|]].
  2:{ apply atomic_keeps. keeps_tac. }
  destruct (len new =? 0)%nat.
  { apply atomic_keeps. keeps_tac. }
  apply atomic_bind_keeps; [keeps_tac|intros].
  apply (atomic_bind _ well_formed); [apply yields_enrich_properties_data|].
  intros new' Hwf.
  apply (atomic_bind _ dump_safe); [apply combine_properties_dump_safe; assumption|].
  intros [n c] Hs. apply properties_writes_atomic. exact Hs.
Qed.

Lemma requests_get_offline u b w :
  net w = [] ->
  requests_get u b w = (inl ConnectionError, mkWorld [] (fs w) (now w) (Get u b :: trace w)).
Proof.
  intros H. unfold requests_get, emit, next_response, mbind, M_bind. cbn. rewrite H. reflexivity.
Qed.

Lemma initiate_and_poll_offline ds qp body y m q w :
  net w = [] ->
  exists w', initiate_and_poll ds qp body y m q w = (inr None, w') /\
             net w' = [] /\ fs w' = fs w.
Proof.
  intros H. unfold initiate_and_poll, try_except.
  rewrite (bind_inl _ _ _ _ _ (requests_get_offline _ _ w H)).
  eexists. split; [reflexivity|]. split; reflexivity.
Qed.

Lemma download_file_offline ds y m q w :
  net w = [] ->
  exists w', Extractor.download_file ds y m q w = (inr None, w') /\
             net w' = [] /\ fs w' = fs w.
Proof.
  intros H. unfold Extractor.download_file, quarter_filters.
  destruct (truthy_str q); [destruct (contains "-Q" (default "" q)); [|destruct (negb (truthy_Z y))]|];
    unfold logger_info, logger_error; msimp;
    try (eexists; split; [reflexivity|]; split; [exact H|reflexivity]);
    destruct (truthy_Z m && truthy_Z y); msimp;
    try (destruct (truthy_Z y && negb true)); try (destruct (truthy_Z y && negb false)); msimp;
    cbn [app];
    try (match goal with
         | |- context [initiate_and_poll ?a ?b ?c ?d ?e ?f ?w0] =>
             destruct (initiate_and_poll_offline a b c d e f w0 H) as (w' & -> & Hn & Hf);
             exists w'; split; [reflexivity|]; split; [exact Hn|exact Hf]
         end);
    try (eexists; split; [reflexivity|]; split; [exact H|reflexivity]).
Qed.


Lemma offline_keeps_false (m : M unit) :
  offline_false (m;; mret false).
Proof.
  intros w _. unfold mbind, M_bind. destruct (m w) as [[e|x] w1]; cbn; discriminate.
Qed.

Lemma offline_bind {A} (Q : A -> Prop) (m : M A) (f : A -> M bool) :
  yields Q m -> (forall x, Q x -> offline_false (f x)) -> offline_false (m ≫= f).
Proof.
  intros Hm Hf w Hw. unfold mbind, M_bind. destruct (Hm w) as (_ & Hn & Hx).
  destruct (m w) as [[e|x] w1]; cbn [fst snd] in *; [discriminate|].
  apply (Hf x (Hx x eq_refl) w1). auto.
Qed.

Lemma offline_download ds y m q (f : option DataFrame -> M bool) :
  offline_false (f None) -> offline_false (Extractor.download_file ds y m q ≫= f).
Proof.
  intros Hf w Hw. destruct (download_file_offline ds y m q w Hw) as (w' & E & Hn & _).
  rewrite (bind_inr _ _ _ _ _ E). apply Hf. exact Hn.
Qed.

Lemma offline_try (body : M bool) (msg : string) (w : World) :
  offline_false body -> net w = [] ->
  (try_except body (fun _ => logger_error msg;; mret false) w).1 = inr false.
Proof.
  intros Hb Hw. unfold try_except. specialize (Hb w Hw).
  destruct (body w) as [[e|[]] w1]; cbn [fst snd] in *; [reflexivity|congruence|reflexivity].
Qed.

Lemma aggprices_update_offline year month w :
  net w = [] ->
  (Extractor.update_latest_aggprices_dataset year month w).1 = inr false.
Proof.
  unfold Extractor.update_latest_aggprices_dataset. apply offline_try.
  apply offline_download. apply offline_keeps_false.
Qed.

Lemma prices_update_offline year month w :
  net w = [] ->
  (Extractor.update_latest_prices_dataset year month w).1 = inr false.
Proof.
  unfold Extractor.update_latest_prices_dataset.
  destruct (year <? 2017); [reflexivity|].
  destruct (Extractor.get_dataset_id_for_period year) as [ds|]; [|reflexivity].
  apply offline_try. apply offline_download. apply offline_keeps_false.
Qed.

Lemma properties_update_offline year month w :
  net w = [] ->
  (Extractor.update_latest_properties_dataset year month w).1 = inr false.
Proof.
  unfold Extractor.update_latest_properties_dataset. apply offline_try.
  apply (offline_bind (fun _ => True)); [keeps_tac|intros ex _].
  apply (offline_bind (fun _ => True)); [keeps_tac|intros existing _].
  apply (offline_bind (fun _ => True)); [keeps_tac|intros _ _].
  apply offline_download. apply offline_keeps_false.
Qed.



(** ** Which segments a range loads *)

Lemma fst_filter_cons {A B} (p : A * B -> bool) (x : A * B) (l : list (A * B)) :
  fst <$> List.filter p (x :: l)
  = (if p x then [fst x] else []) ++ (fst <$> List.filter p l).
Proof. cbn. destruct (p x); reflexivity. Qed.

(** X1.  For every pair of years, the segment files selected are, in
    file order, exactly those whose span of years meets
    [start_year .. end_year] (the 1990-1999 segment counting for every
    earlier year, the latest segment for every later one), and every year
    of the range lies in the span of a selected segment. *)
Theorem segments_to_load_by_overlap (start_year end_year : Z) :
  App.segments_to_load start_year end_year
  = inr (fst <$> List.filter (meets start_year end_year) segment_spans) /\
  forall y, start_year <= y <= end_year ->
    exists s, s ∈ List.filter (meets start_year end_year) segment_spans /\
              spans_year y s = true.
Proof.
  split.
  - unfold App.segments_to_load, App.segment, segment_spans.
    rewrite !fst_filter_cons. unfold meets, from_year, to_year. cbn [fst snd filter fmap list_fmap].
    rewrite !andb_true_r, !andb_true_l.
    destruct (start_year <=? 1999); cbn;
      destruct ((start_year <=? 2012) && (2000 <=? end_year)); cbn;
      destruct ((start_year <=? 2014) && (2012 <=? end_year)); cbn;
      destruct ((start_year <=? 2016) && (2015 <=? end_year)); cbn;
      destruct (2017 <=? end_year); reflexivity.
  - intros y Hy.
    assert (Hcases : y <= 1999 \/ 2000 <= y <= 2012 \/ 2013 <= y <= 2014
                     \/ 2015 <= y <= 2016 \/ 2017 <= y) by lia.
    unfold segment_spans.
    destruct Hcases as [H|[H|[H|[H|H]]]];
      [eexists (_, (None, Some 1999)) | eexists (_, (Some 2000, Some 2012))
      |eexists (_, (Some 2012, Some 2014)) | eexists (_, (Some 2015, Some 2016))
      |eexists (_, (Some 2017, None))];
      (split; [apply list_elem_of_In, filter_In; split; [cbn; tauto|]|]);
      unfold meets, spans_year, from_year, to_year; cbn [fst snd];
      rewrite ?andb_true_r, ?andb_true_l, ?andb_true_iff, ?Z.leb_le; lia.
Qed.

Lemma segments_to_load_by_overlap_witness :
  exists s, s ∈ List.filter (meets 2011 2013) segment_spans /\ spans_year 2012 s = true.
Proof. apply (proj2 (segments_to_load_by_overlap 2011 2013) 2012). lia. Defined.

(** ** Dates written and read back *)

Lemma reads_back_fmt_04d : forallb (reads_back 4 fmt_04d) (seqZ 1600 700) = true.
Proof. vm_compute. reflexivity. Qed.

Lemma reads_back_fmt_02d : forallb (reads_back 2 fmt_02d) (seqZ 0 100) = true.
Proof. vm_compute. reflexivity. Qed.

Lemma reads_back_in (width : nat) (fmt : Z -> string) (lo n k : Z) :
  forallb (reads_back width fmt) (seqZ lo n) = true ->
  lo <= k < lo + n ->
  String.length (fmt k) = width /\ parse_nat (fmt k) = Some k.
Proof.
  intros Hall Hk.
  assert (Hin : In k (seqZ lo n)) by (apply list_elem_of_In, elem_of_seqZ; lia).
  pose proof (proj1 (forallb_forall _ _) Hall k Hin) as H.
  unfold reads_back in H. apply andb_true_iff in H as [Hlen Hp].
  apply Nat.eqb_eq in Hlen. split; [exact Hlen|].
  destruct (parse_nat (fmt k)) as [j|]; [|discriminate].
  apply Z.eqb_eq in Hp. congruence.
Qed.

Ltac four_chars s H :=
  destruct s as [|? [|? [|? [|? [|? ?]]]]]; try discriminate H.

Ltac two_chars s H :=
  destruct s as [|? [|? [|? ?]]]; try discriminate H.

Lemma to_datetime_ymd (y m d : string) (yz mz dz : Z) :
  String.length y = 4%nat -> parse_nat y = Some yz ->
  String.length m = 2%nat -> parse_nat m = Some mz ->
  String.length d = 2%nat -> parse_nat d = Some dz ->
  to_datetime (y +:+ "-" +:+ m +:+ "-" +:+ d) = check_date (mkDate yz mz dz).
Proof.
  intros Hy Py Hm Pm Hd Pd.
  four_chars y Hy. two_chars m Hm. two_chars d Hd.
  unfold to_datetime. cbv [String.append]. cbn -[parse_nat check_date option_res mbind].
  rewrite Py, Pm, Pd. reflexivity.
Qed.

Lemma to_datetime_ym (y m : string) (yz mz : Z) :
  String.length y = 4%nat -> parse_nat y = Some yz ->
  String.length m = 2%nat -> parse_nat m = Some mz ->
  to_datetime (y +:+ "-" +:+ m) = check_date (mkDate yz mz 1).
Proof.
  intros Hy Py Hm Pm.
  four_chars y Hy. two_chars m Hm.
  unfold to_datetime. cbv [String.append]. cbn -[parse_nat check_date option_res mbind].
  rewrite Py, Pm. reflexivity.
Qed.

Lemma fmt_04d_reads_back (y : Z) :
  1600 <= y < 2300 -> String.length (fmt_04d y) = 4%nat /\ parse_nat (fmt_04d y) = Some y.
Proof. intros H. apply (reads_back_in 4 fmt_04d 1600 700 y reads_back_fmt_04d). lia. Qed.

Lemma str_Z_fmt_04d (y : Z) : 1000 <= y -> str_Z y = fmt_04d y.
Proof.
  intros H. unfold fmt_04d, str_Z.
  replace (y <? 10) with false by (symmetry; apply Z.ltb_ge; lia).
  replace (y <? 100) with false by (symmetry; apply Z.ltb_ge; lia).
  replace (y <? 1000) with false by (symmetry; apply Z.ltb_ge; lia).
  rewrite andb_false_r. reflexivity.
Qed.

Lemma str_Z_reads_back (y : Z) :
  1600 <= y < 2300 -> String.length (str_Z y) = 4%nat /\ parse_nat (str_Z y) = Some y.
Proof. intros H. rewrite str_Z_fmt_04d by lia. apply fmt_04d_reads_back, H. Qed.

Lemma fmt_02d_reads_back (m : Z) :
  0 <= m <= 99 -> String.length (fmt_02d m) = 2%nat /\ parse_nat (fmt_02d m) = Some m.
Proof. intros H. apply (reads_back_in 2 fmt_02d 0 100 m reads_back_fmt_02d). lia. Qed.

Lemma valid_first_of_month (y m : Z) : 1 <= m <= 12 -> valid_date (mkDate y m 1) = true.
Proof.
  intros H. unfold valid_date, days_in_month. cbn [dt_year dt_month dt_day].
  repeat (apply andb_true_iff; split); try (apply Z.leb_le; lia).
  destruct (m =? 2); [destruct (is_leap y); reflexivity|].
  destruct ((m =? 4) || (m =? 6) || (m =? 9) || (m =? 11)); reflexivity.
Qed.

Lemma month_bounds_ok (y m : Z) :
  1600 <= y < 2300 -> 1 <= m <= 12 ->
  month_bounds (Some y) m = inr (mkDate y m 1, mkDate y m (days_in_month y m)).
Proof.
  intros Hy Hm. unfold month_bounds. cbn [str_year].
  destruct (str_Z_reads_back y Hy) as [Ly Py].
  destruct (fmt_02d_reads_back m ltac:(lia)) as [Lm Pm].
  pose proof (to_datetime_ymd _ _ "01" y m 1 Ly Py Lm Pm eq_refl eq_refl) as H.
  change ("-" +:+ "01") with "-01" in H. rewrite H.
  unfold check_date. rewrite valid_first_of_month by lia. reflexivity.
Qed.

Lemma valid_date_bounds (d : Date) :
  valid_date d = true -> 1 <= dt_month d <= 12 /\ 1 <= dt_day d <= 31.
Proof.
  intros Hv. unfold valid_date in Hv. rewrite !andb_true_iff, !Z.leb_le in Hv.
  destruct Hv as [[[? ?] ?] Hd]. split; [lia|]. split; [lia|].
  unfold days_in_month in Hd.
  destruct (dt_month d =? 2); [destruct (is_leap (dt_year d)); lia|].
  destruct ((dt_month d =? 4) || (dt_month d =? 6) || (dt_month d =? 9)
            || (dt_month d =? 11)); lia.
Qed.

Lemma to_datetime_strftime_ymd (d : Date) :
  1600 <= dt_year d < 2300 -> valid_date d = true ->
  to_datetime (strftime_ymd d) = inr d.
Proof.
  intros Hy Hv. unfold strftime_ymd.
  destruct (valid_date_bounds d Hv) as [Hm Hd].
  destruct (fmt_04d_reads_back _ Hy) as [Ly Py].
  destruct (fmt_02d_reads_back (dt_month d) ltac:(lia)) as [Lm Pm].
  destruct (fmt_02d_reads_back (dt_day d) ltac:(lia)) as [Ld Pd].
  rewrite (to_datetime_ymd _ _ _ _ _ _ Ly Py Lm Pm Ld Pd).
  unfold check_date. destruct d as [yy mm dd]; cbn [dt_year dt_month dt_day] in *.
  rewrite Hv. reflexivity.
Qed.

(** X2.  A range bound given as a year stands for the whole year and a
    bound given as year-month for the whole month: the start is the first
    day, the end is 31 December, respectively the last day of that month
    (28, 29, 30 or 31, by the calendar). *)
Theorem range_bounds_cover_whole_periods (ys ms : string) (y m : Z) :
  String.length ys = 4%nat -> parse_nat ys = Some y -> 1678 <= y <= 2261 ->
  String.length ms = 2%nat -> parse_nat ms = Some m -> 1 <= m <= 12 ->
  App.parse_start ys = inr (mkDate y 1 1) /\
  App.parse_end ys = inr (mkDate y 12 31) /\
  App.parse_start (ys +:+ "-" +:+ ms) = inr (mkDate y m 1) /\
  App.parse_end (ys +:+ "-" +:+ ms) = inr (mkDate y m (days_in_month y m)).
Proof.
  intros Ly Py Hy Lm Pm Hm.
  assert (L7 : String.length (ys +:+ "-" +:+ ms) = 7%nat).
  { four_chars ys Ly. two_chars ms Lm. reflexivity. }
  unfold App.parse_start, App.parse_end. rewrite Ly, L7. cbn [Nat.eqb].
  pose proof (to_datetime_ymd ys "01" "01" y 1 1 Ly Py eq_refl eq_refl eq_refl eq_refl) as H1.
  pose proof (to_datetime_ymd ys "12" "31" y 12 31 Ly Py eq_refl eq_refl eq_refl eq_refl) as H2.
  pose proof (to_datetime_ymd ys ms "01" y m 1 Ly Py Lm Pm eq_refl eq_refl) as H3.
  pose proof (to_datetime_ym ys ms y m Ly Py Lm Pm) as H4.
  change ("-" +:+ "01" +:+ "-" +:+ "01") with "-01-01" in H1.
  change ("-" +:+ "12" +:+ "-" +:+ "31") with "-12-31" in H2.
  rewrite H1, H2, H4.
  replace ((ys +:+ "-" +:+ ms) +:+ "-01") with (ys +:+ "-" +:+ ms +:+ "-" +:+ "01").
  2:{ four_chars ys Ly. two_chars ms Lm. reflexivity. }
  rewrite H3. unfold check_date. rewrite (valid_first_of_month y m Hm).
  repeat split; reflexivity.
Qed.

Lemma range_bounds_cover_whole_periods_witness :
  App.parse_start "2024" = inr (mkDate 2024 1 1) /\
  App.parse_end "2024" = inr (mkDate 2024 12 31) /\
  App.parse_start "2024-02" = inr (mkDate 2024 2 1) /\
  App.parse_end "2024-02" = inr (mkDate 2024 2 29).
Proof.
  apply (range_bounds_cover_whole_periods "2024" "02" 2024 2);
    first [reflexivity | lia].
Defined.

(** ** Requests without a period *)

(** X3.  Without a year, and without a quarter label that carries its own
    year ("YYYY-Qn"), [download_file] returns [None] after logging one
    error and sends no request, whatever month is given; so do the other
    two copies of the function. *)
Theorem download_file_without_period_sends_nothing
    (ds : string) (year month : option Z) (quarter : option string) (w : World) :
  truthy_Z year = false ->
  contains "-Q" (default "" quarter) = false ->
  let msg := if truthy_str quarter then no_year_msg else no_period_msg in
  let w' := mkWorld (net w) (fs w) (now w) (Log ERROR msg :: trace w) in
  Extractor.download_file ds year month quarter w = (inr None, w') /\
  ApiMonthly.download_file ds year month quarter w = (inr None, w') /\
  Daily.download_file ds year month quarter w = (inr None, w') /\
  requests (trace w') = requests (trace w).
Proof.
  intros Hy Hq msg w'. subst msg w'.
  unfold Extractor.download_file, ApiMonthly.download_file, Daily.download_file,
    quarter_filters.
  rewrite Hy, Hq. rewrite andb_false_r. cbn [negb andb].
  destruct (truthy_str quarter); repeat split; reflexivity.
Qed.

Lemma download_file_without_period_sends_nothing_witness :
  Extractor.download_file "d_8b84c4ee58e3cfc0ece0d773c8ca6abc" None (Some 3) None ex_offline
  = (inr None, mkWorld [] ∅ ex_today [Log ERROR no_period_msg]).
Proof.
  apply (download_file_without_period_sends_nothing
           "d_8b84c4ee58e3cfc0ece0d773c8ca6abc" None (Some 3) None ex_offline);
    reflexivity.
Defined.
(** ** How much a download may ask and wait *)

Lemma requests_app (t u : list Event) : requests (t ++ u) = requests t ++ requests u.
Proof. unfold requests. apply omap_app. Qed.

Lemma sleeps_app (t u : list Event) : sleeps (t ++ u) = sleeps t ++ sleeps u.
Proof. unfold sleeps. apply omap_app. Qed.

Lemma effort_weaken {A} (a b a' b' : nat) (d : Q) (m : M A) :
  (a <= a')%nat -> (b <= b')%nat -> effort a b d m -> effort a' b' d m.
Proof.
  intros Ha Hb Hm w. destruct (Hm w) as (t & Ht & Hr & Hs & Hd).
  exists t. repeat split; [exact Ht|lia|lia|exact Hd].
Qed.

Lemma effort_bind {A B} (a b a' b' : nat) (d : Q) (m : M A) (f : A -> M B) :
  effort a b d m -> (forall x, effort a' b' d (f x)) ->
  effort (a + a') (b + b') d (m ≫= f).
Proof.
  intros Hm Hf w. unfold mbind, M_bind. destruct (Hm w) as (t & Ht & Hr & Hs & Hd).
  destruct (m w) as [[e|x] w1]; cbn [fst snd] in *.
  - exists t. repeat split; [exact Ht|lia|lia|exact Hd].
  - destruct (Hf x w1) as (t' & Ht' & Hr' & Hs' & Hd').
    exists (t' ++ t). rewrite Ht', Ht, app_assoc, requests_app, sleeps_app, !length_app.
    repeat split; [lia|lia|]. apply Forall_app. split; assumption.
Qed.

Lemma effort_try {A} (a b a' b' : nat) (d : Q) (body : M A) (h : Exn -> M A) :
  effort a b d body -> (forall e, effort a' b' d (h e)) ->
  effort (a + a') (b + b') d (try_except body h).
Proof.
  intros Hm Hf w. unfold try_except. destruct (Hm w) as (t & Ht & Hr & Hs & Hd).
  destruct (body w) as [[e|x] w1]; cbn [fst snd] in *.
  - destruct (Hf e w1) as (t' & Ht' & Hr' & Hs' & Hd').
    exists (t' ++ t). rewrite Ht', Ht, app_assoc, requests_app, sleeps_app, !length_app.
    repeat split; [lia|lia|]. apply Forall_app. split; assumption.
  - exists t. repeat split; [exact Ht|lia|lia|exact Hd].
Qed.

(** Steps that neither ask nor wait. *)
Lemma effort_ret {A} (d : Q) (x : A) : effort 0 0 d (mret x).
Proof. intros w. exists []. repeat split; [reflexivity|reflexivity|constructor]. Qed.

Lemma effort_lift {A} (d : Q) (r : Res A) : effort 0 0 d (lift r).
Proof. intros w. exists []. repeat split; [reflexivity|reflexivity|constructor]. Qed.

Lemma effort_raise {A} (d : Q) (e : Exn) : effort 0 0 d (raise e : M A).
Proof. intros w. exists []. repeat split; [reflexivity|reflexivity|constructor]. Qed.

Lemma effort_log (d : Q) (l : Level) (msg : string) : effort 0 0 d (emit (Log l msg)).
Proof. intros w. exists [Log l msg]. repeat split; [reflexivity|reflexivity|constructor]. Qed.

Lemma effort_print (d : Q) (msg : string) : effort 0 0 d (emit (Print msg)).
Proof. intros w. exists [Print msg]. repeat split; [reflexivity|reflexivity|constructor]. Qed.

Lemma effort_sleep (d : Q) : effort 0 1 d (sleep d).
Proof.
  intros w. exists [Sleep d]. repeat split; [reflexivity|reflexivity|].
  constructor; [reflexivity|constructor].
Qed.

Lemma effort_requests_get (d : Q) (u : string) (b : Json) : effort 1 0 d (requests_get u b).
Proof.
  intros w. exists [Get u b]. unfold requests_get, emit, next_response, mbind, M_bind. cbn.
  destruct (net w) as [|[] rest]; repeat split; try reflexivity; constructor.
Qed.

Lemma effort_free_bind {A B} (a b : nat) (d : Q) (m : M A) (f : A -> M B) :
  effort 0 0 d m -> (forall x, effort a b d (f x)) -> effort a b d (m ≫= f).
Proof. intros Hm Hf. apply (effort_bind 0 0 a b d m f Hm Hf). Qed.

Lemma effort_get_bind {B} (a b : nat) (d : Q) (u : string) (j : Json) (f : Response -> M B) :
  (forall x, effort a b d (f x)) -> effort (S a) b d (requests_get u j ≫= f).
Proof. intros Hf. apply (effort_bind 1 0 a b d _ f (effort_requests_get d u j) Hf). Qed.

Lemma effort_sleep_bind {B} (a b : nat) (d : Q) (f : unit -> M B) :
  (forall x, effort a b d (f x)) -> effort a (S b) d (sleep d ≫= f).
Proof. intros Hf. apply (effort_bind 0 1 a b d _ f (effort_sleep d) Hf). Qed.

Lemma effort_free {A} (a b : nat) (d : Q) (m : M A) : effort 0 0 d m -> effort a b d m.
Proof. apply effort_weaken; lia. Qed.

Lemma effort_assoc {A B C} (a b : nat) (d : Q) (m : M A) (g : A -> M B) (f : B -> M C) :
  effort a b d (m ≫= fun x => g x ≫= f) -> effort a b d ((m ≫= g) ≫= f).
Proof. intros H w. rewrite bind_assoc. apply H. Qed.

Ltac effort_tac :=
  repeat match goal with
    | |- effort _ _ _ (mbind _ (mbind _ _)) => apply effort_assoc
    | |- effort _ _ _ (mbind _ (requests_get _ _)) => apply effort_get_bind; intros
    | |- effort _ _ _ (mbind _ (sleep _)) => apply effort_sleep_bind; intros
    | |- effort _ _ _ (mbind _ (lift _)) => apply effort_free_bind; [apply effort_lift|intros]
    | |- effort _ _ _ (mbind _ (mret _)) => apply effort_free_bind; [apply effort_ret|intros]
    | |- effort _ _ _ (mbind _ (logger_info _)) =>
        apply effort_free_bind; [apply effort_log|intros]
    | |- effort _ _ _ (mbind _ (logger_error _)) =>
        apply effort_free_bind; [apply effort_log|intros]
    | |- effort _ _ _ (mbind _ (logger_warning _)) =>
        apply effort_free_bind; [apply effort_log|intros]
    | |- effort _ _ _ (mbind _ (print _)) =>
        apply effort_free_bind; [apply effort_print|intros]
    | |- effort _ _ _ (mbind _ (if ?b then _ else _)) => destruct b
    | |- effort _ _ _ (mbind _ (match ?x with _ => _ end)) => destruct x
    | |- effort _ _ _ (mret _) => apply effort_free, effort_ret
    | |- effort _ _ _ (lift _) => apply effort_free, effort_lift
    | |- effort _ _ _ (raise _) => apply effort_free, effort_raise
    | |- effort _ _ _ (logger_info _) => apply effort_free, effort_log
    | |- effort _ _ _ (logger_error _) => apply effort_free, effort_log
    | |- effort _ _ _ (if ?b then _ else _) => destruct b
    | |- effort _ _ _ (match ?x with _ => _ end) => destruct x
    end.

Lemma effort_read_csv_url (d : Q) (u : Json) : effort 1 0 d (read_csv_url u).
Proof. unfold read_csv_url. effort_tac. Qed.

Lemma effort_fetch_ready (d : Q) y m q p : effort 1 0 d (fetch_ready y m q p).
Proof.
  unfold fetch_ready. effort_tac.
  apply (effort_bind 1 0 0 0 d); [apply effort_read_csv_url|intros]. effort_tac.
Qed.

Lemma effort_poll_download ds body y m q (n : nat) :
  forall i, effort (S n) n 3 (poll_download ds body y m q n i).
Proof.
  induction n as [|n IH]; intros i; cbn [poll_download]; effort_tac.
  - apply (effort_bind 1 0 n (S n) 3); [apply effort_fetch_ready|intros]. effort_tac.
  - apply IH.
  - apply IH.
Qed.

Lemma effort_initiate_and_poll ds qp body y m q :
  effort 7 5 3 (initiate_and_poll ds qp body y m q).
Proof.
  unfold initiate_and_poll.
  apply (effort_try 7 5 0 0); [|intros; effort_tac].
  effort_tac. apply effort_poll_download.
Qed.

Lemma effort_quarter_filters ds y q : effort 0 0 3 (quarter_filters ds y q).
Proof. unfold quarter_filters. effort_tac. Qed.

Lemma effort_download_file ds y m q : effort 7 5 3 (Extractor.download_file ds y m q).
Proof.
  unfold Extractor.download_file.
  apply effort_free_bind; [apply effort_quarter_filters|intros].
  effort_tac; apply effort_initiate_and_poll.
Qed.

Lemma effort_api_download_file ds y m q : effort 7 5 3 (ApiMonthly.download_file ds y m q).
Proof.
  unfold ApiMonthly.download_file.
  apply effort_free_bind; [apply effort_quarter_filters|intros].
  effort_tac; apply effort_initiate_and_poll.
Qed.

Lemma effort_daily_download_file ds y m q : effort 7 5 3 (Daily.download_file ds y m q).
Proof.
  unfold Daily.download_file.
  apply effort_free_bind; [apply effort_quarter_filters|intros].
  effort_tac; apply effort_initiate_and_poll.
Qed.

Lemma total_quarter_filters ds y q : total (quarter_filters ds y q).
Proof. unfold quarter_filters. total_tac. Qed.

Lemma total_initiate_and_poll ds qp body y m q : total (initiate_and_poll ds qp body y m q).
Proof. unfold initiate_and_poll. total_tac. Qed.

#[export] Hint Resolve total_quarter_filters total_initiate_and_poll : total_db.

Lemma total_download_file ds y m q : total (Extractor.download_file ds y m q).
Proof. unfold Extractor.download_file. total_tac. Qed.

Lemma total_api_download_file ds y m q : total (ApiMonthly.download_file ds y m q).
Proof. unfold ApiMonthly.download_file. total_tac. Qed.

Lemma total_daily_download_file ds y m q : total (Daily.download_file ds y m q).
Proof. unfold Daily.download_file. total_tac. Qed.

Lemma keeps_api_download_file ds y m q : keeps_files (ApiMonthly.download_file ds y m q).
Proof. unfold ApiMonthly.download_file. keeps_tac. Qed.

Lemma keeps_daily_download_file ds y m q : keeps_files (Daily.download_file ds y m q).
Proof. unfold Daily.download_file. keeps_tac. Qed.

#[export] Hint Resolve keeps_api_download_file keeps_daily_download_file : keeps_db.

Lemma bounded_download_intro dl :
  (forall ds y m q, total (dl ds y m q)) ->
  (forall ds y m q, keeps_files (dl ds y m q)) ->
  (forall ds y m q, effort 7 5 3 (dl ds y m q)) ->
  bounded_download dl.
Proof.
  intros Ht Hk He ds y m q w. cbv zeta.
  destruct (Ht ds y m q w) as (o & w' & Hr & _).
  split; [exists o; rewrite Hr; reflexivity|].
  split; [intros p _; rewrite (proj1 (Hk ds y m q w)); reflexivity|]. apply He.
Qed.


(** ** Geocoding attempts *)

Lemma requests_cons e t :
  requests (e :: t) = match e with Get u _ => u :: requests t | _ => requests t end.
Proof. destruct e; reflexivity. Qed.

Lemma geocode_attempt_fails (address : string) (n : nat) (r : Response)
    (rest : list Response) (w : World) :
  net w = r :: rest -> undecodable r ->
  Extractor.geocode address (S n) w
  = Extractor.geocode address n
      (mkWorld rest (fs w) (now w)
         (Get (Extractor.geocode_url address) JNull :: Sleep (1 # 100) :: trace w)).
Proof.
  intros Hnet Hr. cbn [Extractor.geocode]. unfold sleep. rewrite bind_emit.
  unfold try_except, requests_get. rewrite bind_assoc, bind_emit.
  unfold next_response, mbind, M_bind. cbn [net fs now trace]. rewrite Hnet.
  destruct r as [|j| |]; try reflexivity. exfalso. apply (Hr j). reflexivity.
Qed.

Lemma geocode_attempt_offline (address : string) (n : nat) (w : World) :
  net w = [] ->
  Extractor.geocode address (S n) w
  = Extractor.geocode address n
      (mkWorld [] (fs w) (now w)
         (Get (Extractor.geocode_url address) JNull :: Sleep (1 # 100) :: trace w)).
Proof.
  intros Hnet. cbn [Extractor.geocode]. unfold sleep. rewrite bind_emit.
  unfold try_except, requests_get. rewrite bind_assoc, bind_emit.
  unfold next_response, mbind, M_bind. cbn [net fs now trace]. rewrite Hnet. reflexivity.
Qed.

Lemma geocode_failing (address : string) (fails : list Response) :
  forall (n : nat) (w : World) (rest : list Response),
    net w = fails ++ rest -> Forall undecodable fails ->
    exists w',
      Extractor.geocode address (length fails + n) w = Extractor.geocode address n w' /\
      net w' = rest /\ fs w' = fs w /\
      requests (trace w')
      = replicate (length fails) (Extractor.geocode_url address) ++ requests (trace w) /\
      sleeps (trace w') = replicate (length fails) (1 # 100)%Q ++ sleeps (trace w).
Proof.
  induction fails as [|r fails IH]; intros n w rest Hnet Hf.
  - exists w. repeat split; try reflexivity. exact Hnet.
  - inversion Hf as [|? ? Hr Hf']; subst.
    cbn [length Nat.add]. rewrite (geocode_attempt_fails address _ r (fails ++ rest) w Hnet Hr).
    match goal with
    | |- context [Extractor.geocode _ _ ?w1] =>
        destruct (IH n w1 rest eq_refl Hf') as (w' & Heq & Hn & Hfs & Hq & Hs)
    end.
    exists w'. rewrite Heq. cbn [net fs now trace] in *.
    split; [reflexivity|]. split; [exact Hn|]. split; [exact Hfs|].
    rewrite Hq, Hs, !requests_cons, !sleeps_cons. cbn [replicate].
    rewrite !replicate_cons_app, <- !app_assoc. split; reflexivity.
Qed.

Lemma geocode_offline (address : string) :
  forall (n : nat) (w : World),
    net w = [] ->
    exists w',
      Extractor.geocode address n w = (inr None, w') /\
      net w' = [] /\ fs w' = fs w /\
      requests (trace w')
      = replicate n (Extractor.geocode_url address) ++ requests (trace w) /\
      sleeps (trace w') = replicate n (1 # 100)%Q ++ sleeps (trace w).
Proof.
  induction n as [|n IH]; intros w Hnet.
  - eexists. split; [reflexivity|]. cbn [net fs now trace]. repeat split; try assumption.
  - rewrite (geocode_attempt_offline address n w Hnet).
    match goal with
    | |- context [Extractor.geocode _ _ ?w1] =>
        destruct (IH w1 eq_refl) as (w' & Heq & Hn & Hfs & Hq & Hs)
    end.
    exists w'. rewrite Heq. cbn [net fs now trace] in *.
    split; [reflexivity|]. split; [exact Hn|]. split; [exact Hfs|].
    rewrite Hq, Hs, !requests_cons, !sleeps_cons. cbn [replicate].
    rewrite !replicate_cons_app, <- !app_assoc. split; reflexivity.
Qed.

(** X5.  The geocoder is asked at most ten times for an address, each
    request after a pause of 10 ms.  The first answer that decodes ends
    the attempts and is the location; failed exchanges and bodies that do
    not decode are retried.  After ten failures in a row, or when the
    service stops answering, the location is [None]: ten requests were
    sent and nothing is raised. *)
Theorem geocode_retries_then_gives_up (address : string) (w : World) :
  let url := Extractor.geocode_url address in
  (forall fails j rest,
      net w = fails ++ Body j :: rest ->
      Forall undecodable fails -> (length fails < 10)%nat ->
      exists w',
        Extractor.geocode address 10 w = (inr (Some j), w') /\
        net w' = rest /\
        requests (trace w') = replicate (S (length fails)) url ++ requests (trace w) /\
        sleeps (trace w') = replicate (S (length fails)) (1 # 100)%Q ++ sleeps (trace w)) /\
  (forall fails rest,
      net w = fails ++ rest ->
      Forall undecodable fails -> (length fails = 10%nat \/ rest = []) ->
      (length fails <= 10)%nat ->
      exists w',
        Extractor.geocode address 10 w = (inr None, w') /\
        net w' = rest /\
        requests (trace w') = replicate 10 url ++ requests (trace w) /\
        sleeps (trace w') = replicate 10 (1 # 100)%Q ++ sleeps (trace w)).
Proof.
  intros url. subst url. split.
  - intros fails j rest Hnet Hf Hlen.
    destruct (geocode_failing address fails (S (9 - length fails)) w _ Hnet Hf)
      as (w1 & Heq & Hn & Hfs & Hq & Hs).
    replace (length fails + S (9 - length fails))%nat with 10%nat in Heq by lia.
    rewrite Heq. cbn [Extractor.geocode]. unfold sleep. rewrite bind_emit.
    unfold try_except.
    erewrite bind_inr by (apply requests_get_body; exact Hn).
    cbn [json]. msimp. eexists. split; [reflexivity|]. cbn [net trace].
    split; [reflexivity|].
    rewrite !requests_cons, !sleeps_cons, Hq, Hs. cbn [replicate app].
    split; reflexivity.
  - intros fails rest Hnet Hf Hcase Hle.
    destruct (geocode_failing address fails (10 - length fails) w _ Hnet Hf)
      as (w1 & Heq & Hn & Hfs & Hq & Hs).
    replace (length fails + (10 - length fails))%nat with 10%nat in Heq by lia.
    rewrite Heq.
    destruct Hcase as [H10|Hrest].
    + rewrite H10. cbn [Nat.sub Extractor.geocode]. unfold print. rewrite bind_emit.
      eexists. split; [reflexivity|]. cbn [net trace].
      split; [exact Hn|]. rewrite H10 in Hq, Hs. split; assumption.
    + subst rest.
      destruct (geocode_offline address (10 - length fails) w1 Hn)
        as (w2 & Heq2 & Hn2 & Hfs2 & Hq2 & Hs2).
      exists w2. split; [exact Heq2|]. split; [exact Hn2|].
      rewrite Hq2, Hs2, Hq, Hs, !app_assoc, <- !replicate_add.
      replace (10 - length fails + length fails)%nat with 10%nat by lia.
      split; reflexivity.
Qed.

Lemma geocode_retries_then_gives_up_witness :
  exists w',
    Extractor.geocode "101 BEDOK NTH AVE 1" 10
      (ex_empty_store [NetFail; Garbage; Body ex_geocoded]) = (inr (Some ex_geocoded), w') /\
    net w' = [] /\
    requests (trace w') = replicate 3 (Extractor.geocode_url "101 BEDOK NTH AVE 1") ++ [] /\
    sleeps (trace w') = replicate 3 (1 # 100)%Q ++ [].
Proof.
  apply (proj1 (geocode_retries_then_gives_up "101 BEDOK NTH AVE 1"
                  (ex_empty_store [NetFail; Garbage; Body ex_geocoded]))
           [NetFail; Garbage] ex_geocoded []).
  - reflexivity.
  - repeat constructor; intros j; discriminate.
  - cbn. lia.
Defined.

(** ** Downloads narrowed to a month *)

Lemma date_between_month (y m last : Z) (d : Date) :
  date_leb (mkDate y m 1) d && date_leb d (mkDate y m last) = true ->
  dt_year d = y /\ dt_month d = m.
Proof.
  unfold date_leb. cbn [dt_year dt_month dt_day].
  repeat match goal with
    | |- context [?a <? ?b] => destruct (Z.ltb_spec a b)
    | |- context [?a =? ?b] => destruct (Z.eqb_spec a b)
    | |- context [?a <=? ?b] => destruct (Z.leb_spec a b)
    end; cbn; intros; try discriminate; lia.
Qed.

Lemma truthy_month (m : Z) : 1 <= m -> truthy_Z (Some m) = true.
Proof. intros H. cbn. destruct (Z.eqb_spec m 0); [lia|reflexivity]. Qed.

Lemma yields_lift_bind {A B} (P : B -> Prop) (r : Res A) (f : A -> M B) :
  (forall x, r = inr x -> yields P (f x)) -> yields P (lift r ≫= f).
Proof.
  intros H. destruct r as [e|x].
  - intros w. split; [reflexivity|]. split; [auto|]. intros y [=].
  - intros w. rewrite bind_lift_inr. apply H. reflexivity.
Qed.

Lemma yields_ret_bind {A B} (P : B -> Prop) (x : A) (f : A -> M B) :
  yields P (f x) -> yields P (mret x ≫= f).
Proof. intros H w. exact (H w). Qed.

Lemma month_fetch_ready (year month : Z) (p : Json) :
  1678 <= year <= 2261 -> 1 <= month <= 12 ->
  yields (month_rows year month) (fetch_ready (Some year) (Some month) None p).
Proof.
  intros Hy Hm. unfold fetch_ready.
  apply keeps_bind; [keeps_tac|intros d].
  apply keeps_bind; [keeps_tac|intros u].
  apply keeps_bind; [apply keeps_read_csv_url|intros df0].
  apply keeps_bind; [keeps_tac|intros _].
  rewrite !truthy_month by lia. cbn [andb truthy_str].
  apply (yields_bind (month_rows year month)).
  2:{ intros df Hdf. apply yields_ret. exact Hdf. }
  destruct (has_col "month" df0) eqn:Hcol.
  2:{ apply yields_ret. intros H. congruence. }
  apply yields_lift_bind. intros d1 Hd1.
  change (default 0 (Some month)) with month. rewrite month_bounds_ok by lia.
  apply yields_lift_bind. intros b [= <-].
  destruct (to_datetime_col_spec _ _ _ (mkDate year month 1)
              (mkDate year month (days_in_month year month)) Hd1)
    as (_ & _ & cells & _ & Hmask).
  apply yields_lift_bind. intros mask Hmask'. rewrite Hmask in Hmask'.
  injection Hmask' as <-. apply keeps_bind; [keeps_tac|intros _].
  apply yields_ret. rewrite select_fmap. intros _ r Hr. cbn [rows] in Hr.
  apply list_elem_of_In, filter_In in Hr as [_ Hr].
  destruct (r !! "month") as [[s|q|b|dd|j]|]; try discriminate.
  exists dd. split; [reflexivity|]. eapply date_between_month. exact Hr.
Qed.

Lemma some_month_rows_None year month : some_month_rows year month None.
Proof. intros df [=]. Qed.

Lemma month_poll_download ds body (year month : Z) (n : nat) :
  1678 <= year <= 2261 -> 1 <= month <= 12 ->
  forall i, yields (some_month_rows year month)
                   (poll_download ds body (Some year) (Some month) None n i).
Proof.
  intros Hy Hm. induction n as [|n IH]; intros i; cbn [poll_download].
  - apply yields_ret, some_month_rows_None.
  - apply keeps_bind; [apply keeps_requests_get|intros r].
    apply keeps_bind; [keeps_tac|intros pd].
    apply keeps_bind; [keeps_tac|intros ready].
    destruct ready.
    + apply (yields_bind (month_rows year month)); [apply month_fetch_ready; assumption|].
      intros df Hdf. apply yields_ret. intros ? [= <-]. exact Hdf.
    + apply keeps_bind; [keeps_tac|intros _].
      apply keeps_bind; [keeps_tac|intros _].
      apply IH.
Qed.

Lemma month_initiate_and_poll ds qp body (year month : Z) :
  1678 <= year <= 2261 -> 1 <= month <= 12 ->
  yields (some_month_rows year month)
         (initiate_and_poll ds qp body (Some year) (Some month) None).
Proof.
  intros Hy Hm. unfold initiate_and_poll. apply yields_try.
  - apply keeps_bind; [apply keeps_requests_get|intros r].
    apply keeps_bind; [keeps_tac|intros rd].
    apply keeps_bind; [keeps_tac|intros bad].
    destruct bad.
    + apply keeps_bind; [keeps_tac|intros _]. apply yields_ret, some_month_rows_None.
    + apply keeps_bind; [keeps_tac|intros d].
      apply keeps_bind; [keeps_tac|intros msg].
      apply keeps_bind; [keeps_tac|intros _].
      apply month_poll_download; assumption.
  - intros e. apply keeps_bind; [keeps_tac|intros _]. apply yields_ret, some_month_rows_None.
Qed.

Lemma month_download_intro dl :
  (forall ds year month, 1678 <= year <= 2261 -> 1 <= month <= 12 ->
     yields (some_month_rows year month) (dl ds (Some year) (Some month) None)) ->
  month_download dl.
Proof.
  intros H ds year month w df Hy Hm Hr.
  destruct (H ds year month Hy Hm w) as (_ & _ & Hx). exact (Hx _ Hr df eq_refl).
Qed.

(** X6.  When [download_file] is asked for a month and hands back a frame
    with a [month] column, every row of the frame carries a date of that
    very month, whatever rows the service put in the CSV; this holds for
    the three copies of the function. *)
Theorem download_file_keeps_only_the_month_asked :
  month_download Extractor.download_file /\
  month_download ApiMonthly.download_file /\
  month_download Daily.download_file.
Proof.
  split; [|split]; apply month_download_intro; intros ds year month Hy Hm.
  - unfold Extractor.download_file, quarter_filters. cbn [truthy_str].
    apply yields_ret_bind.
    rewrite !truthy_month by lia. cbn [andb app].
    apply keeps_bind; [keeps_tac|intros fl].
    destruct fl as [|f fl].
    + apply keeps_bind; [keeps_tac|intros _]. apply yields_ret, some_month_rows_None.
    + apply month_initiate_and_poll; assumption.
  - unfold ApiMonthly.download_file, quarter_filters. cbn [truthy_str].
    apply yields_ret_bind.
    rewrite !truthy_month by lia. cbn [andb app].
    apply keeps_bind; [keeps_tac|intros fl].
    destruct fl as [|f fl].
    + apply keeps_bind; [keeps_tac|intros _]. apply yields_ret, some_month_rows_None.
    + apply month_initiate_and_poll; assumption.
  - unfold Daily.download_file, quarter_filters. cbn [truthy_str].
    apply yields_ret_bind.
    rewrite !truthy_month by lia. cbn [andb app].
    apply keeps_bind; [keeps_tac|intros fl].
    destruct fl as [|f fl].
    + apply keeps_bind; [keeps_tac|intros _]. apply yields_ret, some_month_rows_None.
    + apply keeps_bind; [keeps_tac|intros _]. apply month_initiate_and_poll; assumption.
Qed.

Lemma download_file_keeps_only_the_month_asked_witness :
  month_rows 2024 3 ex_month_result.
Proof.
  apply (proj1 download_file_keeps_only_the_month_asked
           "d_8b84c4ee58e3cfc0ece0d773c8ca6abc" 2024 3 (ex_empty_store ex_month_net)
           ex_month_result); [lia | lia | vm_compute; reflexivity].
Defined.

Example download_file_drops_the_other_months :
  (fun r : Row => r !! "month") <$> rows ex_month_result = [Some (VDate (mkDate 2024 3 1))].
Proof. vm_compute. reflexivity. Qed.


(** ** Default periods *)

(** X7.  Called without year and month, [extract_monthly_data] behaves as
    if called with the calendar month before the clock's date (December of
    the year before, in January).  Called with a year only, it takes that
    year with the month number of the previous month: in January this is
    December of the year given.  The [run] entry points of the two api
    modules take the clock's own year and month instead. *)
Theorem default_periods_of_the_entry_points (w : World) (year : Z) :
  1 <= dt_month (now w) <= 12 -> year <> 0 ->
  exists y' m',
    month_before (dt_year (now w)) (dt_month (now w)) y' m' /\
    Extractor.extract_monthly_data None None w
    = Extractor.extract_monthly_data (Some y') (Some m') w /\
    Extractor.extract_monthly_data (Some year) None w
    = Extractor.extract_monthly_data (Some year) (Some m') w /\
    ApiMonthly.run None None w
    = ApiMonthly.run (Some (dt_year (now w))) (Some (dt_month (now w))) w /\
    Daily.run None None w
    = Daily.run (Some (dt_year (now w))) (Some (dt_month (now w))) w.
Proof.
  intros Hm Hy.
  exists (dt_year (Extractor.prev_month_of (now w))),
         (dt_month (Extractor.prev_month_of (now w))).
  split.
  - unfold month_before, Extractor.prev_month_of.
    destruct (Z.eqb_spec (dt_month (now w)) 1) as [E|E]; cbn [dt_year dt_month]; lia.
  - assert (Ht : Extractor.or_Z (Some year) (dt_year (Extractor.prev_month_of (now w))) = year).
    { unfold Extractor.or_Z. cbn. destruct (Z.eqb_spec year 0); [contradiction|reflexivity]. }
    split; [reflexivity|]. split; [|split; reflexivity].
    unfold Extractor.extract_monthly_data.
    unfold mbind at 1, M_bind at 1. unfold mbind at 1, M_bind at 1. cbn [datetime_now].
    unfold mbind at 4, M_bind at 1.
    rewrite Ht. reflexivity.
Qed.

Lemma default_periods_of_the_entry_points_witness :
  exists y' m',
    month_before 2025 1 y' m' /\
    Extractor.extract_monthly_data None None ex_january
    = Extractor.extract_monthly_data (Some y') (Some m') ex_january /\
    Extractor.extract_monthly_data (Some 2025) None ex_january
    = Extractor.extract_monthly_data (Some 2025) (Some m') ex_january /\
    ApiMonthly.run None None ex_january = ApiMonthly.run (Some 2025) (Some 1) ex_january /\
    Daily.run None None ex_january = Daily.run (Some 2025) (Some 1) ex_january.
Proof.
  apply (default_periods_of_the_entry_points ex_january 2025); [cbn; lia | discriminate].
Defined.

Example extract_monthly_data_in_january :
  Extractor.extract_monthly_data None None ex_january
  = Extractor.extract_monthly_data (Some 2024) (Some 12) ex_january /\
  Extractor.extract_monthly_data (Some 2025) None ex_january
  = Extractor.extract_monthly_data (Some 2025) (Some 12) ex_january.
Proof. split; reflexivity. Qed.

(** ** The api copies of the updates at their boundary *)

Lemma api_download_file_offline ds y m q w :
  net w = [] ->
  exists w', ApiMonthly.download_file ds y m q w = (inr None, w') /\
             net w' = [] /\ fs w' = fs w.
Proof.
  intros H. unfold ApiMonthly.download_file, quarter_filters.
  destruct (truthy_str q); [destruct (contains "-Q" (default "" q)); [|destruct (negb (truthy_Z y))]|];
    unfold logger_info, logger_error; msimp;
    try (eexists; split; [reflexivity|]; split; [exact H|reflexivity]);
    destruct (truthy_Z m && truthy_Z y); msimp;
    try (destruct (truthy_Z y && negb true)); try (destruct (truthy_Z y && negb false)); msimp;
    cbn [app];
    try (match goal with
         | |- context [initiate_and_poll ?a ?b ?c ?d ?e ?f ?w0] =>
             destruct (initiate_and_poll_offline a b c d e f w0 H) as (w' & -> & Hn & Hf);
             exists w'; split; [reflexivity|]; split; [exact Hn|exact Hf]
         end);
    try (eexists; split; [reflexivity|]; split; [exact H|reflexivity]).
Qed.

Lemma daily_download_file_offline ds y m q w :
  net w = [] ->
  exists w', Daily.download_file ds y m q w = (inr None, w') /\
             net w' = [] /\ fs w' = fs w.
Proof.
  intros H. unfold Daily.download_file, quarter_filters.
  destruct (truthy_str q); [destruct (contains "-Q" (default "" q)); [|destruct (negb (truthy_Z y))]|];
    unfold logger_info, logger_error, print; msimp;
    try (eexists; split; [reflexivity|]; split; [exact H|reflexivity]);
    destruct (truthy_Z m && truthy_Z y); msimp;
    cbn [app]; msimp;
    try (match goal with
         | |- context [initiate_and_poll ?a ?b ?c ?d ?e ?f ?w0] =>
             destruct (initiate_and_poll_offline a b c d e f w0 H) as (w' & -> & Hn & Hf);
             exists w'; split; [reflexivity|]; split; [exact Hn|exact Hf]
         end);
    try (eexists; split; [reflexivity|]; split; [exact H|reflexivity]).
Qed.

Lemma offline_fetch (dl : M (option DataFrame)) (f : option DataFrame -> M bool) :
  (forall w, net w = [] -> exists w', dl w = (inr None, w') /\ net w' = [] /\ fs w' = fs w) ->
  offline_false (f None) -> offline_false (dl ≫= f).
Proof.
  intros Hd Hf w Hw. destruct (Hd w Hw) as (w' & E & Hn & _).
  rewrite (bind_inr _ _ _ _ _ E). apply Hf. exact Hn.
Qed.

Lemma api_properties_update_atomic year month w :
  exists b w',
    ApiMonthly.update_latest_properties_dataset year month w = (inr b, w') /\
    (b = false -> fs w' !! ApiMonthly.PROPERTIES_FILE = fs w !! ApiMonthly.PROPERTIES_FILE).
Proof.
  unfold ApiMonthly.update_latest_properties_dataset.
  apply atomic_try.
  apply atomic_bind_keeps; [keeps_tac|intros ex].
  apply (atomic_bind _ (fun o : option DataFrame => forall df, o = Some df -> all_dumpable df)).
  { destruct ex.
    - apply keeps_bind; [keeps_tac|intros].
      apply keeps_bind; [keeps_tac|intros j].
      apply (yields_bind (fun df => all_dumpable df)).
      + apply yields_lift. intros df. apply DataFrame_of_json_dumpable.
      + intros df Hdf. apply keeps_bind; [keeps_tac|intros].
        apply yields_ret. intros df' [= <-]. exact Hdf.
    - apply yields_ret. intros df [=]. }
  intros existing Hex.
  apply atomic_bind_keeps; [keeps_tac|intros].
  apply atomic_bind_keeps; [keeps_tac|intros [new|]].
  2:{ apply atomic_keeps. keeps_tac. }
  destruct (len new =? 0)%nat.
  { apply atomic_keeps. keeps_tac. }
  apply atomic_bind_keeps; [keeps_tac|intros].
  apply (atomic_bind _ well_formed); [apply yields_enrich_properties_data|].
  intros new' Hwf.
  apply (atomic_bind _ dump_safe); [apply combine_properties_dump_safe; assumption|].
  intros [n c] Hs. apply properties_writes_atomic. exact Hs.
Qed.

Lemma api_aggprices_update_atomic year month w :
  exists b w',
    ApiMonthly.update_latest_aggprices_dataset year month w = (inr b, w') /\
    (b = false ->
     fs w' !! ApiMonthly.LATEST_AGGPRICES_FILE = fs w !! ApiMonthly.LATEST_AGGPRICES_FILE).
Proof.
  unfold ApiMonthly.update_latest_aggprices_dataset.
  apply atomic_try. atomic_tac.
Qed.

Lemma daily_prices_update_atomic year month w :
  exists b w',
    Daily.update_latest_prices_dataset year month w = (inr b, w') /\
    (b = false -> fs w' !! Daily.LATEST_PRICES_FILE = fs w !! Daily.LATEST_PRICES_FILE).
Proof.
  unfold Daily.update_latest_prices_dataset.
  destruct (year <? 2017).
  { eexists _, _. split; [reflexivity|]. reflexivity. }
  destruct (Daily.get_dataset_id_for_period year) as [ds|].
  2:{ eexists _, _. split; [reflexivity|]. reflexivity. }
  apply atomic_try. atomic_tac.
Qed.

Lemma api_properties_update_offline year month w :
  net w = [] ->
  (ApiMonthly.update_latest_properties_dataset year month w).1 = inr false.
Proof.
  unfold ApiMonthly.update_latest_properties_dataset. apply offline_try.
  apply (offline_bind (fun _ => True)); [keeps_tac|intros ex _].
  apply (offline_bind (fun _ => True)); [keeps_tac|intros existing _].
  apply (offline_bind (fun _ => True)); [keeps_tac|intros _ _].
  apply offline_fetch; [apply api_download_file_offline|]. apply offline_keeps_false.
Qed.

Lemma api_aggprices_update_offline year month w :
  net w = [] ->
  (ApiMonthly.update_latest_aggprices_dataset year month w).1 = inr false.
Proof.
  unfold ApiMonthly.update_latest_aggprices_dataset. apply offline_try.
  apply offline_fetch; [apply api_download_file_offline|]. apply offline_keeps_false.
Qed.

Lemma daily_prices_update_offline year month w :
  net w = [] ->
  (Daily.update_latest_prices_dataset year month w).1 = inr false.
Proof.
  unfold Daily.update_latest_prices_dataset.
  destruct (year <? 2017); [reflexivity|].
  destruct (Daily.get_dataset_id_for_period year) as [ds|]; [|reflexivity].
  apply offline_try.
  apply offline_fetch; [apply daily_download_file_offline|]. apply offline_keeps_false.
Qed.

(** X8.  The updates of the two api modules behave at their boundary as
    those of the root module: in every world each one returns a boolean
    and raises nothing; when it returns [False] its store file is as it
    was before the call; with the network down it returns [False]. *)
Theorem api_updates_return_a_boolean_and_leave_the_store_on_failure
    (year month : Z) (w : World) :
  (exists b w',
      ApiMonthly.update_latest_properties_dataset year month w = (inr b, w') /\
      (b = false -> fs w' !! ApiMonthly.PROPERTIES_FILE = fs w !! ApiMonthly.PROPERTIES_FILE) /\
      (net w = [] -> b = false)) /\
  (exists b w',
      ApiMonthly.update_latest_aggprices_dataset year month w = (inr b, w') /\
      (b = false ->
       fs w' !! ApiMonthly.LATEST_AGGPRICES_FILE = fs w !! ApiMonthly.LATEST_AGGPRICES_FILE) /\
      (net w = [] -> b = false)) /\
  (exists b w',
      Daily.update_latest_prices_dataset year month w = (inr b, w') /\
      (b = false -> fs w' !! Daily.LATEST_PRICES_FILE = fs w !! Daily.LATEST_PRICES_FILE) /\
      (net w = [] -> b = false)).
Proof.
  split; [|split].
  - destruct (api_properties_update_atomic year month w) as (b & w' & E & H).
    exists b, w'. split; [exact E|]. split; [exact H|].
    intros Hn. pose proof (api_properties_update_offline year month w Hn) as Ho.
    rewrite E in Ho. cbn in Ho. congruence.
  - destruct (api_aggprices_update_atomic year month w) as (b & w' & E & H).
    exists b, w'. split; [exact E|]. split; [exact H|].
    intros Hn. pose proof (api_aggprices_update_offline year month w Hn) as Ho.
    rewrite E in Ho. cbn in Ho. congruence.
  - destruct (daily_prices_update_atomic year month w) as (b & w' & E & H).
    exists b, w'. split; [exact E|]. split; [exact H|].
    intros Hn. pose proof (daily_prices_update_offline year month w Hn) as Ho.
    rewrite E in Ho. cbn in Ho. congruence.
Qed.

Lemma api_updates_return_a_boolean_and_leave_the_store_on_failure_witness :
  exists w',
    Daily.update_latest_prices_dataset 2024 3 ex_offline_with_store = (inr false, w') /\
    fs w' !! Daily.LATEST_PRICES_FILE = Some (FCsv ex_prices_batch).
Proof.
  destruct (api_updates_return_a_boolean_and_leave_the_store_on_failure
              2024 3 ex_offline_with_store) as (_ & _ & (b & w' & E & Hs & Hf)).
  pose proof (Hf eq_refl) as Hb. exists w'. split.
  - rewrite E, Hb. reflexivity.
  - rewrite (Hs Hb). vm_compute. reflexivity.
Defined.

(** ** The files an update may write *)

Lemma touches_keeps {A} (paths : list string) (m : M A) :
  keeps_files m -> touches_only paths m.
Proof. intros H w p _ _. rewrite (proj1 (H w)). reflexivity. Qed.

Lemma touches_bind {A B} (paths : list string) (m : M A) (f : A -> M B) :
  touches_only paths m -> (forall x, touches_only paths (f x)) ->
  touches_only paths (m ≫= f).
Proof.
  intros Hm Hf w p Hl Hp. unfold mbind, M_bind. specialize (Hm w p Hl Hp).
  destruct (m w) as [[e|x] w1]; cbn [fst snd] in *; [exact Hm|].
  rewrite (Hf x w1 p Hl Hp). exact Hm.
Qed.

Lemma touches_try {A} (paths : list string) (body : M A) (h : Exn -> M A) :
  touches_only paths body -> (forall e, touches_only paths (h e)) ->
  touches_only paths (try_except body h).
Proof.
  intros Hm Hf w p Hl Hp. unfold try_except. specialize (Hm w p Hl Hp).
  destruct (body w) as [[e|x] w1]; cbn [fst snd] in *; [|exact Hm].
  rewrite (Hf e w1 p Hl Hp). exact Hm.
Qed.

Lemma touches_write_file (paths : list string) (path : string) (f : File) :
  path ∈ paths -> touches_only paths (write_file path f).
Proof.
  intros Hin w p _ Hp. cbn. apply lookup_insert_ne. intros ->. contradiction.
Qed.

Lemma touches_to_csv (paths : list string) (df : DataFrame) (path : string) :
  path ∈ paths -> touches_only paths (to_csv df path).
Proof. apply touches_write_file. Qed.

Lemma touches_json_dump (paths : list string) (j : Json) (path : string) :
  path ∈ paths -> touches_only paths (json_dump j path).
Proof. apply touches_write_file. Qed.

Lemma touches_json_dump_records (paths : list string) (df : DataFrame) (path : string) :
  path ∈ paths -> touches_only paths (json_dump_records df path).
Proof.
  intros Hin. unfold json_dump_records. destruct (records_json df).
  - apply touches_bind; [apply touches_write_file; exact Hin|intros].
    apply touches_keeps. keeps_tac.
  - apply touches_write_file. exact Hin.
Qed.

Lemma touches_ret_bind {A B} (paths : list string) (x : A) (f : A -> M B) :
  touches_only paths (f x) -> touches_only paths (mret x ≫= f).
Proof. intros H w. exact (H w). Qed.

Lemma touches_more {A} (paths paths' : list string) (m : M A) :
  paths ⊆ paths' -> touches_only paths m -> touches_only paths' m.
Proof. intros Hs H w p Hl Hp. apply H; [exact Hl|]. intros Hin. apply Hp, Hs, Hin. Qed.

Ltac in_paths := solve [repeat first [apply list_elem_of_here | apply list_elem_of_further]].

Ltac touches_tac :=
  repeat match goal with
    | |- touches_only _ (mbind _ (to_csv _ _)) =>
        apply touches_bind; [apply touches_to_csv; in_paths|intros]
    | |- touches_only _ (mbind _ (json_dump _ _)) =>
        apply touches_bind; [apply touches_json_dump; in_paths|intros]
    | |- touches_only _ (mbind _ (json_dump_records _ _)) =>
        apply touches_bind; [apply touches_json_dump_records; in_paths|intros]
    | |- touches_only _ (mbind _ ?m) =>
        apply touches_bind; [apply touches_keeps; solve [keeps_tac]|intros]
    | |- touches_only _ (try_except _ _) => apply touches_try; [|intros]
    | |- touches_only _ (mret _) => apply touches_keeps; keeps_tac
    | |- touches_only _ (if ?b then _ else _) => destruct b
    | |- touches_only _ (match ?x with _ => _ end) => destruct x
    end.

Lemma keeps_enrich_properties_data df : keeps_files (Extractor.enrich_properties_data df).
Proof. eapply yields_weaken; [|apply yields_enrich_properties_data]. auto. Qed.

Lemma keeps_combine_properties existing new :
  keeps_files (Extractor.combine_properties existing new).
Proof. unfold Extractor.combine_properties. keeps_tac. Qed.

#[export] Hint Resolve keeps_enrich_properties_data keeps_combine_properties : keeps_db.

Lemma touches_update_properties year month :
  touches_only PROPERTIES_FILES (Extractor.update_latest_properties_dataset year month).
Proof. unfold Extractor.update_latest_properties_dataset, PROPERTIES_FILES. touches_tac. Qed.

Lemma touches_update_prices year month :
  touches_only PRICES_FILES (Extractor.update_latest_prices_dataset year month).
Proof. unfold Extractor.update_latest_prices_dataset, PRICES_FILES. touches_tac. Qed.

Lemma touches_update_aggprices year month :
  touches_only AGGPRICES_FILES (Extractor.update_latest_aggprices_dataset year month).
Proof. unfold Extractor.update_latest_aggprices_dataset, AGGPRICES_FILES. touches_tac. Qed.



(** ** What a successful update leaves on disk *)

Lemma on_true_bind {A} (Q : World -> Prop) (m : M A) (f : A -> M bool) :
  (forall x, on_true Q (f x)) -> on_true Q (m ≫= f).
Proof.
  intros Hf w. unfold mbind, M_bind. destruct (m w) as [[e|x] w1]; cbn [fst snd].
  - discriminate.
  - apply Hf.
Qed.

Lemma on_true_try (Q : World -> Prop) (body : M bool) (h : Exn -> M bool) :
  on_true Q body -> (forall e, on_true Q (h e)) -> on_true Q (try_except body h).
Proof.
  intros Hb Hh w. unfold try_except. specialize (Hb w).
  destruct (body w) as [[e|x] w1]; cbn [fst snd] in *.
  - apply Hh.
  - exact Hb.
Qed.

Lemma on_true_false (Q : World -> Prop) : on_true Q (mret false).
Proof. intros w. cbn. discriminate. Qed.

Lemma len_csv_of (df : DataFrame) : len (csv_of df) = len df.
Proof. unfold len, csv_of. cbn [rows]. apply length_fmap. Qed.

(** The last steps of the two CSV updates. *)
Lemma csv_store_written (store meta label msg : string) (combined_df : DataFrame) :
  store <> meta ->
  on_true (csv_store_counted store meta label)
    (to_csv combined_df store;;
     logger_info msg;;
     t ← datetime_now;
     json_dump (metadata t label (len combined_df)) meta;;
     mret true).
Proof.
  intros Hne w _.
  unfold to_csv, json_dump, write_file, logger_info, emit, datetime_now, mbind, M_bind.
  unfold csv_store_counted, mret, M_ret. cbn [fst snd fs now net trace].
  exists (csv_of combined_df), (now w). split.
  - rewrite lookup_insert_ne by (intros E; apply Hne; symmetry; exact E).
    apply lookup_insert_eq.
  - rewrite len_csv_of. apply lookup_insert_eq.
Qed.

Ltac on_true_tac :=
  repeat match goal with
    | |- on_true _ (mbind _ (to_csv _ _)) => fail 1
    | |- on_true _ (mbind _ (json_dump_records _ _)) => fail 1
    | |- on_true _ (mbind _ _) => apply on_true_bind; intros
    | |- on_true _ (try_except _ _) => apply on_true_try; [|intros]
    | |- on_true _ (mret false) => apply on_true_false
    | |- on_true _ (if ?b then _ else _) => destruct b
    | |- on_true _ (match ?x with _ => _ end) => destruct x
    end.

Lemma records_json_array (df : DataFrame) (j : Json) :
  records_json df = inr j -> exists recs, j = JArr recs /\ length recs = len df.
Proof.
  unfold records_json. destruct (mapM _ (rows df)) as [e|recs] eqn:Hm; [discriminate|].
  cbn [mbind Res_bind]. intros [= <-]. exists recs. split; [reflexivity|].
  apply (mapM_length _ _ _ Hm).
Qed.

Lemma metadata_is_not_the_store :
  Extractor.PROPERTIES_FILE <> path_join DATA_DIR "properties_metadata.json" /\
  Extractor.LATEST_PRICES_FILE <> path_join DATA_DIR "prices_latest_metadata.json" /\
  Extractor.LATEST_AGGPRICES_FILE <> path_join DATA_DIR "agg_prices_latest_metadata.json".
Proof. vm_compute. repeat split; discriminate. Qed.

Lemma properties_update_counted (year month : Z) :
  on_true
    (json_store_counted Extractor.PROPERTIES_FILE
       (path_join DATA_DIR "properties_metadata.json") (str_Z year +:+ "-" +:+ fmt_02d month))
    (Extractor.update_latest_properties_dataset year month).
Proof.
  destruct metadata_is_not_the_store as (Hp & _ & _).
  unfold Extractor.update_latest_properties_dataset. on_true_tac.
  match goal with
  | |- on_true _ (json_dump_records ?n _ ≫= fun _ => json_dump_records ?c _ ≫= _) =>
      intros w; unfold json_dump_records;
      destruct (records_json n) as [e|j1];
      [|destruct (records_json c) as [e|j2] eqn:Hj]
  end;
    unfold json_store_counted, json_dump, write_file, logger_info, emit, datetime_now,
      raise, mbind, M_bind, mret, M_ret;
    cbn [fst snd fs now net trace]; intros H; try discriminate H.
  destruct (records_json_array _ _ Hj) as (recs & -> & Hlen).
  exists recs, (now w). split.
  - rewrite lookup_insert_ne by (intros E; apply Hp; symmetry; exact E).
    apply lookup_insert_eq.
  - rewrite Hlen. apply lookup_insert_eq.
Qed.

Lemma prices_update_counted (year month : Z) :
  on_true
    (csv_store_counted Extractor.LATEST_PRICES_FILE
       (path_join DATA_DIR "prices_latest_metadata.json") (str_Z year +:+ "-" +:+ fmt_02d month))
    (Extractor.update_latest_prices_dataset year month).
Proof.
  destruct metadata_is_not_the_store as (_ & Hc & _).
  unfold Extractor.update_latest_prices_dataset. on_true_tac.
  all: try (intros w0; cbn; discriminate).
  all: apply csv_store_written; exact Hc.
Qed.

Lemma aggprices_update_counted (year month : Z) :
  on_true
    (csv_store_counted Extractor.LATEST_AGGPRICES_FILE
       (path_join DATA_DIR "agg_prices_latest_metadata.json")
       (str_Z year +:+ "-" +:+ "Q" +:+ str_Z ((month - 1) `div` 3 + 1)))
    (Extractor.update_latest_aggprices_dataset year month).
Proof.
  destruct metadata_is_not_the_store as (_ & _ & Ha).
  unfold Extractor.update_latest_aggprices_dataset. on_true_tac.
  all: try (intros w0; cbn; discriminate).
  all: apply csv_store_written; exact Ha.
Qed.

(** X10.  After an update that returned [True], the store file of its
    dataset holds a frame (a list of records, for the buildings) and the
    metadata file next to it names the period asked for and carries, as
    [record_count], the number of rows that the store holds. *)
Theorem successful_update_counts_the_rows_it_stored (year month : Z) (w : World) :
  let period := str_Z year +:+ "-" +:+ fmt_02d month in
  let quarter := str_Z year +:+ "-" +:+ "Q" +:+ str_Z ((month - 1) `div` 3 + 1) in
  ((Extractor.update_latest_properties_dataset year month w).1 = inr true ->
   json_store_counted Extractor.PROPERTIES_FILE
     (path_join DATA_DIR "properties_metadata.json") period
     (Extractor.update_latest_properties_dataset year month w).2) /\
  ((Extractor.update_latest_prices_dataset year month w).1 = inr true ->
   csv_store_counted Extractor.LATEST_PRICES_FILE
     (path_join DATA_DIR "prices_latest_metadata.json") period
     (Extractor.update_latest_prices_dataset year month w).2) /\
  ((Extractor.update_latest_aggprices_dataset year month w).1 = inr true ->
   csv_store_counted Extractor.LATEST_AGGPRICES_FILE
     (path_join DATA_DIR "agg_prices_latest_metadata.json") quarter
     (Extractor.update_latest_aggprices_dataset year month w).2).
Proof.
  cbv zeta. split; [|split].
  - apply properties_update_counted.
  - apply prices_update_counted.
  - apply aggprices_update_counted.
Qed.

Lemma successful_update_counts_the_rows_it_stored_witness :
  json_store_counted Extractor.PROPERTIES_FILE
    (path_join DATA_DIR "properties_metadata.json") "2024-03"
    (Extractor.update_latest_properties_dataset 2024 3 (ex_empty_store ex_blocks_net)).2 /\
  csv_store_counted Extractor.LATEST_PRICES_FILE
    (path_join DATA_DIR "prices_latest_metadata.json") "2024-03"
    (Extractor.update_latest_prices_dataset 2024 3 (ex_empty_store ex_prices_net)).2 /\
  csv_store_counted Extractor.LATEST_AGGPRICES_FILE
    (path_join DATA_DIR "agg_prices_latest_metadata.json") "2024-Q1"
    (Extractor.update_latest_aggprices_dataset 2024 1 ex_agg_world).2.
Proof.
  split; [|split].
  - apply (proj1 (successful_update_counts_the_rows_it_stored
                    2024 3 (ex_empty_store ex_blocks_net))).
    vm_compute. reflexivity.
  - apply (proj1 (proj2 (successful_update_counts_the_rows_it_stored
                           2024 3 (ex_empty_store ex_prices_net)))).
    vm_compute. reflexivity.
  - apply (proj2 (proj2 (successful_update_counts_the_rows_it_stored 2024 1 ex_agg_world))).
    vm_compute. reflexivity.
Defined.


(** ** The enriched batch of buildings *)

Lemma enriched_record_shape (d r : Dict) :
  Extractor.enriched_record d = inr r -> enriched_dict r.
Proof.
  unfold Extractor.enriched_record.
  destruct (Extractor.tagging d) as [e|tag]; [discriminate|]. cbn [mbind Res_bind].
  destruct (dict_getitem d "latitude") as [e|x]; [discriminate|]. cbn [mbind Res_bind].
  destruct (float x) as [e|lat]; [discriminate|]. cbn [mbind Res_bind].
  destruct (dict_getitem d "longitude") as [e|y]; [discriminate|]. cbn [mbind Res_bind].
  destruct (float y) as [e|lon]; [discriminate|]. cbn [mbind Res_bind].
  destruct (dict_getitem d "bldg_contract_town") as [e|code]; [discriminate|].
  cbn [mbind Res_bind].
  destruct (Extractor.legend_getitem code) as [e|town] eqn:Ht; [discriminate|].
  cbn [mbind Res_bind].
  destruct (dict_getitem d "address") as [e|a]; [discriminate|]. cbn [mbind Res_bind].
  destruct (dict_getitem d "street") as [e|s]; [discriminate|]. cbn [mbind Res_bind].
  destruct (dict_getitem d "year_completed") as [e|yr]; [discriminate|]. cbn [mbind Res_bind].
  destruct (dict_getitem d "max_floor_lvl") as [e|fl]; [discriminate|]. cbn [mbind Res_bind].
  intros [= <-].
  unfold Extractor.legend_getitem in Ht.
  destruct code as [[c|q|b|dd|j]|]; try discriminate.
  destruct (Extractor.legend !! c) as [t|] eqn:Hl; [|discriminate]. injection Ht as <-.
  unfold enriched_dict. exists (VStr <$> tag), lat, lon, c, t. eauto 10.
Qed.

Lemma enriched_records_shape (bc : list (nat * option Dict)) (data : list Dict) :
  Extractor.enriched_records bc = inr data ->
  Forall enriched_dict data /\ (length data <= length bc)%nat.
Proof.
  revert data. induction bc as [|[i [[|kv d]|]] bc IH]; intros data H;
    cbn [Extractor.enriched_records] in H.
  - injection H as <-. split; [constructor|reflexivity].
  - destruct (IH data H). split; [assumption|cbn; lia].
  - destruct (Extractor.enriched_record (kv :: d)) as [e|r] eqn:Hr; [discriminate|].
    cbn [mbind Res_bind] in H.
    destruct (Extractor.enriched_records bc) as [e|rs]; [discriminate|].
    cbn [mbind Res_bind] in H. injection H as <-.
    destruct (IH rs eq_refl) as [Hf Hl]. split.
    + constructor; [eapply enriched_record_shape; exact Hr|exact Hf].
    + cbn. lia.
  - destruct (IH data H). split; [assumption|cbn; lia].
Qed.

Lemma union_keys_enriched (ds : list Dict) :
  Forall enriched_dict ds -> union_keys enriched_columns ds = enriched_columns.
Proof.
  induction 1 as [|d ds Hd _ IH]; [reflexivity|].
  destruct Hd as (tag & lat & lon & code & town & a & s & u & y & f & _ & ->).
  cbn [union_keys]. exact IH.
Qed.

Lemma enriched_row_of_dict (d : Dict) : enriched_dict d -> enriched_row (row_of_dict d).
Proof.
  intros (tag & lat & lon & code & town & a & s & u & y & f & Hl & ->).
  unfold row_of_dict. cbn [foldl fst snd].
  repeat split.
  - exists lat. rewrite !set_cell_lookup_ne by discriminate. apply set_cell_lookup.
  - exists lon. rewrite !set_cell_lookup_ne by discriminate. apply set_cell_lookup.
  - exists code, town. split; [exact Hl|].
    rewrite !set_cell_lookup_ne by discriminate. apply set_cell_lookup.
Qed.

Lemma enriched_frame (data : list Dict) (n : nat) :
  Forall enriched_dict data -> (length data <= n)%nat ->
  enriched_batch n (DataFrame_of_dicts data).
Proof.
  intros Hf Hl. unfold enriched_batch, DataFrame_of_dicts, len. cbn [rows columns].
  split; [rewrite length_fmap; exact Hl|]. split.
  - destruct data as [|d ds]; [left; reflexivity|]. right. split; [discriminate|].
    inversion Hf as [|? ? Hd Hds]; subst.
    destruct Hd as (tag & lat & lon & code & town & a & s & u & y & f & _ & ->).
    cbn [union_keys]. apply (union_keys_enriched ds Hds).
  - intros r Hr. apply list_elem_of_fmap in Hr as (d & -> & Hd).
    apply enriched_row_of_dict. rewrite Forall_forall in Hf. apply Hf. exact Hd.
Qed.

Lemma bc_set_length i v bc : (length (Extractor.bc_set i v bc) <= S (length bc))%nat.
Proof.
  induction bc as [|[k x] bc IH]; cbn; [lia|]. destruct (k =? i)%nat; cbn; lia.
Qed.

Ltac yields_walk leaf :=
  repeat match goal with
    | |- yields _ (mbind _ _) => apply keeps_bind; [solve [keeps_tac]|intros]
    | |- yields _ (mret _) => apply yields_ret; leaf
    | |- yields _ (if ?b then _ else _) => destruct b
    | |- yields _ (match ?x with _ => _ end) => destruct x
    end.

Lemma geocode_row_length cols i j bc :
  yields (fun bc' => (length bc' <= S (length bc))%nat) (Extractor.geocode_row cols i j bc).
Proof.
  unfold Extractor.geocode_row.
  yields_walk ltac:(first [apply bc_set_length | lia]).
Qed.

Lemma geocode_rows_length cols rs :
  forall bc, yields (fun bc' => (length bc' <= length bc + length rs)%nat)
                    (Extractor.geocode_rows cols rs bc).
Proof.
  induction rs as [|[i j] rs IH]; intros bc; cbn [Extractor.geocode_rows].
  - apply yields_ret. lia.
  - eapply yields_bind; [apply geocode_row_length|]. intros bc1 H1. cbv beta in H1.
    eapply yields_weaken; [|apply IH]. intros bc2 H2. cbv beta in H2. cbn [length]. lia.
Qed.



Example enriched_blocks_row :
  map_to_list <$> rows ex_enriched_blocks
  = [map_to_list
       (row_of [("tag", VStr "Residential"); ("lat", VNum (13321 # 10000));
                ("lon", VNum (129921 # 1250)); ("town", VStr "BEDOK");
                ("address", VStr "101 BEDOK NORTH AVENUE 1 SINGAPORE 460101");
                ("street", VStr "BEDOK NTH AVE 1"); ("total_units", VNum 120);
                ("year", VNum 1978); ("max_floor_lvl", VNum 12)])].
Proof. vm_compute. reflexivity. Qed.

(** ** Tagging a block that lacks some flags *)

Lemma dict_getitem_cases (d : Dict) (k : string) :
  (assoc_first k d = None /\ dict_getitem d k = inl (KeyError k)) \/
  (exists v, assoc_first k d = Some v /\ dict_getitem d k = inr v).
Proof.
  unfold dict_getitem. destruct (assoc_first k d) as [v|]; [right; eauto|left; auto].
Qed.

Ltac tag_case d k :=
  destruct (dict_getitem_cases d k) as [[Hnone ->]|(? & ? & ->)];
  cbn [mbind Res_bind];
  [|match goal with |- context [cell_is_str "Y" ?v] => destruct (cell_is_str "Y" v) end].

(** X12.  [tagging] reads the flags in priority order and stops at the
    first one equal to "Y": a block whose [residential] flag is "Y" is
    tagged whatever else it lacks.  It raises only [KeyError], for a flag
    that the block does not have, and a tag it returns is one of the five
    category names. *)
Theorem tagging_reads_flags_until_one_is_set (d : Dict) :
  (flag_set d "residential" = true -> Extractor.tagging d = inr (Some "Residential")) /\
  (forall e, Extractor.tagging d = inl e ->
     exists k, e = KeyError k /\ k ∈ (fst <$> tag_priority) /\ assoc_first k d = None) /\
  (forall t, Extractor.tagging d = inr (Some t) -> t ∈ (snd <$> tag_priority)).
Proof.
  split; [|split].
  - unfold flag_set, Extractor.tagging, dict_getitem.
    destruct (assoc_first "residential" d) as [v|]; cbn; [|discriminate].
    intros ->. reflexivity.
  - intros e. unfold Extractor.tagging.
    tag_case d "residential"; [intros [= <-]; eexists; split; [reflexivity|split; [|exact Hnone]]|discriminate|].
    { cbn. set_solver. }
    tag_case d "commercial"; [intros [= <-]; eexists; split; [reflexivity|split; [|exact Hnone]]|discriminate|].
    { cbn. set_solver. }
    tag_case d "market_hawker"; [intros [= <-]; eexists; split; [reflexivity|split; [|exact Hnone]]|discriminate|].
    { cbn. set_solver. }
    tag_case d "miscellaneous"; [intros [= <-]; eexists; split; [reflexivity|split; [|exact Hnone]]|discriminate|].
    { cbn. set_solver. }
    tag_case d "multistorey_carpark"; [intros [= <-]; eexists; split; [reflexivity|split; [|exact Hnone]]|discriminate|].
    { cbn. set_solver. }
    tag_case d "precinct_pavilion"; [intros [= <-]; eexists; split; [reflexivity|split; [|exact Hnone]]|discriminate|discriminate].
    cbn. set_solver.
  - intros t. unfold Extractor.tagging.
    tag_case d "residential"; [discriminate|intros [= <-]; cbn; set_solver|].
    tag_case d "commercial"; [discriminate|intros [= <-]; cbn; set_solver|].
    tag_case d "market_hawker"; [discriminate|intros [= <-]; cbn; set_solver|].
    tag_case d "miscellaneous"; [discriminate|intros [= <-]; cbn; set_solver|].
    tag_case d "multistorey_carpark"; [discriminate|intros [= <-]; cbn; set_solver|].
    tag_case d "precinct_pavilion"; [discriminate|intros [= <-]; cbn; set_solver|discriminate].
Qed.

Lemma tagging_reads_flags_until_one_is_set_witness :
  Extractor.tagging [("residential", Some (VStr "Y"))] = inr (Some "Residential").
Proof.
  apply (proj1 (tagging_reads_flags_until_one_is_set [("residential", Some (VStr "Y"))])).
  reflexivity.
Defined.

Example tagging_missing_flag :
  Extractor.tagging [("residential", Some (VStr "N"))] = inl (KeyError "commercial").
Proof. reflexivity. Qed.

(** ** Range reads on any store *)

Lemma keeps_load_segment path lo hi : keeps_files (App.load_segment path lo hi).
Proof. unfold App.load_segment. keeps_tac. Qed.

Lemma has_col_csv_of c df : has_col c (csv_of df) = has_col c df.
Proof. reflexivity. Qed.

Lemma load_segment_in_range path lo hi w df w' :
  all_dated w ->
  App.load_segment path lo hi w = (inr df, w') ->
  rows_in_range lo hi df.
Proof.
  intros Hall. destruct (fs w !! path) as [[j|s|]|] eqn:Hf.
  1,3,4: unfold App.load_segment, logger_info, read_csv; msimp; unfold read_file at 1;
    unfold mbind at 1, M_bind at 1; cbn [fs]; rewrite Hf; cbn; discriminate.
  destruct (to_datetime_col "date" (csv_of s)) as [e|d] eqn:Hd.
  - unfold App.load_segment, logger_info, read_csv. msimp. unfold read_file at 1.
    erewrite bind_inr by (cbn [fs]; rewrite Hf; reflexivity).
    cbv beta iota. msimp. rewrite has_col_csv_of, (Hall _ _ Hf).
    assert (Hc : exists cells, col (csv_of s) "date" = inr cells).
    { unfold col. rewrite has_col_csv_of, (Hall _ _ Hf). eauto. }
    destruct Hc as [cells Hc]. rewrite Hc. msimp.
    rewrite (csv_cells_no_dates _ _ _ Hc). cbn [negb]. rewrite Hd.
    rewrite bind_lift. discriminate.
  - destruct (load_segment_spec path s d lo hi w Hf Hd) as (w1 & E & _ & _).
    rewrite E. intros [= <- _] r Hr. cbn [rows] in Hr.
    apply list_elem_of_In, filter_In in Hr as [_ Hr]. exact Hr.
Qed.

Lemma load_segments_in_range lo hi (files : list string) :
  forall (acc : list DataFrame) (w : World),
    all_dated w -> Forall (rows_in_range lo hi) acc ->
    exists dfs w',
      App.load_segments files lo hi acc w = (inr dfs, w') /\
      fs w' = fs w /\ Forall (rows_in_range lo hi) dfs.
Proof.
  induction files as [|path files IH]; intros acc w Hall Hacc; cbn [App.load_segments].
  - exists acc, w. repeat split. exact Hacc.
  - unfold exists_ at 1. unfold mbind at 1, M_bind at 1.
    destruct (bool_decide (is_Some (fs w !! path))).
    + pose proof (proj1 (keeps_load_segment path lo hi w)) as Hk.
      destruct (App.load_segment path lo hi w) as [[e|df] w1] eqn:El; cbn [fst snd] in Hk.
      * erewrite (bind_inr (try_except _ _)).
        2:{ unfold try_except. rewrite (bind_inl _ _ _ _ _ El).
            unfold logger_error. rewrite bind_emit. reflexivity. }
        match goal with
        | |- context [App.load_segments _ _ _ _ ?w2] =>
            destruct (IH acc w2) as (dfs & w' & E & F & P)
        end.
        { intros p df0 H0. cbn [fs] in H0. rewrite Hk in H0. eapply Hall. exact H0. }
        { exact Hacc. }
        exists dfs, w'. split; [exact E|]. split; [rewrite F; exact Hk|exact P].
      * erewrite (bind_inr (try_except _ _)).
        2:{ unfold try_except. rewrite (bind_inr _ _ _ _ _ El). reflexivity. }
        destruct (IH (acc ++ [df]) w1) as (dfs & w' & E & F & P).
        { intros p df0 H0. rewrite Hk in H0. eapply Hall. exact H0. }
        { apply Forall_app. split; [exact Hacc|]. constructor; [|constructor].
          eapply load_segment_in_range; eassumption. }
        exists dfs, w'. split; [exact E|]. split; [rewrite F; exact Hk|exact P].
    + unfold logger_warning. rewrite bind_assoc, bind_emit, bind_ret.
      match goal with
      | |- context [App.load_segments _ _ _ _ ?w2] =>
          destruct (IH acc w2) as (dfs & w' & E & F & P)
      end; [exact Hall|exact Hacc|].
      exists dfs, w'. split; [exact E|]. split; [exact F|exact P].
Qed.

Lemma rows_foldl_concat lo hi (dfs : list DataFrame) :
  forall df, rows_in_range lo hi df -> Forall (rows_in_range lo hi) dfs ->
             rows_in_range lo hi (foldl concat df dfs).
Proof.
  induction dfs as [|d dfs IH]; intros df Hdf Hall; cbn [foldl]; [exact Hdf|].
  inversion Hall as [|? ? Hd Hds]; subst. apply IH; [|exact Hds].
  intros r Hr. unfold concat in Hr. cbn [rows] in Hr.
  apply elem_of_app in Hr as [Hr|Hr]; [apply Hdf|apply Hd]; exact Hr.
Qed.

Lemma segments_to_load_total (start_year end_year : Z) :
  exists files, App.segments_to_load start_year end_year = inr files.
Proof.
  unfold App.segments_to_load, App.segment. cbn.
  destruct (start_year <=? 1999); cbn;
    destruct ((start_year <=? 2012) && (2000 <=? end_year)); cbn;
    destruct ((start_year <=? 2014) && (2012 <=? end_year)); cbn;
    destruct ((start_year <=? 2016) && (2015 <=? end_year)); cbn;
    destruct (2017 <=? end_year); eauto.
Qed.



(** ** Extraction over a span of months *)

Lemma bind_ext {A B} (m : M A) (f g : A -> M B) (w : World) :
  (forall x w', f x w' = g x w') -> (m ≫= f) w = (m ≫= g) w.
Proof.
  intros H. unfold mbind, M_bind. destruct (m w) as [[e|x] w1]; [reflexivity|apply H].
Qed.

Lemma date_leb_firsts (y m y' m' : Z) :
  1 <= m <= 12 -> 1 <= m' <= 12 ->
  date_leb (mkDate y m 1) (mkDate y' m' 1) = bool_decide (12 * y + m <= 12 * y' + m').
Proof.
  intros Hm Hm'. unfold date_leb. cbn [dt_year dt_month dt_day].
  destruct (decide (12 * y + m <= 12 * y' + m')) as [H|H].
  - rewrite bool_decide_eq_true_2 by exact H.
    destruct (Z.ltb_spec y y'); [reflexivity|]. cbn [orb].
    destruct (Z.eqb_spec y y'); [|lia]. cbn [andb].
    destruct (Z.ltb_spec m m'); [reflexivity|]. cbn [orb].
    destruct (Z.eqb_spec m m'); [reflexivity|lia].
  - rewrite bool_decide_eq_false_2 by exact H.
    destruct (Z.ltb_spec y y'); [lia|]. cbn [orb].
    destruct (Z.eqb_spec y y'); [|reflexivity]. cbn [andb].
    destruct (Z.ltb_spec m m'); [lia|]. cbn [orb].
    destruct (Z.eqb_spec m m'); [lia|reflexivity].
Qed.

Lemma datetime_first (y m : Z) :
  1 <= y <= 9999 -> 1 <= m <= 12 -> datetime_ y m 1 = inr (mkDate y m 1).
Proof.
  intros Hy Hm. unfold datetime_.
  rewrite (valid_first_of_month y m Hm).
  destruct (Z.leb_spec 1 y); [|lia]. destruct (Z.leb_spec y 9999); [|lia]. reflexivity.
Qed.

Lemma months_loop_visits (extract : Z -> Z -> M bool) (ey em : Z) :
  1 <= em <= 12 -> ey <= 9998 ->
  forall (n : nat) (y m : Z) (w : World),
    1 <= y -> 1 <= m <= 12 ->
    12 * y + m + Z.of_nat n = 12 * ey + em + 1 ->
    months_loop extract n (mkDate y m 1) (mkDate ey em 1) w
    = (extract_each extract (month_seq y m n);; mret true) w.
Proof.
  intros Hem Hey. induction n as [|n IH]; intros y m w Hy Hm Hn.
  - cbn [months_loop month_seq extract_each].
    rewrite date_leb_firsts by assumption. rewrite bool_decide_eq_false_2 by lia.
    reflexivity.
  - cbn [months_loop month_seq extract_each].
    rewrite date_leb_firsts by assumption. rewrite bool_decide_eq_true_2 by lia.
    cbn [dt_year dt_month].
    rewrite (bind_assoc (print _) _ _ w). apply bind_ext. intros _ w1.
    rewrite (bind_assoc (extract y m) _ _ w1). apply bind_ext. intros _ w2.
    destruct (Z.eqb_spec m 12) as [->|Hne].
    + cbv beta iota. rewrite datetime_first by lia.
      exact (IH (y + 1) 1 w2 ltac:(lia) ltac:(lia) ltac:(lia)).
    + cbv beta iota. rewrite datetime_first by lia.
      exact (IH y (m + 1) w2 ltac:(lia) ltac:(lia) ltac:(lia)).
Qed.

Lemma month_seq_length (n : nat) : forall y m, length (month_seq y m n) = n.
Proof.
  induction n as [|n IH]; intros y m; cbn [month_seq length]; [reflexivity|].
  destruct (m =? 12); rewrite IH; reflexivity.
Qed.

Lemma month_seq_lookup (n : nat) :
  forall (y m : Z) (i : nat),
    1 <= m <= 12 -> (i < n)%nat ->
    exists y' m', month_seq y m n !! i = Some (y', m') /\
                  12 * y' + m' = 12 * y + m + Z.of_nat i /\ 1 <= m' <= 12.
Proof.
  induction n as [|n IH]; intros y m i Hm Hi; [lia|].
  cbn [month_seq]. destruct i as [|i].
  - exists y, m. cbn. split; [reflexivity|lia].
  - cbn [lookup list_lookup].
    destruct (Z.eqb_spec m 12) as [->|Hne].
    + destruct (IH (y + 1) 1 i ltac:(lia) ltac:(lia)) as (y' & m' & E & Hs & Hb).
      exists y', m'. split; [exact E|lia].
    + destruct (IH y (m + 1) i ltac:(lia) ltac:(lia)) as (y' & m' & E & Hs & Hb).
      exists y', m'. split; [exact E|lia].
Qed.

Lemma extract_multiple_months_with_spec (extract : Z -> Z -> M bool)
    (sy sm ey em : Z) (w : World) :
  1 <= sy -> ey <= 9998 -> 1 <= sm <= 12 -> 1 <= em <= 12 ->
  (12 * sy + sm <= 12 * ey + em ->
   extract_multiple_months_with extract sy sm ey em w
   = (extract_each extract
        (month_seq sy sm (Z.to_nat (12 * (ey - sy) + (em - sm) + 1)));;
      print "Completed extracting data from {start_year}-{start_month:02d} to {end_year}-{end_month:02d}";;
      mret true) w) /\
  (12 * ey + em < 12 * sy + sm -> 1 <= ey ->
   extract_multiple_months_with extract sy sm ey em w = (inl ValueError, w)).
Proof.
  intros Hsy Hey Hsm Hem. split.
  - intros Hle. unfold extract_multiple_months_with.
    rewrite !datetime_first by lia. msimp.
    unfold date_gtb. rewrite date_leb_firsts by assumption.
    rewrite bool_decide_eq_true_2 by exact Hle. cbn [negb].
    unfold months_between. cbn [dt_year dt_month].
    pose proof (months_loop_visits extract ey em Hem Hey
                  (Z.to_nat (12 * (ey - sy) + (em - sm) + 1)) sy sm w Hsy Hsm ltac:(lia))
      as Hloop.
    destruct (extract_each extract
                (month_seq sy sm (Z.to_nat (12 * (ey - sy) + (em - sm) + 1))) w)
      as [[e|[]] w1] eqn:E.
    + rewrite (bind_inl _ _ _ _ _ E) in Hloop.
      rewrite (bind_inl _ _ _ _ _ Hloop), (bind_inl _ _ _ _ _ E). reflexivity.
    + rewrite (bind_inr _ _ _ _ _ E) in Hloop.
      rewrite (bind_inr _ _ _ _ _ Hloop), (bind_inr _ _ _ _ _ E). reflexivity.
  - intros Hgt Hey1. unfold extract_multiple_months_with.
    rewrite (datetime_first ey em) by lia.
    destruct (Z.leb_spec sy 9999) as [Hs|Hs].
    + rewrite (datetime_first sy sm) by lia. msimp.
      unfold date_gtb. rewrite date_leb_firsts by assumption.
      rewrite bool_decide_eq_false_2 by lia. reflexivity.
    + unfold datetime_ at 1. destruct (Z.leb_spec sy 9999); [lia|].
      rewrite andb_false_r. reflexivity.
Qed.

Lemma total_extract_each (extract : Z -> Z -> M bool) (l : list (Z * Z)) :
  (forall y m, total (extract y m)) -> total (extract_each extract l).
Proof.
  intros H. induction l as [|[y m] l IH]; cbn [extract_each]; total_tac; auto.
Qed.

Lemma total_extract_monthly_data year month :
  total (Extractor.extract_monthly_data year month).
Proof.
  intros w. destruct (extract_monthly_data_always_true year month w) as (b & w' & E & _).
  exists b, w'. split; [exact E|exact I].
Qed.

Lemma total_run year month : total (ApiMonthly.run year month).
Proof.
  intros w. destruct (run_always_true year month w) as (b & w' & E & _).
  exists b, w'. split; [exact E|exact I].
Qed.

Lemma span_returns (extract : Z -> Z -> M bool) (l : list (Z * Z)) (msg : string) (w : World) :
  (forall y m, total (extract y m)) ->
  exists w', (extract_each extract l;; print msg;; mret true) w = (inr true, w').
Proof.
  intros H. destruct (total_extract_each extract l H w) as ([] & w1 & E & _).
  rewrite (bind_inr _ _ _ _ _ E). eexists. reflexivity.
Qed.

(** X15.  For a span that starts no later than it ends,
    [extract_multiple_months] runs one extraction per calendar month, from
    the start month to the end month inclusive and in that order, then
    returns: the loop ends by its own test.  For a span that starts after
    it ends it raises [ValueError] before anything is extracted.  Both
    copies of the function behave so, each around its own extraction. *)
Theorem extract_multiple_months_visits_each_month (sy sm ey em : Z) (w : World) :
  1 <= sy -> ey <= 9998 -> 1 <= sm <= 12 -> 1 <= em <= 12 ->
  let n := Z.to_nat (12 * (ey - sy) + (em - sm) + 1) in
  let months := month_seq sy sm n in
  let completed :=
    "Completed extracting data from {start_year}-{start_month:02d} to {end_year}-{end_month:02d}" in
  let root y m := Extractor.extract_monthly_data (Some y) (Some m) in
  let api y m := ApiMonthly.run (Some y) (Some m) in
  (12 * sy + sm <= 12 * ey + em ->
   ExtractorSpan.extract_multiple_months sy sm ey em w
   = (extract_each root months;; print completed;; mret true) w /\
   ApiMonthlySpan.extract_multiple_months sy sm ey em w
   = (extract_each api months;; print completed;; mret true) w /\
   (exists w', ExtractorSpan.extract_multiple_months sy sm ey em w = (inr true, w')) /\
   (exists w', ApiMonthlySpan.extract_multiple_months sy sm ey em w = (inr true, w')) /\
   length months = n /\
   forall i, (i < n)%nat ->
     exists y m, months !! i = Some (y, m) /\
                 12 * y + m = 12 * sy + sm + Z.of_nat i /\ 1 <= m <= 12) /\
  (12 * ey + em < 12 * sy + sm -> 1 <= ey ->
   ExtractorSpan.extract_multiple_months sy sm ey em w = (inl ValueError, w) /\
   ApiMonthlySpan.extract_multiple_months sy sm ey em w = (inl ValueError, w)).
Proof.
  intros Hsy Hey Hsm Hem. cbv zeta.
  unfold ExtractorSpan.extract_multiple_months, ApiMonthlySpan.extract_multiple_months.
  pose proof (extract_multiple_months_with_spec
                (fun y m => Extractor.extract_monthly_data (Some y) (Some m))
                sy sm ey em w Hsy Hey Hsm Hem) as [R1 R2].
  pose proof (extract_multiple_months_with_spec
                (fun y m => ApiMonthly.run (Some y) (Some m))
                sy sm ey em w Hsy Hey Hsm Hem) as [A1 A2].
  split.
  - intros Hle. specialize (R1 Hle). specialize (A1 Hle).
    split; [exact R1|]. split; [exact A1|].
    split.
    { rewrite R1. apply span_returns. intros y m. apply total_extract_monthly_data. }
    split.
    { rewrite A1. apply span_returns. intros y m. apply total_run. }
    split; [apply month_seq_length|].
    intros i Hi. apply month_seq_lookup; assumption.
  - intros Hgt Hey1. split; [apply R2|apply A2]; assumption.
Qed.

Lemma extract_multiple_months_visits_each_month_witness :
  ExtractorSpan.extract_multiple_months 2023 11 2024 2 ex_offline
  = (extract_each (fun y m => Extractor.extract_monthly_data (Some y) (Some m))
       [(2023, 11); (2023, 12); (2024, 1); (2024, 2)];;
     print "Completed extracting data from {start_year}-{start_month:02d} to {end_year}-{end_month:02d}";;
     mret true) ex_offline.
Proof.
  apply (proj1 (extract_multiple_months_visits_each_month 2023 11 2024 2 ex_offline
                  ltac:(lia) ltac:(lia) ltac:(lia) ltac:(lia))).
  lia.
Defined.

Example extract_multiple_months_rejects_a_reversed_span :
  ExtractorSpan.extract_multiple_months 2024 3 2024 2 ex_offline = (inl ValueError, ex_offline).
Proof. reflexivity. Qed.

(** ** The scheduled endpoint *)

(** X16.  The scheduled handler answers 200 with the completion message
    in every world: the extraction it starts reports no failure, so the
    500 branch is never taken, even when the network is down and nothing
    was stored. *)
Theorem do_GET_always_answers_200 (w : World) :
  (exists w', Scheduled.do_GET w = (inr (200, "Monthly data extraction completed."), w')) /\
  (Scheduled.do_GET ex_offline).1 = inr (200, "Monthly data extraction completed.") /\
  map_to_list (fs (Scheduled.do_GET ex_offline).2) = [].
Proof.
  split.
  - unfold Scheduled.do_GET, try_except.
    destruct (run_always_true None None w) as (b & w' & E & _).
    rewrite (bind_inr _ _ _ _ _ E). eexists. reflexivity.
  - vm_compute. split; reflexivity.
Qed.

(** ** The aggregated-prices endpoint *)

Lemma assoc_first_fmap {A} (f : string -> A) (k : string) (cols : list string) :
  assoc_first k ((fun c => (c, f c)) <$> cols)
  = if bool_decide (k ∈ cols) then Some (f k) else None.
Proof.
  induction cols as [|c cols IH]; cbn; [reflexivity|].
  destruct (String.eqb_spec c k) as [->|Hne].
  - rewrite bool_decide_eq_true_2 by apply list_elem_of_here. reflexivity.
  - rewrite IH. destruct (decide (k ∈ cols)) as [Hin|Hout].
    + rewrite (bool_decide_eq_true_2 _ Hin).
      rewrite bool_decide_eq_true_2 by (apply list_elem_of_further; exact Hin). reflexivity.
    + rewrite (bool_decide_eq_false_2 _ Hout).
      rewrite bool_decide_eq_false_2; [reflexivity|].
      intros H. apply elem_of_cons in H as [H|H]; [apply Hne; symmetry; exact H|exact (Hout H)].
Qed.

Lemma json_field_fmap (f : string -> Json) (k : string) (cols : list string) :
  json_field k ((fun c => (c, f c)) <$> cols)
  = if bool_decide (k ∈ cols) then Some (f k) else None.
Proof.
  unfold json_field. rewrite <- fmap_reverse, assoc_first_fmap.
  destruct (decide (k ∈ cols)) as [Hin|Hout].
  - rewrite (bool_decide_eq_true_2 _ Hin).
    rewrite bool_decide_eq_true_2 by (apply elem_of_reverse; exact Hin). reflexivity.
  - rewrite (bool_decide_eq_false_2 _ Hout).
    rewrite bool_decide_eq_false_2; [reflexivity|].
    intros H. rewrite elem_of_reverse in H. exact (Hout H).
Qed.

Lemma to_numeric_coerce_cases (c : option Value) :
  to_numeric_coerce c = None \/ exists q, to_numeric_coerce c = Some (VNum q).
Proof. unfold to_numeric_coerce. destruct (float c); eauto. Qed.

Lemma served_price (c : string) (vals : list (option Value)) (df : DataFrame) :
  Forall (fun v => v = None \/ exists q, v = Some (VNum q)) vals ->
  c = "price" ->
  match to_json (set_col c vals df) with
  | JArr recs => Forall price_is_number_or_null recs
  | _ => False
  end.
Proof.
  intros Hv ->. unfold to_json. apply Forall_fmap, Forall_forall. intros r Hr.
  unfold price_is_number_or_null, getitem. cbn [Basics.compose]. 
  rewrite (json_field_fmap (fun c => iso_cell (r !! c))).
  rewrite bool_decide_eq_true_2.
  2:{ pose proof (has_col_set_col "price" vals df) as H.
      apply bool_decide_eq_true in H. exact H. }
  unfold set_col in Hr. cbn [rows] in Hr.
  apply elem_of_zip_with in Hr as (r0 & v & -> & _ & Hin).
  rewrite set_cell_lookup. rewrite Forall_forall in Hv.
  destruct (Hv v Hin) as [->|[q ->]]; cbn; eauto.
Qed.



Example agg_prices_placeholder_is_served_as_null :
  (Views.get_agg_prices_local ex_agg_placeholder).1
  = inr (App.Prices
           (JArr [JObj [("quarter", JStr "2023-Q4"); ("town", JStr "BEDOK");
                        ("flat_type", JStr "4 ROOM"); ("price", JNum 470000)];
                  JObj [("quarter", JStr "2024-Q1"); ("town", JStr "BEDOK");
                        ("flat_type", JStr "1 ROOM"); ("price", JNull)]])
           None).
Proof. vm_compute. reflexivity. Qed.

(** ** Endpoints on a store without segments *)

Lemma segments_to_load_known (start_year end_year : Z) (files : list string) :
  App.segments_to_load start_year end_year = inr files ->
  forall p, p ∈ files -> p ∈ (snd <$> App.PRICES_SEGMENTS).
Proof.
  unfold App.segments_to_load, App.segment. cbn.
  destruct (start_year <=? 1999); cbn;
    destruct ((start_year <=? 2012) && (2000 <=? end_year)); cbn;
    destruct ((start_year <=? 2014) && (2012 <=? end_year)); cbn;
    destruct ((start_year <=? 2016) && (2015 <=? end_year)); cbn;
    destruct (2017 <=? end_year); cbn; intros [= <-] p Hp;
    apply list_elem_of_In in Hp; cbn in Hp;
    repeat (destruct Hp as [<-|Hp]; [apply (bool_decide_eq_true_1 _); reflexivity|]);
    contradiction.
Qed.

Lemma load_segments_none lo hi (files : list string) :
  forall (acc : list DataFrame) (w : World),
    (forall p, p ∈ files -> fs w !! p = None) ->
    exists w', App.load_segments files lo hi acc w = (inr acc, w') /\ fs w' = fs w.
Proof.
  induction files as [|path files IH]; intros acc w Hnone; cbn [App.load_segments].
  - exists w. split; reflexivity.
  - unfold exists_ at 1. unfold mbind at 1, M_bind at 1.
    rewrite (Hnone path) by apply list_elem_of_here.
    rewrite bool_decide_eq_false_2 by (intros [x Hx]; discriminate Hx).
    unfold logger_warning. rewrite bind_assoc, bind_emit, bind_ret.
    match goal with
    | |- context [App.load_segments _ _ _ _ ?w2] =>
        destruct (IH acc w2) as (w' & E & F)
    end.
    { intros p Hp. cbn [fs]. apply Hnone. apply list_elem_of_further. exact Hp. }
    exists w'. split; [exact E|exact F].
Qed.

Lemma load_prices_no_segment (start_date end_date : string) (lo hi : Date) (w : World) :
  App.parse_start start_date = inr lo -> App.parse_end end_date = inr hi ->
  no_segment w ->
  exists w', App.load_prices_data_for_period start_date end_date w = (inr df_empty, w').
Proof.
  intros Hs He Hno. unfold App.load_prices_data_for_period.
  rewrite Hs, He. msimp. unfold logger_info. msimp.
  destruct (segments_to_load_total (dt_year lo) (dt_year hi)) as [files Hfiles].
  rewrite Hfiles. msimp.
  match goal with
  | |- context [(App.load_segments ?fl _ _ _ ≫= _) ?w0] =>
      destruct (load_segments_none lo hi fl [] w0) as (w1 & E & F)
  end.
  { intros p Hp. cbn [fs]. apply Hno. eapply segments_to_load_known; eassumption. }
  rewrite (bind_inr _ _ _ _ _ E). unfold logger_warning. msimp.
  eexists. reflexivity.
Qed.



(** ** The default range of the address endpoint *)

Lemma length_year_month (ys ms : string) :
  String.length ys = 4%nat -> String.length ms = 2%nat ->
  String.length (ys +:+ "-" +:+ ms) = 7%nat /\
  (ys +:+ "-" +:+ ms) +:+ "-01" = ys +:+ "-" +:+ ms +:+ "-" +:+ "01".
Proof. intros Ly Lm. four_chars ys Ly. two_chars ms Lm. split; reflexivity. Qed.

Lemma strftime_ym_reads_back (d : Date) :
  1600 <= dt_year d < 2300 -> 1 <= dt_month d <= 12 ->
  to_datetime (strftime_ym d) = inr (mkDate (dt_year d) (dt_month d) 1) /\
  String.length (strftime_ym d) = 7%nat.
Proof.
  intros Hy Hm. unfold strftime_ym.
  destruct (fmt_04d_reads_back _ Hy) as [Ly Py].
  destruct (fmt_02d_reads_back (dt_month d) ltac:(lia)) as [Lm Pm].
  rewrite (to_datetime_ym _ _ _ _ Ly Py Lm Pm).
  unfold check_date. rewrite valid_first_of_month by lia. split; [reflexivity|].
  apply (length_year_month _ _ Ly Lm).
Qed.

(** X18.  Without [start_date] and [end_date], [/api/agg_address_prices]
    behaves as if asked for the range from the month six months before the
    clock's month to the clock's month; the bounds of that range are the
    first day of the former and the last day of the latter. *)
Theorem address_prices_default_range (args : gmap string string) (w : World) :
  args !! "start_date" = None -> args !! "end_date" = None ->
  1679 <= dt_year (now w) <= 2261 -> 1 <= dt_month (now w) <= 12 ->
  let y := dt_year (now w) in
  let m := dt_month (now w) in
  exists y' m',
    12 * y' + m' = 12 * y + m - 6 /\ 1 <= m' <= 12 /\
    let start_date := str_Z y' +:+ "-" +:+ fmt_02d m' in
    let end_date := strftime_ym (now w) in
    App.parse_start start_date = inr (mkDate y' m' 1) /\
    App.parse_end end_date = inr (mkDate y m (days_in_month y m)) /\
    Views.get_address_prices_local args w
    = Views.get_address_prices_local
        (<["start_date" := start_date]> (<["end_date" := end_date]> args)) w.
Proof.
  intros Hs He Hy Hm y m. subst y m.
  set (y := dt_year (now w)) in *. set (m := dt_month (now w)) in *.
  exists (if m - 6 <=? 0 then y - 1 else y), (if m - 6 <=? 0 then m - 6 + 12 else m - 6).
  assert (Hd : Views.default_start_date (now w)
               = str_Z (if m - 6 <=? 0 then y - 1 else y) +:+ "-"
                 +:+ fmt_02d (if m - 6 <=? 0 then m - 6 + 12 else m - 6)).
  { unfold Views.default_start_date. fold y m. destruct (m - 6 <=? 0); reflexivity. }
  split; [destruct (Z.leb_spec (m - 6) 0); lia|].
  split; [destruct (Z.leb_spec (m - 6) 0); lia|].
  cbv zeta. split; [|split].
  - set (y' := if m - 6 <=? 0 then y - 1 else y).
    set (m' := if m - 6 <=? 0 then m - 6 + 12 else m - 6).
    assert (Hy' : 1600 <= y' < 2300) by (subst y'; destruct (m - 6 <=? 0); lia).
    assert (Hm' : 1 <= m' <= 12) by (subst m'; destruct (Z.leb_spec (m - 6) 0); lia).
    destruct (str_Z_reads_back y' Hy') as [Ly Py].
    destruct (fmt_02d_reads_back m' ltac:(lia)) as [Lm Pm].
    unfold App.parse_start.
    destruct (length_year_month _ _ Ly Lm) as [L7 Happ].
    rewrite L7. cbn [Nat.eqb]. rewrite Happ.
    rewrite (to_datetime_ymd _ _ "01" y' m' 1 Ly Py Lm Pm eq_refl eq_refl).
    unfold check_date. rewrite valid_first_of_month by lia. reflexivity.
  - destruct (strftime_ym_reads_back (now w) ltac:(fold y; lia) ltac:(fold m; lia)) as [Hp L7].
    unfold App.parse_end. rewrite L7. cbn [Nat.eqb]. rewrite Hp. reflexivity.
  - unfold Views.get_address_prices_local.
    rewrite Hs, He, lookup_insert_eq, lookup_insert_ne by discriminate.
    rewrite lookup_insert_eq. cbn [default]. unfold try_except.
    unfold datetime_now at 1 2. unfold mbind at 1, M_bind at 1.
    symmetry. unfold mbind at 1, M_bind at 1. symmetry.
    cbv beta iota. rewrite Hd. reflexivity.
Qed.

Lemma address_prices_default_range_witness :
  exists y' m',
    12 * y' + m' = 12 * 2024 + 4 - 6 /\ 1 <= m' <= 12 /\
    App.parse_start (str_Z y' +:+ "-" +:+ fmt_02d m') = inr (mkDate y' m' 1) /\
    App.parse_end (strftime_ym ex_today) = inr (mkDate 2024 4 30) /\
    Views.get_address_prices_local ∅ ex_served
    = Views.get_address_prices_local
        (<["start_date" := str_Z y' +:+ "-" +:+ fmt_02d m']>
           (<["end_date" := strftime_ym ex_today]> ∅)) ex_served.
Proof.
  apply (address_prices_default_range ∅ ex_served);
    first [apply lookup_empty | cbn; lia].
Defined.

Example address_prices_default_start_in_april :
  Views.default_start_date ex_today = "2023-10".
Proof. vm_compute. reflexivity. Qed.


(** ** From the store of buildings to the endpoint *)

(** X20.  After an update of the buildings that returned [True],
    [/api/properties] serves the list of records that the update stored,
    and that list has as many records as the metadata file counts; when
    the store is missing the answer is the 500 reply. *)
Theorem stored_buildings_are_what_the_api_serves (year month : Z) (w : World) :
  let w' := (Extractor.update_latest_properties_dataset year month w).2 in
  ((Extractor.update_latest_properties_dataset year month w).1 = inr true ->
   exists recs t,
     (Views.get_properties_local w').1 = inr (Views.Ok "properties" (JArr recs)) /\
     fs w' !! path_join DATA_DIR "properties_metadata.json"
     = Some (FJson (metadata t (str_Z year +:+ "-" +:+ fmt_02d month) (length recs)))) /\
  (fs w !! Extractor.PROPERTIES_FILE = None ->
   (Views.get_properties_local w).1 = inr (Views.ServerError OSError)).
Proof.
  cbv zeta. split.
  - intros Ht.
    destruct (properties_update_counted year month w Ht) as (recs & t & Hs & Hm).
    exists recs, t. split; [|exact Hm].
    unfold Views.get_properties_local, try_except, json_load. msimp.
    unfold read_file at 1.
    erewrite bind_inr by (cbn [fs]; rewrite Hs; reflexivity).
    reflexivity.
  - intros Hf. unfold Views.get_properties_local, try_except, json_load. msimp.
    unfold read_file at 1.
    erewrite bind_inl by (cbn [fs]; rewrite Hf; reflexivity).
    reflexivity.
Qed.

Lemma stored_buildings_are_what_the_api_serves_witness :
  exists recs t,
    (Views.get_properties_local
       (Extractor.update_latest_properties_dataset 2024 3 (ex_empty_store ex_blocks_net)).2).1
    = inr (Views.Ok "properties" (JArr recs)) /\
    fs (Extractor.update_latest_properties_dataset 2024 3 (ex_empty_store ex_blocks_net)).2
      !! path_join DATA_DIR "properties_metadata.json"
    = Some (FJson (metadata t "2024-03" (length recs))).
Proof.
  apply (proj1 (stored_buildings_are_what_the_api_serves 2024 3 (ex_empty_store ex_blocks_net))).
  vm_compute. reflexivity.
Defined.

(** ** Replace-by-month in the daily copy *)

Lemma latest_dataset (year : Z) :
  2017 <= year -> Extractor.get_dataset_id_for_period year = Some LATEST_DATASET.
Proof.
  intros H. unfold Extractor.get_dataset_id_for_period.
  destruct (Z.leb_spec year 1999); [lia|]. rewrite andb_false_r.
  destruct (Z.leb_spec year 2012); [lia|]. rewrite andb_false_r.
  destruct (Z.leb_spec year 2014); [lia|]. rewrite andb_false_r.
  destruct (Z.leb_spec year 2016); [lia|]. rewrite andb_false_r.
  destruct (Z.leb_spec 2017 year); [reflexivity|lia].
Qed.

Lemma dt_strftime_dates (cells : list (option Value)) :
  Forall date_or_missing cells -> Daily.dt_strftime cells = inr (render_date <$> cells).
Proof.
  unfold Daily.dt_strftime.
  induction 1 as [|c cells Hc _ IH]; cbn; [reflexivity|].
  rewrite IH. destruct Hc as [->|[d ->]]; reflexivity.
Qed.

Lemma set_col_fmap (c : string) (f : option Value -> option Value) (df : DataFrame) :
  has_col c df = true ->
  set_col c (f <$> ((fun r : Row => r !! c) <$> rows df)) df
  = mkDF (columns df) ((fun r : Row => set_cell c (f (r !! c)) r) <$> rows df).
Proof.
  intros H. unfold set_col. rewrite H. f_equal.
  induction (rows df) as [|r rs IH]; cbn; [reflexivity|]. rewrite IH. reflexivity.
Qed.

Lemma select_not (f : option Value -> bool) c (df : DataFrame) :
  select (negb <$> (f <$> ((fun r : Row => r !! c) <$> rows df))) df
  = mkDF (columns df) (List.filter (fun r : Row => negb (f (r !! c))) (rows df)).
Proof.
  unfold select. f_equal.
  induction (rows df) as [|r rs IH]; cbn; [reflexivity|].
  destruct (f (r !! c)); cbn; rewrite IH; reflexivity.
Qed.

Lemma dated_rows (df d : DataFrame) :
  to_datetime_col "date" df = inr d ->
  columns d = columns df /\ all_dates d.
Proof.
  intros H. pose proof H as H'. unfold to_datetime_col in H.
  destruct (col df "date") as [e|cells] eqn:Hc; [discriminate|]. cbn [mbind Res_bind] in H.
  destruct (mapM to_datetime_cell cells) as [e|dates] eqn:Hd; [discriminate|].
  cbn [mbind Res_bind] in H. injection H as <-.
  assert (Hh : has_col "date" df = true).
  { unfold col in Hc. destruct (has_col "date" df); [reflexivity|discriminate]. }
  split.
  - unfold set_col. rewrite Hh. reflexivity.
  - intros r Hr. unfold set_col in Hr. cbn [rows] in Hr.
    apply elem_of_zip_with in Hr as (r0 & v & -> & _ & Hv).
    rewrite set_cell_lookup.
    assert (HF : Forall date_or_missing dates).
    { eapply mapM_Forall; [|exact Hd]. intros x y. apply to_datetime_cell_date. }
    rewrite Forall_forall in HF. apply HF, Hv.
Qed.

Lemma all_dates_checked (df : DataFrame) :
  forallb (fun r : Row => match r !! "date" with
                          | None | Some (VDate _) => true
                          | _ => false
                          end) (rows df) = true ->
  all_dates df.
Proof.
  intros H r Hr. rewrite forallb_forall in H.
  specialize (H r (proj1 (list_elem_of_In _ _) Hr)).
  unfold date_or_missing. destruct (r !! "date") as [[]|]; try discriminate; eauto.
Qed.

Lemma daily_update_stores (year month : Z) (w w1 : World)
    (month_df batch existing dated : DataFrame) :
  2017 <= year <= 2261 -> 1 <= month <= 12 ->
  Daily.download_file LATEST_DATASET (Some year) (Some month) None w
  = (inr (Some month_df), w1) ->
  len month_df <> 0%nat ->
  Daily.enrich_prices_data month_df = inr batch ->
  all_dates batch ->
  fs w !! Daily.LATEST_PRICES_FILE = Some (FCsv existing) ->
  to_datetime_col "date" (csv_of existing) = inr dated ->
  exists w',
    Daily.update_latest_prices_dataset year month w = (inr true, w') /\
    fs w' !! Daily.LATEST_PRICES_FILE = Some (FCsv (month_replaced year month dated batch)).
Proof.
  intros Hy Hm Hdl Hlen Hen Hbatch Hf Hd.
  unfold Daily.update_latest_prices_dataset.
  destruct (Z.ltb_spec year 2017); [lia|].
  unfold Daily.get_dataset_id_for_period. rewrite latest_dataset by lia.
  unfold try_except.
  rewrite (bind_inr _ _ _ _ _ Hdl). cbv beta iota.
  destruct (Nat.eqb_spec (len month_df) 0); [contradiction|].
  rewrite Hen. msimp.
  assert (Hf1 : fs w1 !! Daily.LATEST_PRICES_FILE = Some (FCsv existing)).
  { pose proof (proj1 (keeps_daily_download_file LATEST_DATASET (Some year) (Some month) None w))
      as Hk. rewrite Hdl in Hk. cbn [snd] in Hk. rewrite Hk. exact Hf. }
  rewrite (bind_inr _ _ _ _ _ (exists_present _ _ _ Hf1)). cbv beta iota.
  unfold read_csv. msimp. unfold read_file at 1.
  erewrite bind_inr by (cbn [fs]; rewrite Hf1; reflexivity).
  cbv beta iota. msimp.
  destruct (to_datetime_col_spec _ _ _ (mkDate year month 1)
              (mkDate year month (days_in_month year month)) Hd)
    as (Hh & Hh' & cells & Hc & Hmask).
  rewrite Hh, Hc. msimp.
  rewrite (csv_cells_no_dates _ _ _ Hc). cbn [negb]. rewrite Hd. msimp.
  unfold logger_info. msimp.
  rewrite month_bounds_ok by lia. msimp.
  rewrite Hh', Hmask. msimp.
  destruct (dated_rows _ _ Hd) as [Hcols Hdates].
  set (lo := mkDate year month 1). set (hi := mkDate year month (days_in_month year month)).
  rewrite select_not.
  change (List.filter _ (rows dated)) with (List.filter (outside lo hi) (rows dated)).
  set (kept := mkDF (columns dated) (List.filter (outside lo hi) (rows dated))).
  assert (Hcc : has_col "date" (concat kept batch) = true).
  { unfold has_col, concat. cbn [columns]. apply bool_decide_eq_true.
    apply elem_of_app. left. apply bool_decide_eq_true in Hh'. exact Hh'. }
  unfold col at 1. rewrite Hcc. msimp.
  rewrite dt_strftime_dates.
  2:{ apply Forall_fmap, Forall_forall. intros r Hr. unfold concat in Hr. cbn [rows] in Hr.
      apply elem_of_app in Hr as [Hr|Hr].
      - subst kept. cbn [rows] in Hr. apply list_elem_of_In, filter_In in Hr as [Hr _].
        apply Hdates. apply list_elem_of_In. exact Hr.
      - apply Hbatch, Hr. }
  msimp. rewrite (set_col_fmap "date" render_date (concat kept batch) Hcc).
  unfold to_csv, json_dump, write_file, datetime_now. unfold mbind, M_bind, mret, M_ret.
  cbn [fst snd fs now net trace].
  eexists. split; [reflexivity|]. cbn [fs].
  rewrite lookup_insert_ne by (vm_compute; discriminate).
  rewrite lookup_insert_eq. reflexivity.
Qed.



Example daily_update_keeps_the_other_months :
  (fun r : Row => (r !! "date", r !! "price"))
    <$> rows (month_replaced 2024 3 (dated ex_daily_store) ex_daily_batch)
  = [(Some (VStr "2024-02-01"), Some (VNum 470000));
     (None, Some (VNum 460000));
     (Some (VStr "2024-03-01"), Some (VNum 500000))].
Proof. vm_compute. reflexivity. Qed.

Example daily_update_twice_is_once :
  stored_rows Daily.LATEST_PRICES_FILE
    (Daily.update_latest_prices_dataset 2024 3
       (refetch ex_prices_net
          (Daily.update_latest_prices_dataset 2024 3 ex_daily_world).2)).2
  = stored_rows Daily.LATEST_PRICES_FILE
      (Daily.update_latest_prices_dataset 2024 3 ex_daily_world).2.
Proof. vm_compute. reflexivity. Qed.

(** ** Running the daily update again *)

Lemma csv_cell_idem (v : Value) : csv_cell (csv_cell v) = csv_cell v.
Proof. destruct v; reflexivity. Qed.

Lemma csv_row_idem (r : Row) : csv_cell <$> (csv_cell <$> r) = csv_cell <$> r.
Proof.
  rewrite <- map_fmap_compose. apply map_fmap_ext. intros k v _. apply csv_cell_idem.
Qed.

Lemma csv_of_idem (df : DataFrame) : csv_of (csv_of df) = csv_of df.
Proof.
  unfold csv_of. cbn [columns rows]. f_equal.
  rewrite <- list_fmap_compose. apply list_fmap_ext. intros i r _. apply csv_row_idem.
Qed.

Lemma mapM_fmap {A B C} (f : B -> Res C) (g : A -> B) (h : A -> C) (l : list A) :
  (forall x, In x l -> f (g x) = inr (h x)) -> mapM f (g <$> l) = inr (h <$> l).
Proof.
  induction l as [|x l IH]; intros H; cbn; [reflexivity|].
  rewrite (H x (or_introl eq_refl)). cbn.
  rewrite IH by (intros; apply H; right; assumption). reflexivity.
Qed.

Lemma zip_with_fmap_same {A B C D} (f : B -> C -> D) (g : A -> B) (h : A -> C) (l : list A) :
  zip_with f (g <$> l) (h <$> l) = (fun x => f (g x) (h x)) <$> l.
Proof. induction l as [|x l IH]; cbn; [reflexivity|]. rewrite IH. reflexivity. Qed.

Lemma filter_fmap_same {A} (p : A -> bool) (f : A -> A) (l : list A) :
  (forall x, p (f x) = p x) -> List.filter p (f <$> l) = f <$> List.filter p l.
Proof.
  intros H. induction l as [|x l IH]; cbn; [reflexivity|].
  rewrite H. destruct (p x); cbn; rewrite IH; reflexivity.
Qed.

Lemma filter_none {A} (p : A -> bool) (l : list A) :
  (forall x, In x l -> p x = false) -> List.filter p l = [].
Proof.
  induction l as [|x l IH]; intros H; cbn; [reflexivity|].
  rewrite (H x (or_introl eq_refl)). apply IH. intros; apply H; right; assumption.
Qed.

Lemma to_datetime_valid (s : string) (d : Date) : to_datetime s = inr d -> valid_date d = true.
Proof.
  unfold to_datetime, check_date.
  repeat match goal with
    | |- context [match ?x with _ => _ end] => destruct x eqn:?; try discriminate
    | |- context [if ?x then _ else _] => destruct x eqn:?; try discriminate
    end; cbn [mbind Res_bind];
  repeat match goal with
    | |- context [option_res _ ?x] => destruct x; cbn [option_res mbind Res_bind];
                                      try discriminate
    end;
  match goal with
  | |- context [valid_date ?x] => destruct (valid_date x) eqn:Hv; try discriminate
  end; intros [= <-]; exact Hv.
Qed.

Lemma rendered_cell (r : Row) :
  (csv_cell <$> dated_as_text r) !! "date" = render_date (r !! "date").
Proof.
  rewrite lookup_fmap. unfold dated_as_text. rewrite set_cell_lookup.
  destruct (r !! "date") as [[]|]; reflexivity.
Qed.

Lemma read_back_date (r : Row) : read_back r !! "date" = r !! "date".
Proof. unfold read_back. apply set_cell_lookup. Qed.

Lemma stored_read_back (r : Row) :
  csv_cell <$> dated_as_text (read_back r) = csv_cell <$> dated_as_text r.
Proof.
  rewrite <- (csv_row_idem (dated_as_text r)). f_equal.
  unfold dated_as_text at 1. rewrite read_back_date. unfold read_back.
  apply map_eq. intros k. destruct (decide (k = "date")) as [->|Hk].
  - rewrite set_cell_lookup, rendered_cell. reflexivity.
  - rewrite !set_cell_lookup_ne by congruence. reflexivity.
Qed.

Lemma outside_read_back lo hi (r : Row) : outside lo hi (read_back r) = outside lo hi r.
Proof. unfold outside, in_range. rewrite read_back_date. reflexivity. Qed.

Lemma reparse_cell (c : option Value) :
  (forall d, c = Some (VDate d) -> valid_date d = true /\ 1600 <= dt_year d < 2300) ->
  date_or_missing c ->
  to_datetime_cell (render_date c) = inr c.
Proof.
  intros Hv [->|[d ->]]; [reflexivity|].
  destruct (Hv d eq_refl) as [V Y]. cbn [render_date to_datetime_cell].
  rewrite to_datetime_strftime_ymd by assumption. reflexivity.
Qed.

Lemma of_month_dates year month (batch : DataFrame) :
  1 <= month <= 12 -> of_month year month batch ->
  forall r, r ∈ rows batch ->
    exists d, r !! "date" = Some (VDate d) /\ valid_date d = true /\ dt_year d = year.
Proof.
  intros Hm H r Hr. specialize (H r Hr). unfold in_range in H.
  destruct (r !! "date") as [[s|q|b|d|j]|]; try discriminate.
  exists d. split; [reflexivity|].
  destruct (date_between_month _ _ _ _ H) as [Hy Hmo].
  split; [|exact Hy].
  destruct d as [yy mm dd]. cbn [dt_year dt_month] in Hy, Hmo. subst yy mm.
  apply andb_true_iff in H as [H1 H2]. unfold date_leb in H1, H2. unfold valid_date.
  cbn [dt_year dt_month dt_day] in *.
  rewrite !Z.ltb_irrefl, !Z.eqb_refl in H1, H2. cbn [orb andb] in H1, H2.
  rewrite H1, H2.
  destruct (Z.leb_spec 1 month); [|lia]. destruct (Z.leb_spec month 12); [|lia]. reflexivity.
Qed.

Lemma parsed_dates_valid (s d : DataFrame) :
  to_datetime_col "date" (csv_of s) = inr d ->
  forall r dd, r ∈ rows d -> r !! "date" = Some (VDate dd) -> valid_date dd = true.
Proof.
  intros H. unfold to_datetime_col in H.
  destruct (col (csv_of s) "date") as [e|cells] eqn:Hc; [discriminate|].
  cbn [mbind Res_bind] in H.
  destruct (mapM to_datetime_cell cells) as [e|dates] eqn:Hd; [discriminate|].
  cbn [mbind Res_bind] in H. injection H as <-.
  assert (HF : Forall (fun c => forall dd, c = Some (VDate dd) -> valid_date dd = true) dates).
  { unfold col in Hc. destruct (has_col "date" (csv_of s)); [|discriminate].
    injection Hc as <-. revert dates Hd. unfold csv_of. cbn [rows].
    induction (rows s) as [|r rs IH]; intros dates Hd; cbn in Hd.
    - injection Hd as <-. constructor.
    - destruct (to_datetime_cell ((csv_cell <$> r) !! "date")) as [e|y] eqn:Hx; [discriminate|].
      cbn in Hd.
      destruct (mapM to_datetime_cell _) as [e|ys] eqn:Hys; [discriminate|].
      cbn in Hd. injection Hd as <-. constructor; [|apply IH; reflexivity].
      intros dd ->. rewrite lookup_fmap in Hx.
      destruct (r !! "date") as [[x|q|b|d0|j]|]; cbn in Hx; try discriminate.
      + destruct (to_datetime x) as [e|d1] eqn:Ht; [discriminate|]. cbn in Hx.
        injection Hx as ->. eapply to_datetime_valid, Ht.
      + destruct (to_datetime (strftime_ymd d0)) as [e|d1] eqn:Ht; [discriminate|]. cbn in Hx.
        injection Hx as ->. eapply to_datetime_valid, Ht. }
  intros r dd Hr Hdd. unfold set_col in Hr. cbn [rows] in Hr.
  apply elem_of_zip_with in Hr as (r0 & v & -> & _ & Hv).
  rewrite set_cell_lookup in Hdd. rewrite Forall_forall in HF. exact (HF v Hv dd Hdd).
Qed.

Lemma month_replaced_reloads (year month : Z) (dated batch : DataFrame) :
  has_col "date" dated = true ->
  (forall r, r ∈ rows dated -> date_or_missing (r !! "date")) ->
  (forall r d, r ∈ rows dated \/ r ∈ rows batch -> r !! "date" = Some (VDate d) ->
     valid_date d = true /\ 1600 <= dt_year d < 2300) ->
  (forall r, r ∈ rows batch -> date_or_missing (r !! "date")) ->
  to_datetime_col "date" (csv_of (month_replaced year month dated batch))
  = inr (month_reloaded year month dated batch).
Proof.
  intros Hh Hd Hv Hb. unfold month_replaced. cbv zeta. rewrite csv_of_idem.
  set (lo := mkDate year month 1). set (hi := mkDate year month (days_in_month year month)).
  set (l := List.filter (outside lo hi) (rows dated) ++ rows batch).
  assert (Hc : forall rs, has_col "date" (mkDF (columns (concat dated batch)) rs) = true).
  { intros rs. unfold has_col, concat. cbn [columns]. apply bool_decide_eq_true.
    apply elem_of_app. left. apply bool_decide_eq_true in Hh. exact Hh. }
  unfold csv_of. cbn [rows columns]. rewrite <- list_fmap_compose.
  unfold to_datetime_col, col. rewrite Hc. cbn [mbind Res_bind rows].
  rewrite <- list_fmap_compose.
  rewrite (mapM_fmap to_datetime_cell _ (fun r : Row => r !! "date") l).
  2:{ intros r Hr. cbn [compose]. rewrite rendered_cell.
      assert (Hr' : r ∈ rows dated \/ r ∈ rows batch).
      { apply list_elem_of_In in Hr. subst l.
        apply elem_of_app in Hr as [Hr|Hr]; [left|right; exact Hr].
        apply list_elem_of_In, filter_In in Hr as [Hr _]. apply list_elem_of_In. exact Hr. }
      apply reparse_cell.
      - intros d Hd'. exact (Hv r d Hr' Hd').
      - destruct Hr' as [Hr'|Hr']; [apply Hd|apply Hb]; exact Hr'. }
  cbn [mbind Res_bind]. unfold set_col. rewrite Hc. cbn [rows columns].
  unfold month_reloaded. cbv zeta. fold lo hi l. f_equal. f_equal.
  rewrite (zip_with_fmap_same (fun (r : Row) v => set_cell "date" v r)
             ((fun r : Row => csv_cell <$> r) ∘ dated_as_text) (fun r : Row => r !! "date") l).
  reflexivity.
Qed.

Lemma concat_columns_again (a b : DataFrame) (rs : list Row) :
  columns (concat (mkDF (columns (concat a b)) rs) b) = columns (concat a b).
Proof.
  unfold concat. cbn [columns].
  set (C := columns a ++ List.filter _ (columns b)).
  rewrite (filter_none (fun c => negb (bool_decide (c ∈ C)))); [apply app_nil_r|].
  intros c Hc. apply negb_false_iff, bool_decide_eq_true. subst C.
  destruct (decide (c ∈ columns a)) as [Ha|Ha]; apply elem_of_app; [left; exact Ha|right].
  apply list_elem_of_In, filter_In. split; [exact Hc|].
  apply negb_true_iff, bool_decide_eq_false. exact Ha.
Qed.

Lemma month_replaced_again (year month : Z) (dated batch : DataFrame) :
  of_month year month batch ->
  month_replaced year month (month_reloaded year month dated batch) batch
  = month_replaced year month dated batch.
Proof.
  intros Hb. unfold month_replaced, month_reloaded. cbv zeta.
  set (lo := mkDate year month 1). set (hi := mkDate year month (days_in_month year month)).
  rewrite concat_columns_again. cbn [rows]. unfold csv_of. cbn [columns rows]. f_equal.
  rewrite (filter_fmap_same (outside lo hi) read_back) by apply outside_read_back.
  rewrite List.filter_app.
  rewrite (filter_all (outside lo hi) (List.filter (outside lo hi) (rows dated))).
  2:{ intros r Hr. apply filter_In in Hr as [_ Hr]. exact Hr. }
  rewrite (filter_none (outside lo hi) (rows batch)).
  2:{ intros r Hr. unfold outside. apply negb_false_iff. apply Hb, list_elem_of_In, Hr. }
  rewrite app_nil_r. rewrite !fmap_app. f_equal.
  rewrite <- !list_fmap_compose. apply list_fmap_ext. intros i r _. cbn [compose].
  apply stored_read_back.
Qed.

(** X21.  In the daily copy the update is idempotent on its own result:
    when the store holds what an update of the month left (the other
    months' rows of a store whose dates parse to Timestamp years, then the
    batch) and the service delivers the same batch of that month again,
    the update returns [True] and the stored prices file is the same as
    before. *)
Theorem daily_update_again_changes_nothing (year month : Z) (w w1 : World)
    (month_df batch stored dated : DataFrame) :
  2017 <= year <= 2261 -> 1 <= month <= 12 ->
  Daily.download_file LATEST_DATASET (Some year) (Some month) None w
  = (inr (Some month_df), w1) ->
  len month_df <> 0%nat ->
  Daily.enrich_prices_data month_df = inr batch ->
  of_month year month batch ->
  to_datetime_col "date" (csv_of stored) = inr dated ->
  timestamp_years dated ->
  fs w !! Daily.LATEST_PRICES_FILE = Some (FCsv (month_replaced year month dated batch)) ->
  exists w',
    Daily.update_latest_prices_dataset year month w = (inr true, w') /\
    fs w' !! Daily.LATEST_PRICES_FILE = fs w !! Daily.LATEST_PRICES_FILE.
Proof.
  intros Hy Hm Hdl Hlen Hen Hb Hd Hts Hf.
  destruct (dated_rows _ _ Hd) as [_ Hdates].
  destruct (to_datetime_col_spec _ _ _ (mkDate year month 1) (mkDate year month 1) Hd)
    as (_ & Hh & _).
  assert (Hbd : all_dates batch).
  { intros r Hr. destruct (of_month_dates _ _ _ Hm Hb r Hr) as (d & -> & _). right. eauto. }
  assert (Hre : to_datetime_col "date" (csv_of (month_replaced year month dated batch))
                = inr (month_reloaded year month dated batch)).
  { apply month_replaced_reloads; [exact Hh|exact Hdates| |exact Hbd].
    intros r d [Hr|Hr] Hc.
    - split; [exact (parsed_dates_valid _ _ Hd r d Hr Hc)|].
      specialize (Hts r d Hr Hc). lia.
    - destruct (of_month_dates _ _ _ Hm Hb r Hr) as (d' & Hc' & Hv & Hyr).
      rewrite Hc in Hc'. injection Hc' as <-. split; [exact Hv|lia]. }
  destruct (daily_update_stores year month w w1 month_df batch _ _ Hy Hm Hdl Hlen Hen Hbd Hf Hre)
    as (w' & Hrun & Hst).
  exists w'. split; [exact Hrun|].
  rewrite Hst, Hf, month_replaced_again by exact Hb. reflexivity.
Qed.

Lemma daily_update_again_changes_nothing_witness :
  exists w',
    Daily.update_latest_prices_dataset 2024 3 ex_daily_stored = (inr true, w') /\
    fs w' !! Daily.LATEST_PRICES_FILE = fs ex_daily_stored !! Daily.LATEST_PRICES_FILE.
Proof.
  apply (daily_update_again_changes_nothing 2024 3 ex_daily_stored
           (Daily.download_file LATEST_DATASET (Some 2024) (Some 3) None ex_daily_stored).2
           ex_daily_month_df ex_daily_batch ex_daily_store (dated ex_daily_store));
    [lia | lia | vm_compute; reflexivity | vm_compute; discriminate | vm_compute; reflexivity
    | | vm_compute; reflexivity | | vm_compute; reflexivity].
  - intros r Hr. apply list_elem_of_In in Hr.
    revert r Hr. apply forallb_forall. vm_compute. reflexivity.
  - intros r d Hr Hc. apply list_elem_of_In in Hr.
    assert (H : forallb (fun r : Row => match r !! "date" with
                                        | Some (VDate d) => (1678 <=? dt_year d) && (dt_year d <=? 2261)
                                        | _ => true
                                        end) (rows (dated ex_daily_store)) = true)
      by (vm_compute; reflexivity).
    rewrite forallb_forall in H. specialize (H r Hr). rewrite Hc in H.
    apply andb_true_iff in H as [H1 H2]. apply Z.leb_le in H1, H2. lia.
Defined.
